(** * Lead enrichment: orchestrator, workers and monitor

    A shallow embedding of the lead-enrichment repository:

    - [src/orchestrator/handler.py]  (module [Orchestrator]),
    - [src/workers/enrichment_worker.py]  (module [Worker], the polling
      variant) and [src/workers/enrichment_worker_ecs_optimized.py]
      (module [WorkerEcs], where it differs),
    - [scripts/monitor.py]  (module [Monitor]).

    Python values are an inductive type, dictionaries that travel as
    JSON are association lists in insertion order (with distinct keys),
    DynamoDB tables and the flat CRM update map are [gmap]s, a call that
    may raise returns a [result], and the external services (CRM, queue,
    compute service, browser, AI service) are records of answers passed
    in explicitly. *)

From Stdlib Require Import ZArith Ascii String List Bool Lia Sorted.
From Stdlib Require Import Floats.SpecFloat.
From stdpp Require Import base option list gmap strings pretty.

#[local] Set Warnings "-register-all".

Open Scope Z_scope.
Open Scope string_scope.

(* ===================================================================== *)
(** ** Python values *)
(* ===================================================================== *)

(** One character of a [string] stands for one code point of a Python
    [str]; the case, white-space and printability tables below cover
    the code points below 256, which is where every literal of the
    source lives but the two bar characters of the monitor: the printed
    line carries each of them as the three bytes of its UTF-8 form. *)

(** A [float] is carried by its [str()] text (the shortest text that
    reads back as the same float), a [Decimal] by the literal it was
    built from. Integers are unbounded, and so is the length of their
    decimal text (an interpreter that refuses to print an integer of
    more than 4300 digits is not modelled). *)
Inductive value : Type :=
| VNone
| VBool (b : bool)
| VInt (n : Z)
| VFloat (repr : string)
| VDecimal (lit : string)
| VStr (s : string)
| VList (items : list value)
| VDict (items : list (string * value)).

(** Exceptions carry the text that [str(e)] gives. *)
Inductive result (A : Type) : Type :=
| Ok (a : A)
| Raise (msg : string).
Arguments Ok {A} a.
Arguments Raise {A} msg.

#[export] Instance result_ret : MRet result := fun _ a => Ok a.
#[export] Instance result_bind : MBind result := fun _ _ k r =>
  match r with
  | Ok a => k a
  | Raise e => Raise e
  end.

Module Py.

(** [d.get(k)] on a dictionary: the entry for the key, [None] otherwise. *)
Fixpoint dict_get (k : string) (d : list (string * value)) : option value :=
  match d with
  | [] => None
  | (k', v) :: d' => if String.eqb k k' then Some v else dict_get k d'
  end.

(** [d.get(k)] read as a Python value (a missing key reads [None]). *)
Definition get (k : string) (d : list (string * value)) : value :=
  default VNone (dict_get k d).

(** [d.get(k, dflt)]. *)
Definition get_default (k : string) (dflt : value)
    (d : list (string * value)) : value :=
  default dflt (dict_get k d).

(** Is a decimal literal a zero: only zeros, signs and the point
    before any exponent, and at least one zero. *)
Fixpoint zero_mantissa (seen_zero : bool) (l : string) : bool :=
  match l with
  | EmptyString => seen_zero
  | String c l' =>
      if Ascii.eqb c "0"%char then zero_mantissa true l'
      else if Ascii.eqb c "."%char || Ascii.eqb c "-"%char || Ascii.eqb c "+"%char
           then zero_mantissa seen_zero l'
      else if Ascii.eqb c "e"%char || Ascii.eqb c "E"%char then seen_zero
      else false
  end.

(** Truth value of an object, as [if x:] and [not x] test it. *)
Definition truthy (v : value) : bool :=
  match v with
  | VNone => false
  | VBool b => b
  | VInt n => negb (Z.eqb n 0)
  | VFloat r => negb (String.eqb r "0.0" || String.eqb r "-0.0")
  | VDecimal l => negb (zero_mantissa false l)
  | VStr s => negb (String.eqb s "")
  | VList l => match l with [] => false | _ => true end
  | VDict d => match d with [] => false | _ => true end
  end.

(** [c.lower()] on one character: ASCII and Latin-1 capitals. *)
Definition lower_ascii (c : ascii) : ascii :=
  let n := nat_of_ascii c in
  if ((65 <=? n) && (n <=? 90))%nat then ascii_of_nat (n + 32)
  else if ((192 <=? n) && (n <=? 222) && negb (Nat.eqb n 215))%nat
       then ascii_of_nat (n + 32)
  else c.

(** [s.lower()]. *)
Fixpoint lower (s : string) : string :=
  match s with
  | EmptyString => EmptyString
  | String c s' => String (lower_ascii c) (lower s')
  end.

(** [c.isspace()] below 256. *)
Definition is_space (c : ascii) : bool :=
  let n := nat_of_ascii c in
  (((9 <=? n) && (n <=? 13)) || ((28 <=? n) && (n <=? 32))
   || Nat.eqb n 133 || Nat.eqb n 160)%nat.

(** [s.lstrip()]. *)
Fixpoint lstrip (s : string) : string :=
  match s with
  | EmptyString => EmptyString
  | String c s' => if is_space c then lstrip s' else s
  end.

(** [s.rstrip()]. *)
Fixpoint rstrip (s : string) : string :=
  match s with
  | EmptyString => EmptyString
  | String c s' =>
      match rstrip s' with
      | EmptyString => if is_space c then EmptyString else String c EmptyString
      | r => String c r
      end
  end.

(** [s.strip()]. *)
Definition strip (s : string) : string := rstrip (lstrip s).

(** [s.startswith(p)]. *)
Definition startswith (s p : string) : bool := String.prefix p s.

(** [sub in s]. *)
Fixpoint contains (sub s : string) : bool :=
  String.prefix sub s ||
  match s with
  | EmptyString => false
  | String _ s' => contains sub s'
  end.

(** [s[:n]] for a non-negative [n]. *)
Fixpoint take (n : nat) (s : string) : string :=
  match n, s with
  | O, _ => EmptyString
  | _, EmptyString => EmptyString
  | S n', String c s' => String c (take n' s')
  end.

(** [s[n:]] for a non-negative [n]. *)
Fixpoint drop (n : nat) (s : string) : string :=
  match n, s with
  | O, _ => s
  | _, EmptyString => EmptyString
  | S n', String _ s' => drop n' s'
  end.

(** [s * n] for a natural number [n]. *)
Fixpoint repeat_nat (s : string) (n : nat) : string :=
  match n with
  | O => EmptyString
  | S n' => s +:+ repeat_nat s n'
  end.

(** [sys.maxsize] of a 64-bit interpreter, the largest index. *)
Definition MAXSIZE : Z := 2 ^ 63 - 1.

(** [s * n] for a text [s] of one character: empty when [n <= 0]; a count
    that is no index, above [sys.maxsize] or below [-sys.maxsize - 1],
    raises OverflowError. Between these bounds the text is built when
    the machine has the memory for it; running out of memory is a limit
    of the machine and has no place in the model. *)
Definition repeat (s : string) (n : Z) : result string :=
  if Z.ltb MAXSIZE n || Z.ltb n (- MAXSIZE - 1)
  then Raise "cannot fit 'int' into an index-sized integer"
  else Ok (repeat_nat s (Z.to_nat n)).

(** [sep.join(parts)]. *)
Fixpoint join (sep : string) (parts : list string) : string :=
  match parts with
  | [] => ""
  | [p] => p
  | p :: rest => p +:+ sep +:+ join sep rest
  end.

(** [x in xs] for a list of strings. *)
Definition str_in (x : string) (xs : list string) : bool :=
  existsb (String.eqb x) xs.

(** [type(v).__name__], as error messages show it. *)
Definition type_name (v : value) : string :=
  match v with
  | VNone => "NoneType"
  | VBool _ => "bool"
  | VInt _ => "int"
  | VFloat _ => "float"
  | VDecimal _ => "decimal.Decimal"
  | VStr _ => "str"
  | VList _ => "list"
  | VDict _ => "dict"
  end.

(** The error of reading an attribute that the value does not have. *)
Definition no_attribute (v : value) (attribute : string) : string :=
  "'" +:+ type_name v +:+ "' object has no attribute '" +:+ attribute +:+ "'".

(** *** Decimal numbers *)

Definition is_digit (c : ascii) : bool :=
  let n := nat_of_ascii c in ((48 <=? n) && (n <=? 57))%nat.

(** A [decimal.Decimal]: sign, coefficient digits and exponent of a
    finite number, or one of the special values. The coefficient has no
    leading zero, and is [0] for a zero; the payload of a NaN has none
    either and may be empty. *)
Inductive decimal : Type :=
| DecFinite (negative : bool) (coefficient : string) (exponent : Z)
| DecInfinity (negative : bool)
| DecNaN (negative signaling : bool) (payload : string).

Fixpoint remove_underscores (s : string) : string :=
  match s with
  | EmptyString => EmptyString
  | String c s' =>
      if Ascii.eqb c "_"%char then remove_underscores s'
      else String c (remove_underscores s')
  end.

(** The leading digits of a text, and what follows them. *)
Fixpoint span_digits (s : string) : string * string :=
  match s with
  | EmptyString => (EmptyString, EmptyString)
  | String c s' =>
      if is_digit c
      then let '(digits, rest) := span_digits s' in (String c digits, rest)
      else (EmptyString, s)
  end.

Fixpoint digits_value (acc : Z) (digits : string) : Z :=
  match digits with
  | EmptyString => acc
  | String c digits' =>
      digits_value (10 * acc + (Z.of_nat (nat_of_ascii c) - 48)) digits'
  end.

Fixpoint strip_zeros (digits : string) : string :=
  match digits with
  | String c digits' =>
      if Ascii.eqb c "0"%char then strip_zeros digits' else digits
  | EmptyString => EmptyString
  end.

Definition split_sign (s : string) : bool * string :=
  match s with
  | String c s' =>
      if Ascii.eqb c "-"%char then (true, s')
      else if Ascii.eqb c "+"%char then (false, s')
      else (false, s)
  | EmptyString => (false, s)
  end.

(** The exponent part after its indicator: an optional sign and at
    least one digit, up to the end of the text. *)
Definition parse_exponent (s : string) : option Z :=
  let '(negative, s') := split_sign s in
  let '(digits, rest) := span_digits s' in
  match digits, rest with
  | String _ _, EmptyString =>
      Some (if negative then - digits_value 0 digits else digits_value 0 digits)
  | _, _ => None
  end.

(** The decimal part with its optional exponent: the digits of the
    coefficient and the exponent that goes with them. *)
Definition parse_number (s : string) : option (string * Z) :=
  let '(int_part, after_int) := span_digits s in
  let '(frac_part, after_frac) :=
    match after_int with
    | String c s' =>
        if Ascii.eqb c "."%char then span_digits s' else (EmptyString, after_int)
    | EmptyString => (EmptyString, after_int)
    end in
  let shift := Z.of_nat (String.length frac_part) in
  match int_part +:+ frac_part with
  | EmptyString => None
  | digits =>
      match after_frac with
      | EmptyString => Some (digits, - shift)
      | String c s' =>
          if Ascii.eqb c "e"%char || Ascii.eqb c "E"%char
          then match parse_exponent s' with
               | Some e => Some (digits, e - shift)
               | None => None
               end
          else None
      end
  end.

(** The payload of a NaN: digits up to the end of the text. *)
Definition parse_payload (s : string) : option string :=
  let '(digits, rest) := span_digits s in
  match rest with
  | EmptyString => Some (strip_zeros digits)
  | _ => None
  end.

(** The largest exponent and the smallest exponent of a last digit that
    the constructor takes ([MAX_EMAX], and [Etiny] at [MAX_PREC]). *)
Definition MAX_EMAX : Z := 999999999999999999.
Definition MIN_ETINY : Z := -1999999999999999997.

(** [Decimal(s)] for a text [s]: blanks around the text and underscores
    in it are dropped; then a sign may come, and a number with an
    optional exponent, an infinity or a NaN. A number that the largest
    context cannot hold exactly is an invalid operation. *)
Definition of_text (s : string) : result decimal :=
  let '(negative, body) := split_sign (remove_underscores (strip s)) in
  let word := lower body in
  if String.eqb word "inf" || String.eqb word "infinity"
  then Ok (DecInfinity negative)
  else if String.prefix "nan" word
  then match parse_payload (drop 3 body) with
       | Some payload => Ok (DecNaN negative false payload)
       | None => Raise "[<class 'decimal.ConversionSyntax'>]"
       end
  else if String.prefix "snan" word
  then match parse_payload (drop 4 body) with
       | Some payload => Ok (DecNaN negative true payload)
       | None => Raise "[<class 'decimal.ConversionSyntax'>]"
       end
  else
    match parse_number body with
    | None => Raise "[<class 'decimal.ConversionSyntax'>]"
    | Some (digits, e) =>
        match strip_zeros digits with
        | EmptyString =>
            if Z.leb MIN_ETINY e && Z.leb e MAX_EMAX
            then Ok (DecFinite negative "0" e)
            else Raise "[<class 'decimal.InvalidOperation'>]"
        | coefficient =>
            if Z.leb MIN_ETINY e
               && Z.leb (e + Z.of_nat (String.length coefficient) - 1) MAX_EMAX
            then Ok (DecFinite negative coefficient e)
            else Raise "[<class 'decimal.InvalidOperation'>]"
        end
    end.

(** [str(d)] for a decimal [d], the scientific string of the decimal
    arithmetic specification. *)
Definition to_text (d : decimal) : string :=
  match d with
  | DecInfinity negative => (if negative then "-" else "") +:+ "Infinity"
  | DecNaN negative signaling payload =>
      (if negative then "-" else "")
      +:+ (if signaling then "sNaN" else "NaN") +:+ payload
  | DecFinite negative coefficient e =>
      let len := Z.of_nat (String.length coefficient) in
      let leftdigits := e + len in
      let dotplace :=
        if Z.leb e 0 && Z.ltb (-6) leftdigits then leftdigits else 1 in
      let intpart :=
        if Z.leb dotplace 0 then "0"
        else if Z.leb len dotplace
             then coefficient +:+ repeat_nat "0" (Z.to_nat (dotplace - len))
        else take (Z.to_nat dotplace) coefficient in
      let fracpart :=
        if Z.leb dotplace 0
        then "." +:+ repeat_nat "0" (Z.to_nat (- dotplace)) +:+ coefficient
        else if Z.leb len dotplace then ""
        else "." +:+ drop (Z.to_nat dotplace) coefficient in
      let exp :=
        if Z.eqb leftdigits dotplace then ""
        else "E" +:+ (if Z.leb 0 (leftdigits - dotplace) then "+" else "")
             +:+ pretty (leftdigits - dotplace) in
      (if negative then "-" else "") +:+ intpart +:+ fracpart +:+ exp
  end.

(** *** Texts of values *)

Definition hex_digit (n : nat) : ascii :=
  if (n <? 10)%nat then ascii_of_nat (48 + n) else ascii_of_nat (87 + n).

(** Is the character printable, as [repr] decides it (below 256)? *)
Definition is_printable (c : ascii) : bool :=
  let n := nat_of_ascii c in
  negb ((n <? 32) || ((127 <=? n) && (n <=? 160)) || Nat.eqb n 173)%nat.

(** One character of a text inside the quotes of its [repr]. *)
Definition repr_char (quote : ascii) (c : ascii) : string :=
  let n := nat_of_ascii c in
  if Ascii.eqb c quote || Ascii.eqb c "\"%char
  then String "\"%char (String c EmptyString)
  else if Nat.eqb n 9 then "\t"
  else if Nat.eqb n 10 then "\n"
  else if Nat.eqb n 13 then "\r"
  else if is_printable c then String c EmptyString
  else String "\"%char
         (String "x"%char
            (String (hex_digit (n / 16))
               (String (hex_digit (n mod 16)) EmptyString))).

Fixpoint repr_chars (quote : ascii) (s : string) : string :=
  match s with
  | EmptyString => EmptyString
  | String c s' => repr_char quote c +:+ repr_chars quote s'
  end.

Definition has_char (c : ascii) (s : string) : bool :=
  existsb (Ascii.eqb c) (list_ascii_of_string s).

(** [repr(s)] for a text: in double quotes when the text has a single
    quote and no double quote, in single quotes otherwise. *)
Definition repr_text (s : string) : string :=
  let single := ascii_of_nat 39 in
  let double := ascii_of_nat 34 in
  let quote :=
    if has_char single s && negb (has_char double s) then double else single in
  String quote (repr_chars quote s +:+ String quote EmptyString).

(** [str(d)] for the decimal that a [VDecimal] text denotes. *)
Definition decimal_text (literal : string) : string :=
  match of_text literal with
  | Ok d => to_text d
  | Raise _ => literal
  end.

(** [repr(v)]. *)
Fixpoint repr (v : value) : string :=
  match v with
  | VNone => "None"
  | VBool true => "True"
  | VBool false => "False"
  | VInt n => pretty n
  | VFloat r => r
  | VDecimal l => "Decimal('" +:+ decimal_text l +:+ "')"
  | VStr s => repr_text s
  | VList l => "[" +:+ join ", " (map repr l) +:+ "]"
  | VDict d =>
      "{" +:+ join ", " (map (fun kv => repr_text (fst kv) +:+ ": "
                                        +:+ repr (snd kv)) d) +:+ "}"
  end.

(** [str(v)], which is also what an f-string shows: the text itself,
    the scientific string of a decimal, and [repr(v)] for the rest. *)
Definition str (v : value) : string :=
  match v with
  | VStr s => s
  | VDecimal l => decimal_text l
  | _ => repr v
  end.

End Py.

(* ===================================================================== *)
(** ** Storage normalisation (both worker variants) *)
(* ===================================================================== *)

(** [convert_floats_to_decimal], lines 21-30 of both worker files:
    [Decimal(str(obj))] for a float, the same dictionary keys with
    converted values, the same list positions with converted items, and
    anything else as it is. *)
Fixpoint convert_floats_to_decimal (obj : value) : value :=
  match obj with
  | VFloat r => VDecimal r
  | VDict d =>
      VDict (map (fun kv => (fst kv, convert_floats_to_decimal (snd kv))) d)
  | VList l => VList (map convert_floats_to_decimal l)
  | _ => obj
  end.

(** Does a float occur anywhere in the value? *)
Fixpoint has_float (v : value) : bool :=
  match v with
  | VFloat _ => true
  | VList l => existsb has_float l
  | VDict d => existsb (fun kv => has_float (snd kv)) d
  | _ => false
  end.

(** A position inside a nested value. *)
Inductive step : Type :=
| AtIndex (i : nat)
| AtKey (k : string).

(** The sub-value reached by following a path of list positions and
    dictionary keys. *)
Fixpoint at_path (p : list step) (v : value) : option value :=
  match p with
  | [] => Some v
  | AtIndex i :: p' =>
      match v with
      | VList l => match nth_error l i with
                   | Some w => at_path p' w
                   | None => None
                   end
      | _ => None
      end
  | AtKey k :: p' =>
      match v with
      | VDict d => match Py.dict_get k d with
                   | Some w => at_path p' w
                   | None => None
                   end
      | _ => None
      end
  end.

(** What the conversion may do to one node: a float becomes the decimal
    of its text, a list keeps its length, a dictionary keeps its keys in
    order, every other leaf is untouched. *)
Definition node_preserved (before after : value) : Prop :=
  match before with
  | VFloat r => after = VDecimal r
  | VList l => exists l', after = VList l' /\ length l' = length l
  | VDict d => exists d', after = VDict d' /\ map fst d' = map fst d
  | _ => after = before
  end.

(** Induction over nested values, with the hypothesis available for
    every list item and every dictionary entry. *)
Section ValueInd.
Variable P : value -> Prop.
Hypothesis HNone : P VNone.
Hypothesis HBool : forall b, P (VBool b).
Hypothesis HInt : forall n, P (VInt n).
Hypothesis HFloat : forall r, P (VFloat r).
Hypothesis HDecimal : forall l, P (VDecimal l).
Hypothesis HStr : forall s, P (VStr s).
Hypothesis HList : forall l, Forall P l -> P (VList l).
Hypothesis HDict : forall d, Forall (fun kv => P (snd kv)) d -> P (VDict d).

Fixpoint value_nested_ind (v : value) : P v :=
  match v with
  | VNone => HNone
  | VBool b => HBool b
  | VInt n => HInt n
  | VFloat r => HFloat r
  | VDecimal l => HDecimal l
  | VStr s => HStr s
  | VList l =>
      HList l ((fix go (l : list value) : Forall P l :=
                  match l with
                  | [] => List.Forall_nil P
                  | x :: l' => @List.Forall_cons _ P x l' (value_nested_ind x) (go l')
                  end) l)
  | VDict d =>
      HDict d ((fix go (d : list (string * value))
                  : Forall (fun kv => P (snd kv)) d :=
                  match d with
                  | [] => List.Forall_nil _
                  | kv :: d' =>
                      @List.Forall_cons _ _ kv d' (value_nested_ind (snd kv)) (go d')
                  end) d)
  end.
End ValueInd.

(* ===================================================================== *)
(** ** Orchestrator: [src/orchestrator/handler.py] *)
(* ===================================================================== *)

Module Orchestrator.

(** What [ecs.run_task] answers: the placed tasks and the failures. *)
Record run_task_response := RunTaskResponse {
  tasks : list value;
  failures : list value
}.

(** The external services as the handler sees them. Each field is the
    answer of one client call; [Raise] is the call raising. Resolving
    the CRM credentials from the secret store only feeds the CRM login,
    so it is part of [sf_connect]. *)
Record services := Services {
  sf_connect : result unit;
  sf_query_all : string -> result (list (list (string * value)));
  sqs_send_message : value -> result unit;
  ecs_run_task : Z -> result run_task_response
}.

(** The jobs table, the messages put on the queue and the worker counts
    requested from the compute service, in call order. *)
Record world := World {
  jobs : gmap string (gmap string value);
  queue : list value;
  run_task_calls : list Z
}.

Definition empty_world : world := World ∅ [] [].

(** [jobs_table.put_item(Item=item)]. *)
Definition put_item (job_id : string) (item : list (string * value))
    (w : world) : world :=
  World (<[job_id := list_to_map item]> (jobs w)) (queue w) (run_task_calls w).

(** [jobs_table.update_item(Key=..., UpdateExpression='SET ...')]: the
    named attributes are set, the others stay. *)
Definition update_item (job_id : string) (sets : list (string * value))
    (w : world) : world :=
  let old := default {[ "job_id" := VStr job_id ]} (jobs w !! job_id) in
  World (<[job_id := foldl (fun m kv => <[fst kv := snd kv]> m) old sets]> (jobs w))
        (queue w) (run_task_calls w).

(** The attribute of a job record. *)
Definition job_attr (w : world) (job_id attr : string) : option value :=
  item ← jobs w !! job_id; item !! attr.

(** The text of the lead query before any [LIMIT], lines 215-224. *)
Definition BASE_QUERY : string :=
"
        SELECT Id, Company, Website, FirstName, LastName, Email, Phone,
               Street, City, State, PostalCode, Country, Title, CreatedDate,
               Enriched_First_Name__c, Enriched_Last_Name__c, Enrichment_Completed__c
        FROM Lead
        WHERE Website != null
        AND (Enrichment_Completed__c = false OR Enrichment_Completed__c = null)
        AND CreatedById = '0054V00000GJFtbQAH'
        ORDER BY CreatedDate DESC
    ".

(** Lines 210-227: the default of [limit] and the query text. *)
Definition query_limit (parameters : list (string * value)) : value :=
  Py.get_default "limit" (VInt 10000) parameters.

Definition build_query (parameters : list (string * value)) : string :=
  let limit := query_limit parameters in
  if Py.truthy limit then BASE_QUERY +:+ " LIMIT " +:+ Py.str limit
  else BASE_QUERY.

(** Lines 244-261: one CRM record as a lead; [record['Id']] raises a
    [KeyError] when the field is missing. *)
Definition lead_of_record (record : list (string * value)) : result value :=
  match Py.dict_get "Id" record with
  | None => Raise "'Id'"
  | Some id =>
      Ok (VDict [
        ("id", id);
        ("company", Py.get "Company" record);
        ("website", Py.get "Website" record);
        ("email", Py.get "Email" record);
        ("phone", Py.get "Phone" record);
        ("first_name", Py.get "FirstName" record);
        ("last_name", Py.get "LastName" record);
        ("title", Py.get "Title" record);
        ("created_date", Py.get "CreatedDate" record);
        ("address", VDict [
           ("street", Py.get "Street" record);
           ("city", Py.get "City" record);
           ("state", Py.get "State" record);
           ("postal_code", Py.get "PostalCode" record);
           ("country", Py.get "Country" record)])])
  end.

Fixpoint leads_of_records (records : list (list (string * value)))
    : result (list value) :=
  match records with
  | [] => Ok []
  | r :: rest =>
      lead ← lead_of_record r;
      leads ← leads_of_records rest;
      Ok (lead :: leads)
  end.

(** [fetch_salesforce_leads], lines 208-264. *)
Definition fetch_salesforce_leads (svc : services)
    (parameters : list (string * value)) : result (list value) :=
  records ← sf_query_all svc (build_query parameters);
  leads_of_records records.

(** Lines 161-162: the number of workers asked for. *)
Definition optimal_workers (queued_count : Z) : Z :=
  Z.min (Z.max 2 (queued_count / 500)) 10.

(** Line 271: the count handed to the compute service. *)
Definition safe_count (count : Z) : Z := Z.min count 10.

(** [start_ecs_workers], lines 267-300: any exception of the placement
    call is caught and answered with 0. *)
Definition start_ecs_workers (svc : services) (count : Z) (w : world)
    : world * Z :=
  let w' := World (jobs w) (queue w) (run_task_calls w ++ [safe_count count]) in
  match ecs_run_task svc (safe_count count) with
  | Ok response => (w', Z.of_nat (length (tasks response)))
  | Raise _ => (w', 0)
  end.

(** Lines 145-157: one message per lead; a send that raises ends the
    loop with the messages sent so far left on the queue. *)
Fixpoint send_leads (svc : services) (job_id : string)
    (parameters : list (string * value)) (leads : list value)
    (queued_count : Z) (w : world) : world * result Z :=
  match leads with
  | [] => (w, Ok queued_count)
  | lead :: rest =>
      let message_body :=
        VDict [("job_id", VStr job_id); ("lead", lead);
               ("parameters", VDict parameters)] in
      match sqs_send_message svc message_body with
      | Ok _ =>
          send_leads svc job_id parameters rest (queued_count + 1)
            (World (jobs w) (queue w ++ [message_body]) (run_task_calls w))
      | Raise e => (w, Raise e)
      end
  end.

(** The body of the [try] of [start_enrichment_job], lines 129-191. *)
Definition job_steps (svc : services) (job_id : string)
    (parameters : list (string * value)) (w : world) : world * result value :=
  match fetch_salesforce_leads svc parameters with
  | Raise e => (w, Raise e)
  | Ok leads =>
      let leads_found := Z.of_nat (length leads) in
      let w1 := update_item job_id
                  [("status", VStr "queuing_leads");
                   ("leads_found", VInt leads_found)] w in
      match send_leads svc job_id parameters leads 0 w1 with
      | (w2, Raise e) => (w2, Raise e)
      | (w2, Ok queued_count) =>
          let '(w3, workers_started) :=
            start_ecs_workers svc (optimal_workers queued_count) w2 in
          let w4 := update_item job_id
                      [("status", VStr "processing");
                       ("leads_queued", VInt queued_count);
                       ("workers_started", VInt workers_started)] w3 in
          (w4, Ok (VDict [
             ("statusCode", VInt 200);
             ("body", VDict [
                ("job_id", VStr job_id);
                ("status", VStr "processing");
                ("leads_found", VInt leads_found);
                ("leads_queued", VInt queued_count);
                ("workers_started", VInt workers_started);
                ("message",
                 VStr ("Job started successfully. Processing "
                       +:+ pretty queued_count +:+ " leads with "
                       +:+ pretty workers_started +:+ " workers."))])]))
      end
  end.

(** [start_enrichment_job], lines 95-205. [job_id] is the fresh UUID and
    [created_at] the formatted clock reading. The response body, a JSON
    text in the source, is kept as the dictionary it is dumped from. *)
Definition start_enrichment_job (svc : services) (job_id created_at : string)
    (parameters : list (string * value)) (w : world) : world * result value :=
  match sf_connect svc with
  | Raise e => (w, Raise e)
  | Ok _ =>
      let w0 := put_item job_id
                  [("job_id", VStr job_id);
                   ("status", VStr "fetching_leads");
                   ("created_at", VStr created_at);
                   ("parameters", VDict parameters)] w in
      match job_steps svc job_id parameters w0 with
      | (w', Ok response) => (w', Ok response)
      | (w', Raise e) =>
          (update_item job_id
             [("status", VStr "failed"); ("error", VStr e)] w',
           Raise e)
      end
  end.

(** The invocation payload: a JSON object, or a string (the base64
    form). *)
Inductive event : Type :=
| EvDict (d : list (string * value))
| EvStr (s : string).

(** Lines 73-81: the parameters of a direct invocation. *)
Definition direct_parameters (d : list (string * value))
    : list (string * value) :=
  let limit := Py.get "limit" d in
  let update_salesforce := Py.get_default "update_salesforce" (VBool false) d in
  let params := [("update_salesforce", update_salesforce)] in
  if Py.truthy limit then params ++ [("limit", limit)] else params.

(** Lines 57-60: the parameters of a scheduled run. *)
Definition default_params : list (string * value) :=
  [("update_salesforce", VBool true); ("limit", VInt 10000)].

(** Line 54: [event.get('source') == 'aws.events']. *)
Definition is_scheduled (d : list (string * value)) : bool :=
  match Py.dict_get "source" d with
  | Some (VStr source) => String.eqb source "aws.events"
  | _ => false
  end.

(** The parameters the handler starts the job with; a string payload
    has no [get], so line 54 raises before any decoding. *)
Definition handler_parameters (ev : event) : result (list (string * value)) :=
  match ev with
  | EvStr _ => Raise "'str' object has no attribute 'get'"
  | EvDict d =>
      if is_scheduled d then Ok default_params
      else Ok (direct_parameters d)
  end.

(** [lambda_handler], lines 32-92: every exception becomes a 500
    answer. *)
Definition lambda_handler (svc : services) (job_id created_at : string)
    (ev : event) (w : world) : world * value :=
  let error_response e :=
    VDict [("statusCode", VInt 500); ("body", VDict [("error", VStr e)])] in
  match handler_parameters ev with
  | Raise e => (w, error_response e)
  | Ok parameters =>
      match start_enrichment_job svc job_id created_at parameters w with
      | (w', Ok response) => (w', response)
      | (w', Raise e) => (w', error_response e)
      end
  end.

End Orchestrator.

(* ===================================================================== *)
(** ** Monitoring dashboard: [scripts/monitor.py] *)
(* ===================================================================== *)

Module Monitor.

(** Python floats are IEEE binary64 numbers. *)
Definition prec : Z := 53.
Definition emax : Z := 1024.

(** The float an integer operand denotes, kept exact: [SFdiv] and
    [SFmul] round once, on the result. *)
Definition float_of_int (n : Z) : spec_float :=
  match n with
  | Z0 => S754_zero false
  | Zpos p => S754_finite false p 0
  | Zneg p => S754_finite true p 0
  end.

(** [a / b] on integers: the correctly rounded quotient. *)
Definition true_div (a b : Z) : result spec_float :=
  if Z.eqb b 0 then Raise "division by zero"
  else match SFdiv prec emax (float_of_int a) (float_of_int b) with
       | S754_infinity _ => Raise "integer division result too large for a float"
       | q => Ok q
       end.








(** The two scans of the jobs table that [get_latest_jobs] may make: the
    items of [scan(Limit=50)] and of the full [scan()], or the exception
    of the call. *)
Record job_scans := JobScans {
  scan_limited : result (list (list (string * value)));
  scan_all : result (list (list (string * value)))
}.

(** A number as Python orders it: an infinity, or the finite number
    [m * 2^e2 * 10^e10]. *)
Inductive number : Type :=
| NegInfinity
| Finite (m e2 e10 : Z)
| PosInfinity.

(** [a <= b] on numbers, exactly. *)
Definition number_leb (a b : number) : bool :=
  match a, b with
  | NegInfinity, _ => true
  | _, PosInfinity => true
  | PosInfinity, _ => false
  | _, NegInfinity => false
  | Finite m1 a2 a10, Finite m2 b2 b10 =>
      let k2 := Z.min a2 b2 in
      let k10 := Z.min a10 b10 in
      Z.leb (m1 * 2 ^ (a2 - k2) * 10 ^ (a10 - k10))
            (m2 * 2 ^ (b2 - k2) * 10 ^ (b10 - k10))
  end.

Definition signed (negative : bool) (n : Z) : Z := if negative then - n else n.

(** The number that a decimal is; a NaN is none. *)
Definition number_of_decimal (d : Py.decimal) : option number :=
  match d with
  | Py.DecFinite negative coefficient e =>
      Some (Finite (signed negative (Py.digits_value 0 coefficient)) 0 e)
  | Py.DecInfinity negative =>
      Some (if negative then NegInfinity else PosInfinity)
  | Py.DecNaN _ _ _ => None
  end.

(** The number that a float is, from its [repr]: the binary64 number
    nearest to the decimal text. *)
Definition number_of_float (r : string) : option number :=
  match Py.of_text r with
  | Ok (Py.DecFinite negative coefficient e) =>
      let n := signed negative (Py.digits_value 0 coefficient) in
      let x :=
        if Z.leb 0 e then binary_normalize prec emax (n * 10 ^ e) 0 negative
        else SFdiv prec emax (float_of_int n) (float_of_int (10 ^ (- e))) in
      match x with
      | S754_zero _ => Some (Finite 0 0 0)
      | S754_finite s m e2 => Some (Finite (signed s (Z.pos m)) e2 0)
      | S754_infinity s => Some (if s then NegInfinity else PosInfinity)
      | S754_nan => None
      end
  | Ok (Py.DecInfinity negative) =>
      Some (if negative then NegInfinity else PosInfinity)
  | _ => None
  end.

Definition number_of_value (v : value) : option number :=
  match v with
  | VBool b => Some (Finite (if b then 1 else 0) 0 0)
  | VInt n => Some (Finite n 0 0)
  | VFloat r => number_of_float r
  | VDecimal l =>
      match Py.of_text l with
      | Ok d => number_of_decimal d
      | Raise _ => None
      end
  | _ => None
  end.

(** The sort keys that the model orders: texts among themselves, by
    code point, and numbers among themselves, by value. *)
Inductive sort_key : Type :=
| KeyText (s : string)
| KeyNumber (x : number).

Definition key_leb (a b : sort_key) : bool :=
  match a, b with
  | KeyText s, KeyText t => String.leb s t
  | KeyNumber x, KeyNumber y => number_leb x y
  | _, _ => false
  end.

Definition same_kind (a b : sort_key) : bool :=
  match a, b with
  | KeyText _, KeyText _ => true
  | KeyNumber _, KeyNumber _ => true
  | _, _ => false
  end.

(** The sort key of line 60, [x.get('created_at', '')]. A job record
    carries the creation time as text (line 120 of the orchestrator
    writes it so); a table may also hold numbers there. A key that
    Python cannot compare with any other ([None], a dictionary, the NaN
    of a decimal) is answered with the error that the first comparison
    raises. A list as creation time, which Python compares item by
    item, and the NaN of a float, which no table holds, are outside the
    model and answered in the same way. *)
Definition created_at_key (job : list (string * value)) : result sort_key :=
  match Py.get_default "created_at" (VStr "") job with
  | VStr s => Ok (KeyText s)
  | v =>
      match number_of_value v with
      | Some x => Ok (KeyNumber x)
      | None =>
          match v with
          | VDecimal _ => Raise "[<class 'decimal.InvalidOperation'>]"
          | _ =>
              Raise ("'<' not supported between instances of '"
                     +:+ Py.type_name v +:+ "' and '" +:+ Py.type_name v
                     +:+ "'")
          end
      end
  end.

Fixpoint keyed_jobs (jobs : list (list (string * value)))
    : result (list (sort_key * list (string * value))) :=
  match jobs with
  | [] => Ok []
  | job :: rest =>
      k ← created_at_key job;
      ks ← keyed_jobs rest;
      Ok ((k, job) :: ks)
  end.

(** Are all keys of one kind? A text and a number cannot be compared. *)
Definition all_same_kind {A : Type} (keyed : list (sort_key * A)) : bool :=
  match keyed with
  | [] => true
  | (k, _) :: rest => forallb (fun kx => same_kind k (fst kx)) rest
  end.

(** [list.sort(key=..., reverse=True)]: a stable sort into descending
    key order, so an item goes behind the items whose key is at least
    its own. *)
Fixpoint insert_descending {K A : Type} (leb : K -> K -> bool) (k : K) (x : A)
    (sorted : list (K * A)) : list (K * A) :=
  match sorted with
  | [] => [(k, x)]
  | (k', y) :: rest =>
      if leb k k' then (k', y) :: insert_descending leb k x rest
      else (k, x) :: sorted
  end.

Definition sort_descending {K A : Type} (leb : K -> K -> bool)
    (l : list (K * A)) : list (K * A) :=
  foldl (fun sorted kx => insert_descending leb (fst kx) (snd kx) sorted) [] l.

(** The body of the [try] of [get_latest_jobs], lines 46-61. A single
    job is returned without any comparison; among several, every key
    has to be comparable with the others (which two keys the failing
    comparison names is not observable: line 62 turns every exception
    into the empty list). The slice bound [limit] is a natural number,
    as at every call of the script. *)
Definition latest_jobs_steps (scans : job_scans) (limit : nat)
    : result (list (list (string * value))) :=
  first ← scan_limited scans;
  jobs ← match first with
         | [] => scan_all scans
         | _ => Ok first
         end;
  match jobs with
  | [] => Ok []
  | [job] => Ok (firstn limit [job])
  | _ =>
      ks ← keyed_jobs jobs;
      if all_same_kind ks
      then Ok (firstn limit (map snd (sort_descending key_leb ks)))
      else Raise "'<' not supported between instances of 'str' and 'decimal.Decimal'"
  end.

(** [get_latest_jobs], lines 43-64: any exception gives the empty list. *)
Definition get_latest_jobs (scans : job_scans) (limit : nat)
    : list (list (string * value)) :=
  match latest_jobs_steps scans limit with
  | Ok jobs => jobs
  | Raise _ => []
  end.

End Monitor.

(* ===================================================================== *)
(** ** Polling worker: [src/workers/enrichment_worker.py] *)
(* ===================================================================== *)

(** The double-quote character and the line break, for the texts that
    hold them. *)
Definition DQ : string := String (ascii_of_nat 34) EmptyString.
Definition NL : string := String (ascii_of_nat 10) EmptyString.

(** The parts of the extraction prompt around the company name and the
    website content (lines 263-289); the two worker files differ in the
    last part only. *)
Definition PROMPT_HEAD : string :=
  "
        Analyze the following website content for company: ".

Definition PROMPT_MID : string :=
  "
        
        Extract the following information:
        1. Business owner/founder's first name and last name
        2. Complete business address (street, city, state, zip, country)
        
        Website content:
        ".

Definition PROMPT_TAIL : string :=
  "  # Limit content to avoid token limits
        
        Return a JSON object with:
        {
            " +:+ DQ +:+ "first_name" +:+ DQ +:+ ": " +:+ DQ +:+ "owner's first name OR null if not found" +:+ DQ +:+ ",
            " +:+ DQ +:+ "last_name" +:+ DQ +:+ ": " +:+ DQ +:+ "owner's last name OR null if not found" +:+ DQ +:+ ",
            " +:+ DQ +:+ "address" +:+ DQ +:+ ": {
                " +:+ DQ +:+ "street" +:+ DQ +:+ ": " +:+ DQ +:+ "street address OR null if not found" +:+ DQ +:+ ",
                " +:+ DQ +:+ "city" +:+ DQ +:+ ": " +:+ DQ +:+ "city OR null if not found" +:+ DQ +:+ ",
                " +:+ DQ +:+ "state" +:+ DQ +:+ ": " +:+ DQ +:+ "state OR null if not found" +:+ DQ +:+ ",
                " +:+ DQ +:+ "postal_code" +:+ DQ +:+ ": " +:+ DQ +:+ "zip code OR null if not found" +:+ DQ +:+ ",
                " +:+ DQ +:+ "country" +:+ DQ +:+ ": " +:+ DQ +:+ "country OR null if not found" +:+ DQ +:+ "
            },
            " +:+ DQ +:+ "confidence" +:+ DQ +:+ ": 0.0 to 1.0,
            " +:+ DQ +:+ "reasoning" +:+ DQ +:+ ": " +:+ DQ +:+ "brief explanation" +:+ DQ +:+ "
        }
        
        IMPORTANT: If information is not found, use null values - never use strings like " +:+ DQ +:+ "Not found" +:+ DQ +:+ " or " +:+ DQ +:+ "Unknown" +:+ DQ +:+ ".
        ".

Definition PROMPT_TAIL_ECS : string :=
  "  # Limit content to avoid token limits
        
        Return a JSON object with:
        {
            " +:+ DQ +:+ "first_name" +:+ DQ +:+ ": " +:+ DQ +:+ "owner's first name" +:+ DQ +:+ ",
            " +:+ DQ +:+ "last_name" +:+ DQ +:+ ": " +:+ DQ +:+ "owner's last name" +:+ DQ +:+ ",
            " +:+ DQ +:+ "address" +:+ DQ +:+ ": {
                " +:+ DQ +:+ "street" +:+ DQ +:+ ": " +:+ DQ +:+ "street address" +:+ DQ +:+ ",
                " +:+ DQ +:+ "city" +:+ DQ +:+ ": " +:+ DQ +:+ "city" +:+ DQ +:+ ",
                " +:+ DQ +:+ "state" +:+ DQ +:+ ": " +:+ DQ +:+ "state" +:+ DQ +:+ ",
                " +:+ DQ +:+ "postal_code" +:+ DQ +:+ ": " +:+ DQ +:+ "zip code" +:+ DQ +:+ ",
                " +:+ DQ +:+ "country" +:+ DQ +:+ ": " +:+ DQ +:+ "country" +:+ DQ +:+ "
            },
            " +:+ DQ +:+ "confidence" +:+ DQ +:+ ": 0.0 to 1.0,
            " +:+ DQ +:+ "reasoning" +:+ DQ +:+ ": " +:+ DQ +:+ "brief explanation" +:+ DQ +:+ "
        }
        
        If information is not found, return null values.
        ".

(** The number of characters of website content kept in the prompt. *)
Definition CONTENT_LIMIT : nat := 3000.

Module Worker.

(** *** Scraping *)

(** A link of the main page whose text holds "contact" or "about": its
    [href] attribute and what following it gives. *)
Record link := Link {
  href : option string;
  page_text : result string
}.

(** What the worker did with the browser, in order. *)
Inductive scrape_event : Type :=
| Navigate (url : string) (attempt : nat) (timeout_ms : Z)
| Sleep (seconds : Z).

(** The services of the worker. [browser_visit url attempt timeout] is
    one browser session up to the text and the links of the main page,
    or the text of the exception it raised; [openai_chat prompt] is the
    parsed JSON answer, or the request or parse failure. *)
Record services := Services {
  browser_visit : string -> nat -> Z -> result (string * list link);
  openai_chat : string -> result value;
  sf_connect : result unit;
  sf_lead_update : value -> gmap string value -> result unit
}.

(** Lines 234-238. *)
Definition RETRYABLE_ERRORS : list string :=
  ["timeout"; "net::err_cert_date_invalid"; "net::err_connection_refused";
   "net::err_connection_timed_out"; "net::err_name_not_resolved";
   "connection closed"; "connection reset"].

(** Line 240. *)
Definition is_retryable (error_msg : string) : bool :=
  existsb (fun retry_err => Py.contains (Py.lower retry_err) (Py.lower error_msg))
          RETRYABLE_ERRORS.

(** Lines 200-211: the first three links, without the ones that have
    no address, start with [mailto:] or fail to load. *)
Definition follow_link (l : link) : option value :=
  match href l with
  | Some h =>
      if negb (String.eqb h "") && negb (Py.startswith h "mailto:") then
        match page_text l with
        | Ok text => Some (VDict [("url", VStr h); ("content", VStr text)])
        | Raise _ => None
        end
      else None
  | None => None
  end.

Definition additional_pages (contact_links : list link) : list value :=
  omap follow_link (firstn 3 contact_links).

(** Line 186. *)
Definition attempt_timeout (attempt : nat) : Z :=
  20000 + Z.of_nat attempt * 10000.

(** Line 247. *)
Definition wait_time (attempt : nat) : Z := 2 ^ Z.of_nat attempt.

(** The loop of [scrape_website], lines 156-251, from attempt number
    [attempt] with [remaining] iterations of [range(max_retries)] left. *)
Fixpoint scrape_attempts (svc : services) (url scraped_at : string)
    (max_retries remaining attempt : nat)
    : list scrape_event * option value :=
  match remaining with
  | O => ([], None)
  | S remaining' =>
      let timeout := attempt_timeout attempt in
      match browser_visit svc url attempt timeout with
      | Ok (text_content, contact_links) =>
          ([Navigate url attempt timeout],
           Some (VDict [("url", VStr url);
                        ("main_content", VStr text_content);
                        ("additional_pages", VList (additional_pages contact_links));
                        ("scraped_at", VStr scraped_at)]))
      | Raise error_msg =>
          if negb (is_retryable error_msg)
             || Z.eqb (Z.of_nat attempt) (Z.of_nat max_retries - 1)
          then ([Navigate url attempt timeout], None)
          else
            let '(events, scraped) :=
              scrape_attempts svc url scraped_at max_retries remaining' (S attempt) in
            (Navigate url attempt timeout :: Sleep (wait_time attempt) :: events,
             scraped)
      end
  end.

Definition scrape_website (svc : services) (url scraped_at : string)
    (max_retries : nat) : list scrape_event * option value :=
  scrape_attempts svc url scraped_at max_retries max_retries 0.

Definition DEFAULT_MAX_RETRIES : nat := 3.

(** The pauses and the page-load timeouts of a run, in order. *)
Definition sleeps (events : list scrape_event) : list Z :=
  omap (fun e => match e with Sleep s => Some s | _ => None end) events.

Definition timeouts (events : list scrape_event) : list Z :=
  omap (fun e => match e with Navigate _ _ t => Some t | _ => None end) events.

(** *** AI extraction *)

(** Text operands: [+] between a [str] and anything else raises. *)
Definition as_str (v : value) : result string :=
  match v with
  | VStr s => Ok s
  | _ => Raise "can only concatenate str to str"
  end.

(** Lines 259-260: the loop that appends every additional page. *)
Fixpoint append_pages (all_content : string) (pages : list value)
    : result string :=
  match pages with
  | [] => Ok all_content
  | page :: rest =>
      match page with
      | VDict p =>
          match Py.dict_get "content" p with
          | Some c =>
              text ← as_str c;
              append_pages (all_content +:+ (NL +:+ NL +:+ text)) rest
          | None => Raise "'content'"
          end
      | _ => Raise "page is not a mapping"
      end
  end.

(** Lines 258-260. The main content is page text; another kind of
    value there is answered with the exception that the first [+=], or
    the slice, would raise. *)
Definition all_content (scraped_data : list (string * value)) : result string :=
  match Py.dict_get "main_content" scraped_data with
  | None => Raise "'main_content'"
  | Some main =>
      main_text ← as_str main;
      match Py.get_default "additional_pages" (VList []) scraped_data with
      | VList pages => append_pages main_text pages
      | _ => Raise "additional_pages is not iterable"
      end
  end.

(** Line 271: [all_content[:3000]]. *)
Definition website_content (scraped_data : list (string * value))
    : result string :=
  content ← all_content scraped_data;
  Ok (Py.take CONTENT_LIMIT content).

(** Lines 263-289, with the closing part of the prompt as a parameter. *)
Definition build_prompt_with (prompt_tail : string)
    (scraped_data lead : list (string * value)) : result string :=
  content ← website_content scraped_data;
  Ok (PROMPT_HEAD +:+ Py.str (Py.get_default "company" (VStr "Unknown") lead)
      +:+ PROMPT_MID +:+ content +:+ prompt_tail).

Definition build_prompt := build_prompt_with PROMPT_TAIL.

(** [extract_information], lines 254-314: every failure gives [None]. *)
Definition extract_information_with (prompt_tail : string) (svc : services)
    (scraped_data lead : list (string * value)) : option value :=
  match build_prompt_with prompt_tail scraped_data lead with
  | Raise _ => None
  | Ok prompt =>
      match openai_chat svc prompt with
      | Ok extracted => Some extracted
      | Raise _ => None
      end
  end.

Definition extract_information := extract_information_with PROMPT_TAIL.

(** *** Website content cache *)

(** One row of the cache table. [cached_at] is the instant the ISO text
    of the row denotes, in microseconds; [None] is a text that
    [fromisoformat] rejects. *)
Record cache_item := CacheItem {
  content : value;
  cached_at : option Z
}.

Definition MICROSECONDS_PER_DAY : Z := 86400 * 1000000.

(** [(a - b).days]: whole days, rounded down. *)
Definition timedelta_days (a b : Z) : Z := (a - b) / MICROSECONDS_PER_DAY.

(** [check_cache], lines 317-328. *)
Definition check_cache (now : Z) (website : string)
    (cache_table : gmap string cache_item) : option value :=
  match cache_table !! website with
  | Some item =>
      match cached_at item with
      | Some cached_time =>
          if Z.ltb (timedelta_days now cached_time) 1 then Some (content item)
          else None
      | None => None
      end
  | None => None
  end.

(** [cache_content], lines 331-342. *)
Definition cache_content (now : Z) (website : string) (scraped : value)
    (cache_table : gmap string cache_item) : gmap string cache_item :=
  <[website := CacheItem (convert_floats_to_decimal scraped) (Some now)]> cache_table.

(** *** The stores and the pipeline *)

(** The cache table, the results put (in order), the job counters by
    job and attribute, the browser activity, and the CRM updates made. *)
Record world := World {
  cache_table : gmap string cache_item;
  results_table : list (list (string * value));
  job_counters : gmap (string * string) Z;
  browser_log : list scrape_event;
  crm_updates : list (value * gmap string value)
}.

Definition empty_world : world := World ∅ [] ∅ [] [].

(** The readings of the clock during one lead: at the cache lookup, at
    the cache write, the ISO text stamped on records, and the text that
    the CRM write-back formats for itself at line 430
    ([strftime('%Y-%m-%dT%H:%M:%S.000Z')]). *)
Record clock := Clock {
  lookup_time : Z;
  cache_time : Z;
  stamp : string;
  crm_stamp : string
}.

(** [update_job_progress], lines 445-461. *)
Definition update_job_progress (job_id : string) (success : bool)
    (w : world) : world :=
  let attr := if success then "processed_leads" else "failed_leads" in
  let old := default 0 (job_counters w !! (job_id, attr)) in
  World (cache_table w) (results_table w)
        (<[(job_id, attr) := old + 1]> (job_counters w))
        (browser_log w) (crm_updates w).

Definition put_result (item : list (string * value)) (w : world) : world :=
  World (cache_table w) (results_table w ++ [item]) (job_counters w)
        (browser_log w) (crm_updates w).

(** [save_error_result], lines 345-356; it returns [None]. *)
Definition save_error_result (ck : clock) (job_id : string) (lead_id : value)
    (error : string) (w : world) : world :=
  update_job_progress job_id false
    (put_result [("lead_id", lead_id); ("job_id", VStr job_id);
                 ("status", VStr "failed"); ("error", VStr error);
                 ("processed_at", VStr (stamp ck))] w).

(** *** CRM write-back *)

(** Line 378. *)
Definition INVALID_STRINGS : list string :=
  ["not found"; "unknown"; "n/a"; "none"; "null"; ""].

(** [is_valid_value], lines 373-380. *)
Definition is_valid_value (v : value) : bool :=
  if negb (Py.truthy v) then false
  else match v with
       | VStr s => negb (Py.str_in (Py.strip (Py.lower s)) INVALID_STRINGS)
       | _ => true
       end.

(** One of the seven blocks of lines 383-411: the custom field and the
    standard field, both or neither. *)
Definition set_fields (enriched standard : string) (v : value)
    (update_data : gmap string value) : gmap string value :=
  if is_valid_value v
  then <[standard := v]> (<[enriched := v]> update_data)
  else update_data.

(** Line 392: [extracted_info.get('address') or {}], which must then
    answer [get]. *)
Definition address_of (extracted_info : list (string * value))
    : result (list (string * value)) :=
  let a := Py.get "address" extracted_info in
  if Py.truthy a then
    match a with
    | VDict d => Ok d
    | _ => Raise (Py.no_attribute a "get")
    end
  else Ok [].

(** Lines 414-424. *)
Definition address_parts (address : list (string * value)) : list value :=
  List.filter is_valid_value
    [Py.get "street" address; Py.get "city" address; Py.get "state" address;
     Py.get "postal_code" address; Py.get "country" address].

(** The error of [str.join] at the first item that is not text. *)
Definition join_error (index : nat) (item : value) : string :=
  "sequence item " +:+ pretty index +:+ ": expected str instance, "
  +:+ Py.type_name item +:+ " found".

(** The operands of [', '.join]: every part has to be text, and the
    first one that is not is named by the error. *)
Fixpoint texts_from (index : nat) (parts : list value) : result (list string) :=
  match parts with
  | [] => Ok []
  | VStr s :: rest => ss ← texts_from (S index) rest; Ok (s :: ss)
  | item :: _ => Raise (join_error index item)
  end.

Definition texts_of (parts : list value) : result (list string) :=
  texts_from 0 parts.

(** Lines 370-433: the update map. *)
Definition build_update_data (extracted_info : list (string * value))
    (enrichment_date : string) : result (gmap string value) :=
  let d0 : gmap string value := ∅ in
  let d1 := set_fields "Enriched_First_Name__c" "FirstName"
              (Py.get "first_name" extracted_info) d0 in
  let d2 := set_fields "Enriched_Last_Name__c" "LastName"
              (Py.get "last_name" extracted_info) d1 in
  address ← address_of extracted_info;
  let d3 := set_fields "Enriched_Street__c" "Street" (Py.get "street" address) d2 in
  let d4 := set_fields "Enriched_City__c" "City" (Py.get "city" address) d3 in
  let d5 := set_fields "Enriched_State__c" "State" (Py.get "state" address) d4 in
  let d6 := set_fields "Enriched_Postal_Code__c" "PostalCode"
              (Py.get "postal_code" address) d5 in
  let d7 := set_fields "Enriched_Country__c" "Country"
              (Py.get "country" address) d6 in
  d8 ← match address_parts address with
       | [] => Ok d7
       | parts =>
           ss ← texts_of parts;
           Ok (<["Enriched_Full_Address__c" := VStr (Py.join ", " ss)]> d7)
       end;
  Ok (<["Enrichment_Completed__c" := VBool true]>
      (<["Enrichment_Source__c" := VStr "AI_Web_Scraping"]>
       (<["Enrichment_Confidence__c" :=
            match extracted_info with
            | [] => VInt 0
            | _ => Py.get_default "confidence" (VInt 0) extracted_info
            end]>
        (<["Enrichment_Date__c" := VStr enrichment_date]> d8)))).

(** [update_salesforce_lead], lines 359-442: every exception is
    re-raised. *)
Definition update_salesforce_lead (svc : services) (lead_id : value)
    (extracted_info : list (string * value)) (enrichment_date : string)
    (w : world) : world * result unit :=
  match sf_connect svc with
  | Raise e => (w, Raise e)
  | Ok _ =>
      match build_update_data extracted_info enrichment_date with
      | Raise e => (w, Raise e)
      | Ok update_data =>
          match sf_lead_update svc lead_id update_data with
          | Raise e => (w, Raise e)
          | Ok _ =>
              (World (cache_table w) (results_table w) (job_counters w)
                     (browser_log w) (crm_updates w ++ [(lead_id, update_data)]),
               Ok ())
          end
      end
  end.

(** *** The pipeline *)

(** [Decimal(str(x))], line 126, kept as the text of the decimal. *)
Definition decimal_of_str (v : value) : result value :=
  d ← Py.of_text (Py.str v);
  Ok (VDecimal (Py.to_text d)).

Definition truthy_opt (o : option value) : bool :=
  match o with
  | Some v => Py.truthy v
  | None => false
  end.

Definition log_browser (events : list scrape_event) (w : world) : world :=
  World (cache_table w) (results_table w) (job_counters w)
        (browser_log w ++ events) (crm_updates w).

Definition set_cache (t : gmap string cache_item) (w : world) : world :=
  World t (results_table w) (job_counters w) (browser_log w) (crm_updates w).

(** Lines 97-108: the cached content when there is a fresh one, a new
    scrape otherwise, cached when it gave something. A website that is
    not text is neither a cache key nor a page address: both calls
    raise, both are caught, and there is no content. *)
Definition obtain_content (svc : services) (ck : clock) (website : value)
    (w : world) : world * option value :=
  match website with
  | VStr url =>
      let cached_content := check_cache (lookup_time ck) url (cache_table w) in
      if truthy_opt cached_content then (w, cached_content)
      else
        let '(events, scraped_data) :=
          scrape_website svc url (stamp ck) DEFAULT_MAX_RETRIES in
        let w1 := log_browser events w in
        match scraped_data with
        | Some scraped =>
            (set_cache (cache_content (cache_time ck) url scraped (cache_table w1)) w1,
             Some scraped)
        | None => (w1, None)
        end
  | _ => (w, None)
  end.

(** Lines 119-145: the result record, its storage, the optional CRM
    update and the job counter. *)
Definition finish_lead (svc : services) (ck : clock) (job_id : string)
    (lead_id : value) (lead parameters info : list (string * value))
    (w : world) : world * option value :=
  match decimal_of_str (Py.get_default "confidence" (VInt 0) info) with
  | Raise e => (save_error_result ck job_id lead_id e w, None)
  | Ok confidence_score =>
      let enriched_lead :=
        [("lead_id", lead_id);
         ("job_id", VStr job_id);
         ("original_data", convert_floats_to_decimal (VDict lead));
         ("enriched_data", convert_floats_to_decimal (VDict info));
         ("enrichment_date", VStr (stamp ck));
         ("confidence_score", confidence_score);
         ("data_source", VStr "web_scraping")] in
      let w1 := put_result enriched_lead w in
      let '(w2, returned) :=
        if Py.truthy (Py.get_default "update_salesforce" (VBool false) parameters)
        then
          match update_salesforce_lead svc lead_id info (crm_stamp ck) w1 with
          | (w', Ok _) =>
              (w', (enriched_lead ++ [("salesforce_updated", VBool true)])%list)
          | (w', Raise e) =>
              (w', (enriched_lead ++ [("salesforce_error", VStr e)])%list)
          end
        else (w1, enriched_lead) in
      (update_job_progress job_id true w2, Some (VDict returned))
  end.

(** [process_lead], lines 88-149: the record of the enriched lead, or
    [None] with an error result saved. *)
Definition process_lead (svc : services) (ck : clock) (job_id : string)
    (lead parameters : list (string * value)) (w : world)
    : world * option value :=
  match Py.dict_get "id" lead with
  | None => (save_error_result ck job_id VNone "'id'" w, None)
  | Some lead_id =>
      let website := Py.get "website" lead in
      if negb (Py.truthy website)
      then (save_error_result ck job_id lead_id "No website URL provided" w, None)
      else
        let '(w1, scraped_data) := obtain_content svc ck website w in
        if negb (truthy_opt scraped_data)
        then (save_error_result ck job_id lead_id "Failed to scrape website" w1, None)
        else
          let extracted_info :=
            match scraped_data with
            | Some (VDict scraped) => extract_information svc scraped lead
            | _ => None
            end in
          if negb (truthy_opt extracted_info)
          then (save_error_result ck job_id lead_id
                  "Failed to extract information" w1, None)
          else
            match extracted_info with
            | Some (VDict info) =>
                finish_lead svc ck job_id lead_id lead parameters info w1
            | Some v =>
                (save_error_result ck job_id lead_id
                   (Py.no_attribute v "get") w1, None)
            | None =>
                (save_error_result ck job_id lead_id
                   "Failed to extract information" w1, None)
            end
  end.

(** *** The polling loop *)

(** Lines 485-487. [auto_shutdown] is the text of the environment
    variable [AUTO_SHUTDOWN_ENABLED] and [idle_timeout] the integer
    that the text of [IDLE_TIMEOUT_MINUTES] denotes, when set. *)
Record config := Config {
  AUTO_SHUTDOWN_ENABLED : bool;
  IDLE_TIMEOUT_MINUTES : Z
}.

Definition config_of_env (auto_shutdown : option string)
    (idle_timeout : option Z) : config :=
  Config (String.eqb (Py.lower (default "true" auto_shutdown)) "true")
         (default 5 idle_timeout).

Definition MAX_IDLE_POLLS (cfg : config) : Z := IDLE_TIMEOUT_MINUTES cfg * 3.

(** How the handling of one received message ended: the lead was
    processed (the message is then deleted), [process_lead] gave
    nothing, or an exception was caught. *)
Inductive message_outcome : Type :=
| Processed (receipt_handle : string)
| NotProcessed
| ProcessingError.

(** One turn of the loop as the outside decides it: whether a
    termination signal has set [shutdown] by the time the loop tests
    it, and what [receive_message] answers. *)
Record tick := Tick {
  signalled : bool;
  received : result (list message_outcome)
}.

Record loop_state := LoopState {
  idle_poll_count : Z;
  total_processed : Z;
  deleted : list string
}.

Definition initial_state : loop_state := LoopState 0 0 [].

Inductive loop_status : Type :=
| Polling
| IdleShutdown
| SignalShutdown.

(** Lines 526-555. *)
Definition handle_message (st : loop_state) (m : message_outcome) : loop_state :=
  match m with
  | Processed receipt_handle =>
      LoopState (idle_poll_count st) (total_processed st + 1)
                (deleted st ++ [receipt_handle])
  | NotProcessed | ProcessingError => st
  end.

(** One iteration of [while not shutdown], lines 499-559. *)
Definition loop_step (cfg : config) (t : tick) (st : loop_state)
    : loop_status * loop_state :=
  if signalled t then (SignalShutdown, st)
  else
    match received t with
    | Raise _ => (Polling, st)
    | Ok [] =>
        let st' := LoopState (idle_poll_count st + 1) (total_processed st)
                             (deleted st) in
        if AUTO_SHUTDOWN_ENABLED cfg
           && Z.leb (MAX_IDLE_POLLS cfg) (idle_poll_count st')
        then (IdleShutdown, st')
        else (Polling, st')
    | Ok messages =>
        (Polling,
         foldl handle_message
               (LoopState 0 (total_processed st) (deleted st)) messages)
    end.

(** The loop of [main] over the turns given; [Polling] when they are
    used up and the loop is still running. *)
Fixpoint main_loop (cfg : config) (ticks : list tick) (st : loop_state)
    : loop_status * loop_state :=
  match ticks with
  | [] => (Polling, st)
  | t :: rest =>
      match loop_step cfg t st with
      | (Polling, st') => main_loop cfg rest st'
      | stopped => stopped
      end
  end.

Definition empty_poll : tick := Tick false (Ok []).

(** *** The batch-event entry point *)

(** One queue message as the orchestrator writes it: the job identifier,
    the lead and the run parameters. *)
Record message := Message {
  msg_job_id : string;
  msg_lead : value;
  msg_parameters : list (string * value)
}.

(** Lines 60-77, one record of the batch. [parsed] is what lines 62-65
    give: the message, or the exception of reading [record['body']], of
    [json.loads] or of a missing key. A lead that is not a dictionary
    makes [process_lead] raise inside its own handler ([lead.get]), before
    anything is stored. The answer is whether the record counts as
    processed. *)
Definition handle_record (svc : services) (ck : clock)
    (parsed : result message) (w : world) : world * bool :=
  match parsed with
  | Raise _ => (w, false)
  | Ok m =>
      match msg_lead m with
      | VDict lead =>
          let '(w', enriched) :=
            process_lead svc ck (msg_job_id m) lead (msg_parameters m) w in
          (w', truthy_opt enriched)
      | _ => (w, false)
      end
  end.

(** The loop of [lambda_handler], lines 56-77: the counts of processed
    and failed records. Each record comes with the clock readings of
    its processing. *)
Fixpoint handle_records (svc : services)
    (records : list (clock * result message))
    (records_processed records_failed : Z) (w : world) : world * (Z * Z) :=
  match records with
  | [] => (w, (records_processed, records_failed))
  | (ck, parsed) :: rest =>
      match handle_record svc ck parsed w with
      | (w', true) =>
          handle_records svc rest (records_processed + 1) records_failed w'
      | (w', false) =>
          handle_records svc rest records_processed (records_failed + 1) w'
      end
  end.

(** [lambda_handler], lines 51-85; the body, a JSON text in the source,
    is kept as the dictionary it is dumped from. *)
Definition lambda_handler (svc : services)
    (records : list (clock * result message)) (w : world) : world * value :=
  let '(w', (records_processed, records_failed)) :=
    handle_records svc records 0 0 w in
  (w', VDict [("statusCode", VInt 200);
              ("body", VDict [("processed", VInt records_processed);
                              ("failed", VInt records_failed)])]).

End Worker.

(* ===================================================================== *)
(** ** Event-triggered worker: [src/workers/enrichment_worker_ecs_optimized.py] *)
(* ===================================================================== *)

(** The extraction of this file (lines 220-281) combines and cuts the
    content as the polling worker does, and closes the prompt with its
    own text. *)
Module WorkerEcs.

Definition build_prompt := Worker.build_prompt_with PROMPT_TAIL_ECS.

Definition extract_information :=
  Worker.extract_information_with PROMPT_TAIL_ECS.

(** Line 179: the navigation timeout of this variant. *)
Definition NAVIGATION_TIMEOUT : Z := 15000.

(** [scrape_website], lines 152-217: one browser session, no retry. *)
Definition scrape_website (svc : Worker.services) (url scraped_at : string)
    : list Worker.scrape_event * option value :=
  match Worker.browser_visit svc url 0 NAVIGATION_TIMEOUT with
  | Ok (text_content, contact_links) =>
      ([Worker.Navigate url 0 NAVIGATION_TIMEOUT],
       Some (VDict [("url", VStr url);
                    ("main_content", VStr text_content);
                    ("additional_pages",
                     VList (Worker.additional_pages contact_links));
                    ("scraped_at", VStr scraped_at)]))
  | Raise _ => ([Worker.Navigate url 0 NAVIGATION_TIMEOUT], None)
  end.

(** Lines 339 and 343: a name is taken when it is true and its lowercase
    form is not [not found]; a true value that is not text has no
    [lower]. *)
Definition name_accepted (v : value) : result bool :=
  if Py.truthy v then
    match v with
    | VStr s => Ok (negb (String.eqb (Py.lower s) "not found"))
    | _ => Raise (Py.no_attribute v "lower")
    end
  else Ok false.

Definition set_name (enriched standard : string) (v : value)
    (update_data : gmap string value) : result (gmap string value) :=
  match name_accepted v with
  | Ok true => Ok (<[standard := v]> (<[enriched := v]> update_data))
  | Ok false => Ok update_data
  | Raise e => Raise e
  end.

(** One of the five blocks of lines 349-367: an address part is taken
    whenever it is true. *)
Definition set_address_field (enriched standard : string) (v : value)
    (update_data : gmap string value) : gmap string value :=
  if Py.truthy v then <[standard := v]> (<[enriched := v]> update_data)
  else update_data.

(** Line 348: [extracted_info.get('address', {})], which must answer
    [get]; a [null] address does not. *)
Definition address_of (extracted_info : list (string * value))
    : result (list (string * value)) :=
  match Py.get_default "address" (VDict []) extracted_info with
  | VDict d => Ok d
  | a => Raise (Py.no_attribute a "get")
  end.

(** Lines 370-380. *)
Definition address_parts (address : list (string * value)) : list value :=
  List.filter Py.truthy
    [Py.get "street" address; Py.get "city" address; Py.get "state" address;
     Py.get "postal_code" address; Py.get "country" address].

(** Lines 336-389: the update map of this variant. *)
Definition build_update_data (extracted_info : list (string * value))
    (enrichment_date : string) : result (gmap string value) :=
  d1 ← set_name "Enriched_First_Name__c" "FirstName"
         (Py.get "first_name" extracted_info) (∅ : gmap string value);
  d2 ← set_name "Enriched_Last_Name__c" "LastName"
         (Py.get "last_name" extracted_info) d1;
  address ← address_of extracted_info;
  let d3 := set_address_field "Enriched_Street__c" "Street"
              (Py.get "street" address) d2 in
  let d4 := set_address_field "Enriched_City__c" "City"
              (Py.get "city" address) d3 in
  let d5 := set_address_field "Enriched_State__c" "State"
              (Py.get "state" address) d4 in
  let d6 := set_address_field "Enriched_Postal_Code__c" "PostalCode"
              (Py.get "postal_code" address) d5 in
  let d7 := set_address_field "Enriched_Country__c" "Country"
              (Py.get "country" address) d6 in
  d8 ← match address_parts address with
       | [] => Ok d7
       | parts =>
           ss ← Worker.texts_of parts;
           Ok (<["Enriched_Full_Address__c" := VStr (Py.join ", " ss)]> d7)
       end;
  Ok (<["Enrichment_Completed__c" := VBool true]>
      (<["Enrichment_Source__c" := VStr "AI_Web_Scraping"]>
       (<["Enrichment_Confidence__c" :=
            Py.get_default "confidence" (VInt 0) extracted_info]>
        (<["Enrichment_Date__c" := VStr enrichment_date]> d8)))).

(** [update_salesforce_lead], lines 325-398. *)
Definition update_salesforce_lead (svc : Worker.services) (lead_id : value)
    (extracted_info : list (string * value)) (enrichment_date : string)
    (w : Worker.world) : Worker.world * result unit :=
  match Worker.sf_connect svc with
  | Raise e => (w, Raise e)
  | Ok _ =>
      match build_update_data extracted_info enrichment_date with
      | Raise e => (w, Raise e)
      | Ok update_data =>
          match Worker.sf_lead_update svc lead_id update_data with
          | Raise e => (w, Raise e)
          | Ok _ =>
              (Worker.World (Worker.cache_table w) (Worker.results_table w)
                 (Worker.job_counters w) (Worker.browser_log w)
                 (Worker.crm_updates w ++ [(lead_id, update_data)]),
               Ok ())
          end
      end
  end.

End WorkerEcs.

(* ===================================================================== *)
(** ** Definitions in the words of the specification *)
(* ===================================================================== *)

(** [clamp(x, lo, hi)]: [x] brought into the range from [lo] to [hi]. *)
Definition spec_clamp (x lo hi : Z) : Z := Z.max lo (Z.min x hi).

(** The scraping schedule of three attempts: page-load timeouts of
    20000, 30000 and 40000 ms, with the pauses between the attempts. *)
Definition spec_schedule (url : string) : list Worker.scrape_event :=
  [Worker.Navigate url 0 20000; Worker.Sleep 1;
   Worker.Navigate url 1 30000; Worker.Sleep 2;
   Worker.Navigate url 2 40000].

(** The schedule up to and including attempt number [k]. *)
Definition spec_schedule_through (url : string) (k : nat)
    : list Worker.scrape_event :=
  firstn (2 * k + 1) (spec_schedule url).

(** A scrape result in the shape that [scrape_website] returns, from the
    main text and the followed pages (address and text of each). *)
Definition page_record (p : string * string) : value :=
  VDict [("url", VStr (fst p)); ("content", VStr (snd p))].

Definition scraped_record (url main : string) (pages : list (string * string))
    (scraped_at : string) : list (string * value) :=
  [("url", VStr url); ("main_content", VStr main);
   ("additional_pages", VList (map page_record pages));
   ("scraped_at", VStr scraped_at)].

(** The text of the additional pages, each after a blank line. *)
Fixpoint pages_text (pages : list (string * string)) : string :=
  match pages with
  | [] => ""
  | p :: rest => (NL +:+ NL +:+ snd p) +:+ pages_text rest
  end.

(** The website content of the prompt as the specification words it: the
    first 3000 characters of the main content, then every additional
    page in full. *)
Definition spec_prompt_content (main : string) (pages : list (string * string))
    : string :=
  Py.take CONTENT_LIMIT main +:+ pages_text pages.

(** The answer of a job that started, as [start_enrichment_job] builds
    it (lines 181-191). *)
Definition started_response (job_id : string) (leads_found queued workers : Z)
    : value :=
  VDict [("statusCode", VInt 200);
         ("body", VDict [
            ("job_id", VStr job_id);
            ("status", VStr "processing");
            ("leads_found", VInt leads_found);
            ("leads_queued", VInt queued);
            ("workers_started", VInt workers);
            ("message",
             VStr ("Job started successfully. Processing "
                   +:+ pretty queued +:+ " leads with "
                   +:+ pretty workers +:+ " workers."))])].

(** Two worlds with the same cache table and the same browser activity. *)
Definition same_scrape_state (w w' : Worker.world) : Prop :=
  Worker.cache_table w' = Worker.cache_table w
  /\ Worker.browser_log w' = Worker.browser_log w.

(** The seven fields of the CRM write-back: whether the value sits in
    the address sub-record, its key in the extracted record, the custom
    field and the standard field. *)
Definition WRITE_BACK_FIELDS : list (bool * string * string * string) :=
  [(false, "first_name", "Enriched_First_Name__c", "FirstName");
   (false, "last_name", "Enriched_Last_Name__c", "LastName");
   (true, "street", "Enriched_Street__c", "Street");
   (true, "city", "Enriched_City__c", "City");
   (true, "state", "Enriched_State__c", "State");
   (true, "postal_code", "Enriched_Postal_Code__c", "PostalCode");
   (true, "country", "Enriched_Country__c", "Country")].

(** A text is a placeholder when its lowercased, trimmed form is one of
    [not found], [unknown], [n/a], [none], [null] or the empty text. *)
Definition spec_placeholder (s : string) : bool :=
  Py.str_in (Py.strip (Py.lower s))
            ["not found"; "unknown"; "n/a"; "none"; "null"; ""].

(** What the update map may hold for one field: both the custom and the
    standard field with the extracted value when the value is valid,
    neither of them otherwise. *)
Definition field_written (extracted_info address : list (string * value))
    (update_data : gmap string value)
    (f : bool * string * string * string) : Prop :=
  let '(in_address, key, enriched, standard) := f in
  let v := Py.get key (if in_address then address else extracted_info) in
  if Worker.is_valid_value v
  then update_data !! enriched = Some v /\ update_data !! standard = Some v
  else update_data !! enriched = None /\ update_data !! standard = None.

(** An extracted record with a name, a placeholder and an address. *)
Definition example_extracted : list (string * value) :=
  [("first_name", VStr "Jane");
   ("last_name", VStr " N/A ");
   ("address", VDict [("street", VStr "12 Oak St");
                      ("city", VStr "Springfield");
                      ("state", VNone);
                      ("postal_code", VStr "90001");
                      ("country", VStr "Unknown")]);
   ("confidence", VFloat "0.9")].

(* ===================================================================== *)
(** ** Example environments *)
(* ===================================================================== *)

(** A browser whose every navigation times out, and one that crashes. *)
Definition timeout_service : Worker.services :=
  Worker.Services (fun _ _ _ => Raise "Timeout 20000ms exceeded.")
                  (fun _ => Raise "unused") (Ok ()) (fun _ _ => Ok ()).

Definition crash_service : Worker.services :=
  Worker.Services (fun _ _ _ => Raise "Page crashed")
                  (fun _ => Raise "unused") (Ok ()) (fun _ _ => Ok ()).

(** A CRM with one lead, a queue that accepts every message and a
    compute service whose placement request raises. *)
Definition failing_compute_service : Orchestrator.services :=
  Orchestrator.Services
    (Ok ())
    (fun _ => Ok [[("Id", VStr "00Q000000000001");
                   ("Company", VStr "Acme");
                   ("Website", VStr "https://example.com")]])
    (fun _ => Ok ())
    (fun _ => Raise "An error occurred (AccessDeniedException) when calling the RunTask operation").

(** A lead with a website, the content once scraped from it, and a world
    whose cache holds that content since instant 0. *)
Definition example_lead : list (string * value) :=
  [("id", VStr "00Q000000000001"); ("company", VStr "Acme");
   ("website", VStr "https://example.com")].

Definition example_content : value :=
  VDict (scraped_record "https://example.com" "Acme Inc., 12 Oak St" []
           "2024-05-01T00:00:00+00:00").

Definition example_world : Worker.world :=
  Worker.World {[ "https://example.com" := Worker.CacheItem example_content (Some 0) ]}
               [] ∅ [] [].

(** A clock one hour after instant 0. *)
Definition example_clock : Worker.clock :=
  Worker.Clock (3600 * 1000000) (3601 * 1000000) "2024-05-01T01:00:00+00:00"
    "2024-05-01T01:00:00.000Z".

(** The update map of [example_extracted]. *)
Definition example_update : gmap string value :=
  match Worker.build_update_data example_extracted "2024-05-01T01:00:00.000Z" with
  | Ok update_data => update_data
  | Raise _ => ∅
  end.

(* ===================================================================== *)
(** ** Observations used by the further properties *)
(* ===================================================================== *)

(** The queue message of one lead, lines 147-151 of the orchestrator. *)
Definition queue_message (job_id : string) (parameters : list (string * value))
    (lead : value) : value :=
  VDict [("job_id", VStr job_id); ("lead", lead);
         ("parameters", VDict parameters)].

(** The answer of the orchestrator when an exception reached it. *)
Definition error_response (e : string) : value :=
  VDict [("statusCode", VInt 500); ("body", VDict [("error", VStr e)])].

(** The field of an answer or a record that is a dictionary. *)
Definition field (k : string) (v : value) : option value :=
  match v with
  | VDict d => Py.dict_get k d
  | _ => None
  end.

(** The fields of a lead after its identifier, and of its address,
    each with the CRM field it is read from. *)
Definition LEAD_FIELDS : list (string * string) :=
  [("company", "Company"); ("website", "Website"); ("email", "Email");
   ("phone", "Phone"); ("first_name", "FirstName"); ("last_name", "LastName");
   ("title", "Title"); ("created_date", "CreatedDate")].

Definition LEAD_ADDRESS_FIELDS : list (string * string) :=
  [("street", "Street"); ("city", "City"); ("state", "State");
   ("postal_code", "PostalCode"); ("country", "Country")].

(** A lead is the lead of a CRM record: a dictionary with the keys
    [id], those of [LEAD_FIELDS] and [address] in this order, whose [id]
    is the [Id] of the record, whose fields are those of the record
    ([None] for a missing one), and whose address is a dictionary with
    the keys of [LEAD_ADDRESS_FIELDS], read from the record likewise. *)
Definition lead_of (record : list (string * value)) (lead : value) : Prop :=
  exists (id : value) (d a : list (string * value)),
    lead = VDict d
    /\ map fst d = ("id" :: map fst LEAD_FIELDS ++ ["address"])%list
    /\ Py.dict_get "Id" record = Some id
    /\ Py.dict_get "id" d = Some id
    /\ Forall (fun f => Py.dict_get (fst f) d = Some (Py.get (snd f) record))
              LEAD_FIELDS
    /\ Py.dict_get "address" d = Some (VDict a)
    /\ map fst a = map fst LEAD_ADDRESS_FIELDS
    /\ Forall (fun f => Py.dict_get (fst f) a = Some (Py.get (snd f) record))
              LEAD_ADDRESS_FIELDS.

(** A link is followed when it has an address that is not empty and is
    no mail address, and its page loads; the page kept for it holds the
    address and the text. *)
Definition followed (l : Worker.link) : bool :=
  match Worker.href l, Worker.page_text l with
  | Some h, Ok _ => negb (String.eqb h "") && negb (Py.startswith h "mailto:")
  | _, _ => false
  end.

Definition page_of (l : Worker.link) : value :=
  VDict [("url", VStr (default "" (Worker.href l)));
         ("content", VStr (match Worker.page_text l with
                           | Ok text => text
                           | Raise _ => ""
                           end))].

(** A job counter, zero while it was never incremented. *)
Definition counter (w : Worker.world) (job_id attr : string) : Z :=
  default 0 (Worker.job_counters w !! (job_id, attr)).

(** The events of [k] scrape attempts from attempt number [a]: each
    navigation with its timeout, and the pause after each but the last. *)
Fixpoint attempts_from (url : string) (a k : nat) : list Worker.scrape_event :=
  match k with
  | O => []
  | S k' =>
      Worker.Navigate url a (Worker.attempt_timeout a)
      :: match k' with
         | O => []
         | S _ => Worker.Sleep (Worker.wait_time a) :: attempts_from url (S a) k'
         end
  end.

(** A turn of the polling loop in which [receive_message] raised and no
    termination signal had come. *)
Definition is_poll_error (t : Worker.tick) : bool :=
  negb (Worker.signalled t)
  && match Worker.received t with
     | Raise _ => true
     | Ok _ => false
     end.

(** The key by which the dashboard orders jobs, empty when absent. *)
Definition job_key (job : list (string * value)) : string :=
  match Py.get_default "created_at" (VStr "") job with
  | VStr s => s
  | _ => ""
  end.

(** Every field name that a CRM update map may hold. *)
Definition UPDATE_FIELD_NAMES : list string :=
  ["Enriched_First_Name__c"; "FirstName"; "Enriched_Last_Name__c"; "LastName";
   "Enriched_Street__c"; "Street"; "Enriched_City__c"; "City";
   "Enriched_State__c"; "State"; "Enriched_Postal_Code__c"; "PostalCode";
   "Enriched_Country__c"; "Country"; "Enriched_Full_Address__c";
   "Enrichment_Date__c"; "Enrichment_Confidence__c"; "Enrichment_Source__c";
   "Enrichment_Completed__c"].

(** What the update map of the event-triggered worker holds for one
    address field: both fields with the value when the value is true,
    neither otherwise. *)
Definition address_field_written_ecs (address : list (string * value))
    (update_data : gmap string value) (f : string * string * string) : Prop :=
  let '(key, enriched, standard) := f in
  let v := Py.get key address in
  if Py.truthy v
  then update_data !! enriched = Some v /\ update_data !! standard = Some v
  else update_data !! enriched = None /\ update_data !! standard = None.

Definition ADDRESS_FIELDS : list (string * string * string) :=
  [("street", "Enriched_Street__c", "Street");
   ("city", "Enriched_City__c", "City");
   ("state", "Enriched_State__c", "State");
   ("postal_code", "Enriched_Postal_Code__c", "PostalCode");
   ("country", "Enriched_Country__c", "Country")].

(** A CRM with three leads and a queue that refuses the message of the
    second one. *)
Definition three_records : list (list (string * value)) :=
  [[("Id", VStr "00Q1"); ("Website", VStr "https://one.example")];
   [("Id", VStr "00Q2"); ("Website", VStr "https://two.example")];
   [("Id", VStr "00Q3"); ("Website", VStr "https://three.example")]].

Definition three_leads : list value :=
  match Orchestrator.leads_of_records three_records with
  | Ok leads => leads
  | Raise _ => []
  end.

Definition refusing_queue_service : Orchestrator.services :=
  Orchestrator.Services
    (Ok ())
    (fun _ => Ok three_records)
    (fun m => match field "lead" m with
              | Some lead =>
                  match field "id" lead with
                  | Some (VStr id) =>
                      if String.eqb id "00Q2"
                      then Raise "The specified queue does not exist"
                      else Ok ()
                  | _ => Ok ()
                  end
              | None => Ok ()
              end)
    (fun n => Ok (Orchestrator.RunTaskResponse (replicate (Z.to_nat n) VNone) [])).

(** The same CRM with a queue that accepts everything. *)
Definition working_service : Orchestrator.services :=
  Orchestrator.Services
    (Ok ())
    (fun _ => Ok three_records)
    (fun _ => Ok ())
    (fun n => Ok (Orchestrator.RunTaskResponse (replicate (Z.to_nat n) VNone) [])).

(** Two worlds with the same results, job counters and CRM updates. *)
Definition same_stores (w w' : Worker.world) : Prop :=
  Worker.results_table w' = Worker.results_table w
  /\ Worker.job_counters w' = Worker.job_counters w
  /\ Worker.crm_updates w' = Worker.crm_updates w.

(** One lead was accounted for between two worlds: one more result
    record, and one more in the processed counter of the job, or in its
    failed counter, the other one being left as it was. *)
Definition lead_accounted (job_id : string) (w w' : Worker.world)
    (success : bool) : Prop :=
  length (Worker.results_table w') = S (length (Worker.results_table w))
  /\ counter w' job_id "processed_leads"
     = counter w job_id "processed_leads" + (if success then 1 else 0)
  /\ counter w' job_id "failed_leads"
     = counter w job_id "failed_leads" + (if success then 0 else 1).

(** Was a lead enriched: did [process_lead] return a record? *)
Definition enriched (r : option value) : bool :=
  match r with
  | Some _ => true
  | None => false
  end.


(** The record of a lead that failed, lines 347-353. *)
Definition failed_record (ck : Worker.clock) (job_id : string) (lead_id : value)
    (error : string) : list (string * value) :=
  [("lead_id", lead_id); ("job_id", VStr job_id);
   ("status", VStr "failed"); ("error", VStr error);
   ("processed_at", VStr (Worker.stamp ck))].

(** A lead without a website. *)
Definition lead_without_website : list (string * value) :=
  [("id", VStr "00Q000000000002"); ("company", VStr "Acme");
   ("website", VNone)].


(** Is a value a text? *)
Definition is_text (v : value) : bool :=
  match v with
  | VStr _ => true
  | _ => false
  end.

(** The receipt handles of the messages of a poll whose lead was
    processed. *)
Definition processed_receipts (ms : list Worker.message_outcome) : list string :=
  omap (fun m => match m with
                 | Worker.Processed receipt_handle => Some receipt_handle
                 | _ => None
                 end) ms.

(** An extracted record whose postal code came back as a number. *)
Definition extracted_with_numeric_zip : list (string * value) :=
  [("first_name", VStr "Jane");
   ("address", VDict [("city", VStr "Springfield");
                      ("postal_code", VInt 90001)])].

(** An extracted record whose address came back as [null]. *)
Definition extracted_with_null_address : list (string * value) :=
  [("first_name", VStr "Jane"); ("address", VNone)].

(** A browser that times out on the first attempt and answers on the
    second. *)
Definition flaky_service : Worker.services :=
  Worker.Services
    (fun _ attempt _ =>
       match attempt with
       | O => Raise "Timeout 20000ms exceeded."
       | S _ => Ok ("Acme Inc.", [])
       end)
    (fun _ => Raise "unused") (Ok ()) (fun _ _ => Ok ()).

(** An extracted record whose street is a placeholder text and whose
    last name is [Not Found]. *)
Definition extracted_with_placeholder_street : list (string * value) :=
  [("first_name", VStr "Jane");
   ("last_name", VStr "Not Found");
   ("address", VDict [("street", VStr "N/A"); ("city", VStr "Austin");
                      ("state", VStr "")])].

(** The update map that the event-triggered worker builds from it. *)
Definition example_update_ecs : gmap string value :=
  match WorkerEcs.build_update_data extracted_with_placeholder_street
          "2024-05-01T01:00:00.000Z" with
  | Ok update_data => update_data
  | Raise _ => ∅
  end.

(** One job is at least as new as another: its creation time does not
    come before the other's. *)
Definition newer_or_equal (a b : list (string * value)) : Prop :=
  String.leb (job_key b) (job_key a) = true.

(** Three job records, the second one the newest. *)
Definition three_jobs : list (list (string * value)) :=
  [[("job_id", VStr "a"); ("created_at", VStr "2024-05-01T08:00:00.000Z")];
   [("job_id", VStr "b"); ("created_at", VStr "2024-05-03T08:00:00.000Z")];
   [("job_id", VStr "c"); ("created_at", VStr "2024-05-02T08:00:00.000Z")]].


(* ===================================================================== *)
(** * Properties *)
(* ===================================================================== *)

(** ** Storage normalisation *)

Lemma convert_no_float (v : value) :
  has_float (convert_floats_to_decimal v) = false.
Proof.
  induction v as [ | | | | | | l IH | d IH] using value_nested_ind;
    simpl; try reflexivity.
  - induction IH as [ | x l Hx _ IHl]; simpl; [reflexivity | ].
    rewrite Hx. exact IHl.
  - induction IH as [ | kv d Hkv _ IHd]; simpl; [reflexivity | ].
    rewrite Hkv. exact IHd.
Qed.

Lemma convert_fixes_float_free (v : value) :
  has_float v = false -> convert_floats_to_decimal v = v.
Proof.
  induction v as [ | | | | | | l IH | d IH] using value_nested_ind;
    simpl; intros Hf; try reflexivity; try discriminate.
  - f_equal. induction IH as [ | x l Hx _ IHl]; simpl in *; [reflexivity | ].
    apply orb_false_iff in Hf as [Hx' Hl'].
    rewrite (Hx Hx'), (IHl Hl'). reflexivity.
  - f_equal. induction IH as [ | [k x] d Hkv _ IHd]; simpl in *; [reflexivity | ].
    apply orb_false_iff in Hf as [Hx' Hd'].
    rewrite (Hkv Hx'), (IHd Hd'). reflexivity.
Qed.

Lemma convert_idempotent (v : value) :
  convert_floats_to_decimal (convert_floats_to_decimal v)
  = convert_floats_to_decimal v.
Proof. apply convert_fixes_float_free, convert_no_float. Qed.

Lemma convert_node (v : value) :
  node_preserved v (convert_floats_to_decimal v).
Proof.
  destruct v as [ | | | | | | l | d]; simpl; try reflexivity.
  - eexists; split; [reflexivity | ]. apply length_map.
  - eexists; split; [reflexivity | ]. rewrite map_map. reflexivity.
Qed.

Lemma dict_get_convert (k : string) (d : list (string * value)) :
  Py.dict_get k
    (map (fun kv => (fst kv, convert_floats_to_decimal (snd kv))) d)
  = convert_floats_to_decimal <$> Py.dict_get k d.
Proof.
  induction d as [ | [k' x] d IH]; simpl; [reflexivity | ].
  destruct (String.eqb k k'); [reflexivity | exact IH].
Qed.

Lemma at_path_convert (p : list step) (v : value) :
  at_path p (convert_floats_to_decimal v)
  = convert_floats_to_decimal <$> at_path p v.
Proof.
  revert v. induction p as [ | s p IH]; intros v; [reflexivity | ].
  destruct s as [i | k]; destruct v as [ | | | | | | l | d];
    simpl; try reflexivity.
  - rewrite nth_error_map. destruct (nth_error l i) as [w | ]; simpl;
      [apply IH | reflexivity].
  - rewrite dict_get_convert. destruct (Py.dict_get k d) as [w | ]; simpl;
      [apply IH | reflexivity].
Qed.

(** C10. [convert_floats_to_decimal] is a total function on nested values
    of dictionaries, lists, floats and other scalars; its result holds no
    float at any depth; the sub-value at every path of the result is the
    conversion of the sub-value at that path of the argument, where a
    float has become the decimal of its text, a list has kept its length,
    a dictionary has kept its keys and any other leaf is unchanged; and
    converting twice is converting once. The function is the same in
    both worker files. *)
Theorem convert_floats_to_decimal_preserves_structure (obj : value) :
  has_float (convert_floats_to_decimal obj) = false
  /\ (forall p : list step,
        at_path p (convert_floats_to_decimal obj)
        = convert_floats_to_decimal <$> at_path p obj)
  /\ (forall w : value, node_preserved w (convert_floats_to_decimal w))
  /\ convert_floats_to_decimal (convert_floats_to_decimal obj)
     = convert_floats_to_decimal obj.
Proof.
  split; [apply convert_no_float | ].
  split; [intros p; apply at_path_convert | ].
  split; [apply convert_node | apply convert_idempotent].
Qed.

(** ** Orchestrator *)

Lemma optimal_workers_range (queued_count : Z) :
  2 <= Orchestrator.optimal_workers queued_count <= 10.
Proof. unfold Orchestrator.optimal_workers. lia. Qed.

Lemma safe_count_optimal_workers (queued_count : Z) :
  Orchestrator.safe_count (Orchestrator.optimal_workers queued_count)
  = Orchestrator.optimal_workers queued_count.
Proof.
  unfold Orchestrator.safe_count.
  pose proof (optimal_workers_range queued_count). lia.
Qed.

(** C4. For every queued count, the worker count the orchestrator asks
    the compute service for is [clamp(floor(queued_count/500), 2, 10)]:
    it is what [start_ecs_workers] hands to [run_task], it lies between
    2 and 10, and it is 2 for 50, 6 for 3000 and 10 for 10000 queued
    leads. *)
Theorem requested_workers_is_clamp (queued_count : Z)
    (svc : Orchestrator.services) (w : Orchestrator.world) :
  Orchestrator.optimal_workers queued_count = spec_clamp (queued_count / 500) 2 10
  /\ Orchestrator.run_task_calls
       (fst (Orchestrator.start_ecs_workers svc
               (Orchestrator.optimal_workers queued_count) w))
     = (Orchestrator.run_task_calls w ++ [spec_clamp (queued_count / 500) 2 10])%list
  /\ 2 <= Orchestrator.optimal_workers queued_count <= 10
  /\ Orchestrator.optimal_workers 50 = 2
  /\ Orchestrator.optimal_workers 3000 = 6
  /\ Orchestrator.optimal_workers 10000 = 10.
Proof.
  assert (Hclamp : Orchestrator.optimal_workers queued_count
                   = spec_clamp (queued_count / 500) 2 10).
  { unfold Orchestrator.optimal_workers, spec_clamp. lia. }
  split; [exact Hclamp | ].
  split.
  - unfold Orchestrator.start_ecs_workers.
    rewrite safe_count_optimal_workers, Hclamp.
    destruct (Orchestrator.ecs_run_task svc _); reflexivity.
  - split; [apply optimal_workers_range | ].
    repeat split; reflexivity.
Qed.

(** ** Monitoring dashboard *)

Lemma true_div_not_zero_division (a b : Z) :
  b <> 0 -> Monitor.true_div a b <> Raise "division by zero".
Proof.
  intros Hb. unfold Monitor.true_div.
  destruct (Z.eqb_spec b 0) as [-> | _]; [contradiction | ].
  destruct (SFdiv _ _ _ _); discriminate.
Qed.



























(** ** Polling worker: the idle counter *)

Lemma handle_messages_idle (ms : list Worker.message_outcome)
    (st : Worker.loop_state) :
  Worker.idle_poll_count (foldl Worker.handle_message st ms)
  = Worker.idle_poll_count st.
Proof.
  revert st. induction ms as [ | m ms IH]; intros st; [reflexivity | ].
  simpl. rewrite IH. destruct m; reflexivity.
Qed.

Lemma empty_polls_below_limit (cfg : Worker.config) (n : nat) (i tp : Z)
    (del : list string) (rest : list Worker.tick) :
  i + Z.of_nat n < Worker.MAX_IDLE_POLLS cfg ->
  Worker.main_loop cfg (replicate n Worker.empty_poll ++ rest)%list
    (Worker.LoopState i tp del)
  = Worker.main_loop cfg rest (Worker.LoopState (i + Z.of_nat n) tp del).
Proof.
  revert i. induction n as [ | n IH]; intros i Hlt.
  - simpl. rewrite Z.add_0_r. reflexivity.
  - cbn [replicate app Worker.main_loop].
    unfold Worker.loop_step; cbn.
    destruct (Z.leb_spec (Worker.MAX_IDLE_POLLS cfg) (i + 1)) as [Hle | _];
      [lia | ].
    rewrite andb_false_r. rewrite IH by lia.
    do 2 f_equal. lia.
Qed.

Lemma empty_poll_at_limit (cfg : Worker.config) (i tp : Z)
    (del : list string) (rest : list Worker.tick) :
  Worker.AUTO_SHUTDOWN_ENABLED cfg = true ->
  Worker.MAX_IDLE_POLLS cfg <= i + 1 ->
  Worker.main_loop cfg (Worker.empty_poll :: rest) (Worker.LoopState i tp del)
  = (Worker.IdleShutdown, Worker.LoopState (i + 1) tp del).
Proof.
  intros Hauto Hle. cbn [Worker.main_loop].
  unfold Worker.loop_step; cbn. rewrite Hauto.
  destruct (Z.leb_spec (Worker.MAX_IDLE_POLLS cfg) (i + 1)); [reflexivity | lia].
Qed.

Lemma no_idle_shutdown_when_disabled (minutes : Z) (ticks : list Worker.tick)
    (st : Worker.loop_state) :
  fst (Worker.main_loop (Worker.Config false minutes) ticks st) = Worker.Polling
  \/ fst (Worker.main_loop (Worker.Config false minutes) ticks st)
     = Worker.SignalShutdown.
Proof.
  revert st. induction ticks as [ | t ticks IH]; intros st; [left; reflexivity | ].
  cbn [Worker.main_loop]. unfold Worker.loop_step.
  destruct (Worker.signalled t); [right; reflexivity | ].
  destruct (Worker.received t) as [[ | m ms] | e]; cbn; apply IH.
Qed.

(** C8. With the default configuration (auto-shutdown enabled, an idle
    timeout of 5 minutes, hence a limit of 15 idle polls) the polling
    loop, starting from an idle counter of zero, is still polling after
    any number [n < 15] of consecutive empty polls and exits for idleness
    at the fifteenth, whatever would follow; a poll that brings a message
    leaves the loop running with the idle counter at zero; and with
    auto-shutdown disabled the loop only ever stops on a termination
    signal. *)
Theorem polling_loop_idle_shutdown (n : nat) (tp : Z) (del : list string)
    (rest ticks : list Worker.tick) (cfg' : Worker.config)
    (m : Worker.message_outcome) (ms : list Worker.message_outcome)
    (st : Worker.loop_state) (minutes : Z)
    (Hn : (n < 15)%nat) :
  let cfg := Worker.config_of_env None None in
  cfg = Worker.Config true 5
  /\ Worker.MAX_IDLE_POLLS cfg = 15
  /\ Worker.main_loop cfg (replicate n Worker.empty_poll)
       (Worker.LoopState 0 tp del)
     = (Worker.Polling, Worker.LoopState (Z.of_nat n) tp del)
  /\ Worker.main_loop cfg (replicate 15 Worker.empty_poll ++ rest)%list
       (Worker.LoopState 0 tp del)
     = (Worker.IdleShutdown, Worker.LoopState 15 tp del)
  /\ fst (Worker.loop_step cfg' (Worker.Tick false (Ok (m :: ms))) st)
     = Worker.Polling
  /\ Worker.idle_poll_count
       (snd (Worker.loop_step cfg' (Worker.Tick false (Ok (m :: ms))) st)) = 0
  /\ (fst (Worker.main_loop (Worker.Config false minutes) ticks st)
      = Worker.Polling
      \/ fst (Worker.main_loop (Worker.Config false minutes) ticks st)
         = Worker.SignalShutdown).
Proof.
  intros cfg.
  split; [reflexivity | ]. split; [reflexivity | ].
  split.
  { rewrite <- (app_nil_r (replicate n Worker.empty_poll)).
    rewrite empty_polls_below_limit
      by (change (Worker.MAX_IDLE_POLLS cfg) with 15; lia).
    reflexivity. }
  split.
  { change (replicate 15 Worker.empty_poll)
      with (replicate 14 Worker.empty_poll ++ [Worker.empty_poll])%list.
    rewrite <- app_assoc.
    rewrite empty_polls_below_limit
      by (change (Worker.MAX_IDLE_POLLS cfg) with 15; lia).
    cbn [app].
    rewrite empty_poll_at_limit;
      [reflexivity | reflexivity
       | change (Worker.MAX_IDLE_POLLS cfg) with 15; lia]. }
  split; [reflexivity | ].
  split.
  { unfold Worker.loop_step. cbn [Worker.signalled Worker.received snd].
    apply handle_messages_idle. }
  apply no_idle_shutdown_when_disabled.
Qed.

Lemma polling_loop_idle_shutdown_witness :
  (3 < 15)%nat
  /\ Worker.main_loop (Worker.config_of_env None None)
       (replicate 15 Worker.empty_poll) Worker.initial_state
     = (Worker.IdleShutdown, Worker.LoopState 15 0 []).
Proof.
  assert (H3 : (3 < 15)%nat) by lia.
  split; [exact H3 | ].
  pose proof (polling_loop_idle_shutdown 3 0 [] [] [] (Worker.Config true 5)
                Worker.NotProcessed [] Worker.initial_state 5 H3) as H.
  cbv zeta in H.
  destruct H as (_ & _ & _ & H15 & _).
  rewrite app_nil_r in H15. exact H15.
Defined.

(** ** Polling worker: scraping with retries *)

Lemma retryable_examples :
  Worker.is_retryable "Timeout 30000ms exceeded." = true
  /\ Worker.is_retryable "net::ERR_NAME_NOT_RESOLVED at https://example.com" = true
  /\ Worker.is_retryable "Connection Closed while reading" = true
  /\ Worker.is_retryable "Page crashed" = false.
Proof. repeat split; vm_compute; reflexivity. Qed.

#[local] Arguments Worker.is_retryable : simpl never.
#[local] Arguments Worker.additional_pages : simpl never.

Lemma scrape_attempt_stops (svc : Worker.services) (url ts e : string)
    (mr r a : nat) :
  Worker.browser_visit svc url a (Worker.attempt_timeout a) = Raise e ->
  Worker.is_retryable e = false \/ Z.of_nat a = Z.of_nat mr - 1 ->
  Worker.scrape_attempts svc url ts mr (S r) a
  = ([Worker.Navigate url a (Worker.attempt_timeout a)], None).
Proof.
  intros Hf Hstop. cbn [Worker.scrape_attempts]. rewrite Hf.
  destruct Hstop as [-> | ->]; [reflexivity | ].
  rewrite Z.eqb_refl, orb_true_r. reflexivity.
Qed.

Lemma scrape_attempt_retries (svc : Worker.services) (url ts e : string)
    (mr r a : nat) :
  Worker.browser_visit svc url a (Worker.attempt_timeout a) = Raise e ->
  Worker.is_retryable e = true ->
  Z.of_nat a <> Z.of_nat mr - 1 ->
  Worker.scrape_attempts svc url ts mr (S r) a
  = (Worker.Navigate url a (Worker.attempt_timeout a)
     :: Worker.Sleep (Worker.wait_time a)
     :: fst (Worker.scrape_attempts svc url ts mr r (S a)),
     snd (Worker.scrape_attempts svc url ts mr r (S a))).
Proof.
  intros Hf Hr Hne. cbn [Worker.scrape_attempts]. rewrite Hf, Hr.
  destruct (Z.eqb_spec (Z.of_nat a) (Z.of_nat mr - 1)); [contradiction | ].
  cbn [negb orb].
  destruct (Worker.scrape_attempts svc url ts mr r (S a)); reflexivity.
Qed.

Lemma scrape_attempt_starts (svc : Worker.services) (url ts : string)
    (mr r a : nat) :
  exists rest,
    fst (Worker.scrape_attempts svc url ts mr (S r) a)
    = Worker.Navigate url a (Worker.attempt_timeout a) :: rest.
Proof.
  cbn [Worker.scrape_attempts].
  destruct (Worker.browser_visit svc url a _) as [[t l] | e];
    [eexists; reflexivity | ].
  destruct (negb _ || _); [eexists; reflexivity | ].
  destruct (Worker.scrape_attempts svc url ts mr r (S a)).
  eexists; reflexivity.
Qed.

(** The events of a run are always an initial part of the schedule. *)
Lemma scrape_events_prefix (svc : Worker.services) (url ts : string) :
  exists n : nat,
    fst (Worker.scrape_website svc url ts 3) = firstn n (spec_schedule url).
Proof.
  unfold Worker.scrape_website. cbn.
  destruct (Worker.browser_visit svc url 0%nat _) as [[t0 l0] | e0];
    [exists 1%nat; reflexivity | ].
  destruct (Worker.is_retryable e0); [ | exists 1%nat; reflexivity]. cbn.
  destruct (Worker.browser_visit svc url 1%nat _) as [[t1 l1] | e1];
    [exists 3%nat; reflexivity | ].
  destruct (Worker.is_retryable e1); [ | exists 3%nat; reflexivity]. cbn.
  destruct (Worker.browser_visit svc url 2%nat _) as [[t2 l2] | e2];
    [exists 5%nat; reflexivity | ].
  destruct (Worker.is_retryable e2); exists 5%nat; reflexivity.
Qed.

Lemma sleeps_of_prefix (url : string) (n : nat) :
  Forall (fun s => s = 1 \/ s = 2)
         (Worker.sleeps (firstn n (spec_schedule url))).
Proof.
  assert (H : forall l : list Z,
             forallb (fun s => Z.eqb s 1 || Z.eqb s 2) l = true ->
             Forall (fun s => s = 1 \/ s = 2) l).
  { induction l as [ | s l IH]; cbn; intros Hl; [apply List.Forall_nil | ].
    apply andb_true_iff in Hl as [Hs Hl].
    apply List.Forall_cons; [lia | exact (IH Hl)]. }
  apply H.
  do 6 (destruct n as [ | n]; [reflexivity | ]).
  reflexivity.
Qed.

(** C5, as amended. In the polling scraper, for every URL and every
    behaviour of the browser: the page-load timeouts are 20000, 30000 and
    40000 ms for the first, second and third attempt, and the events of a
    run are an initial part of attempt, 1 s pause, attempt, 2 s pause,
    attempt, so every pause is of 1 s or 2 s. When the attempts before
    attempt [k] failed with retryable messages and attempt [k] fails
    with message [e]: if [e] is not retryable the run stops after that
    attempt without content; if [e] is retryable and [k] is not the
    third attempt, a pause of [2^k] s and attempt [k+1] follow; if [k]
    is the third attempt the run stops without content. *)
Theorem scrape_retry_policy (svc : Worker.services) (url ts : string)
    (k : nat) (e : string)
    (Hk : (k < 3)%nat)
    (Hprev : forall i : nat, (i < k)%nat ->
       exists ei, Worker.browser_visit svc url i (Worker.attempt_timeout i) = Raise ei
                  /\ Worker.is_retryable ei = true)
    (Hfail : Worker.browser_visit svc url k (Worker.attempt_timeout k) = Raise e) :
  let run := Worker.scrape_website svc url ts Worker.DEFAULT_MAX_RETRIES in
  Worker.attempt_timeout 0 = 20000
  /\ Worker.attempt_timeout 1 = 30000
  /\ Worker.attempt_timeout 2 = 40000
  /\ Worker.wait_time 0 = 1 /\ Worker.wait_time 1 = 2
  /\ (exists n : nat, fst run = firstn n (spec_schedule url))
  /\ Forall (fun s => s = 1 \/ s = 2) (Worker.sleeps (fst run))
  /\ (if Worker.is_retryable e
      then if (k <? 2)%nat
           then firstn (2 * k + 3) (fst run) = spec_schedule_through url (k + 1)
           else run = (spec_schedule url, None)
      else run = (spec_schedule_through url k, None)).
Proof.
  intros run.
  do 5 (split; [reflexivity | ]).
  split; [apply scrape_events_prefix | ].
  split.
  { destruct (scrape_events_prefix svc url ts) as [n Hn].
    subst run. unfold Worker.DEFAULT_MAX_RETRIES. rewrite Hn.
    apply sleeps_of_prefix. }
  subst run. unfold Worker.scrape_website, Worker.DEFAULT_MAX_RETRIES.
  assert (Hretry : forall i : nat, (i < k)%nat -> forall r : nat,
            Worker.scrape_attempts svc url ts 3 (S r) i
            = (Worker.Navigate url i (Worker.attempt_timeout i)
               :: Worker.Sleep (Worker.wait_time i)
               :: fst (Worker.scrape_attempts svc url ts 3 r (S i)),
               snd (Worker.scrape_attempts svc url ts 3 r (S i)))).
  { intros i Hi r. destruct (Hprev i Hi) as (ei & Hv & Hr).
    apply (scrape_attempt_retries _ _ _ ei); [exact Hv | exact Hr | lia]. }
  destruct (Worker.is_retryable e) eqn:He.
  - destruct k as [ | [ | [ | k]]]; [ | | | lia]; cbn [Nat.ltb Nat.leb].
    + rewrite (scrape_attempt_retries _ _ _ e) by (auto; lia).
      destruct (scrape_attempt_starts svc url ts 3 1 1) as [rest ->].
      reflexivity.
    + rewrite (Hretry 0%nat) by lia.
      rewrite (scrape_attempt_retries _ _ _ e) by (auto; lia).
      destruct (scrape_attempt_starts svc url ts 3 0 2) as [rest ->].
      reflexivity.
    + rewrite (Hretry 0%nat) by lia. rewrite (Hretry 1%nat) by lia.
      rewrite (scrape_attempt_stops _ _ _ e) by (auto; right; lia).
      reflexivity.
  - destruct k as [ | [ | [ | k]]]; [ | | | lia].
    + rewrite (scrape_attempt_stops _ _ _ e) by auto. reflexivity.
    + rewrite (Hretry 0%nat) by lia.
      rewrite (scrape_attempt_stops _ _ _ e) by auto. reflexivity.
    + rewrite (Hretry 0%nat) by lia. rewrite (Hretry 1%nat) by lia.
      rewrite (scrape_attempt_stops _ _ _ e) by auto. reflexivity.
Qed.

Lemma scrape_retry_policy_witness :
  (1 < 3)%nat
  /\ Worker.browser_visit timeout_service "https://example.com" 1
       (Worker.attempt_timeout 1) = Raise "Timeout 20000ms exceeded."
  /\ firstn 5 (fst (Worker.scrape_website timeout_service "https://example.com"
                      "t" Worker.DEFAULT_MAX_RETRIES))
     = spec_schedule_through "https://example.com" 2.
Proof.
  assert (H13 : (1 < 3)%nat) by lia.
  split; [exact H13 | ].
  split; [reflexivity | ].
  assert (Hprev : forall i : nat, (i < 1)%nat ->
            exists ei,
              Worker.browser_visit timeout_service "https://example.com" i
                (Worker.attempt_timeout i) = Raise ei
              /\ Worker.is_retryable ei = true).
  { intros i _. exists "Timeout 20000ms exceeded.". split; reflexivity. }
  pose proof (scrape_retry_policy timeout_service "https://example.com" "t" 1
                "Timeout 20000ms exceeded." H13 Hprev eq_refl) as H.
  cbv zeta in H.
  destruct H as (_ & _ & _ & _ & _ & _ & _ & H).
  exact H.
Defined.

(** C5, the claim as stated fails: with every attempt timing out, the
    three attempts use the timeouts 20000, 30000 and 40000 ms, and the
    pauses between them are 1 s and 2 s; the run ends at the third
    failure, so no pause of 4 s is ever taken. *)
Lemma scrape_backoff_has_no_four_second_pause :
  let run := Worker.scrape_website timeout_service "https://example.com" "t"
               Worker.DEFAULT_MAX_RETRIES in
  Worker.is_retryable "Timeout 20000ms exceeded." = true
  /\ Worker.timeouts (fst run) = [20000; 30000; 40000]
  /\ snd run = None
  /\ Worker.sleeps (fst run) = [1; 2]
  /\ Worker.sleeps (fst run) <> [1; 2; 4]
  /\ ~ In 4 (Worker.sleeps (fst run)).
Proof.
  cbv zeta.
  split; [reflexivity | ]. split; [reflexivity | ]. split; [reflexivity | ].
  split; [reflexivity | ].
  split; [discriminate | ].
  cbn. intros [H | [H | []]]; discriminate.
Qed.

(** ** AI extraction: where the content is cut *)

Lemma string_app_cons (x : ascii) (a b : string) :
  String x a +:+ b = String x (a +:+ b).
Proof. reflexivity. Qed.

Lemma string_app_assoc (a b c : string) : (a +:+ b) +:+ c = a +:+ (b +:+ c).
Proof.
  induction a as [ | x a IH]; [reflexivity | ].
  rewrite !string_app_cons. f_equal. exact IH.
Qed.

Lemma string_app_nil_r (a : string) : a +:+ "" = a.
Proof.
  induction a as [ | x a IH]; [reflexivity | ].
  rewrite string_app_cons. f_equal. exact IH.
Qed.

Lemma take_length (n : nat) (s : string) :
  String.length (Py.take n s) = Nat.min n (String.length s).
Proof.
  revert s. induction n as [ | n IH]; intros [ | c s]; simpl; try reflexivity.
  f_equal. apply IH.
Qed.

Lemma take_app (n : nat) (s t : string) :
  Py.take n (s +:+ t) = Py.take n s +:+ Py.take (n - String.length s) t.
Proof.
  revert n. induction s as [ | c s IH]; intros n.
  - change ("" +:+ t) with t. rewrite Nat.sub_0_r.
    destruct n; reflexivity.
  - rewrite string_app_cons.
    destruct n as [ | n]; [reflexivity | ].
    change (Py.take (S n) (String c (s +:+ t)))
      with (String c (Py.take n (s +:+ t))).
    change (Py.take (S n) (String c s)) with (String c (Py.take n s)).
    rewrite string_app_cons, IH. reflexivity.
Qed.

Lemma take_zero (s : string) : Py.take 0 s = "".
Proof. destruct s; reflexivity. Qed.

Lemma append_pages_records (acc : string) (pages : list (string * string)) :
  Worker.append_pages acc (map page_record pages)
  = Ok (acc +:+ pages_text pages).
Proof.
  revert acc. induction pages as [ | p pages IH]; intros acc.
  - cbn. now rewrite string_app_nil_r.
  - change (Worker.append_pages acc (map page_record (p :: pages)))
      with (Worker.append_pages (acc +:+ (NL +:+ NL +:+ snd p))
              (map page_record pages)).
    rewrite IH.
    change (pages_text (p :: pages))
      with ((NL +:+ NL +:+ snd p) +:+ pages_text pages).
    now rewrite string_app_assoc.
Qed.

Lemma all_content_record (url main ts : string) (pages : list (string * string)) :
  Worker.all_content (scraped_record url main pages ts)
  = Ok (main +:+ pages_text pages).
Proof. cbn. apply append_pages_records. Qed.

Lemma follow_link_record (l : Worker.link) (v : value) :
  Worker.follow_link l = Some v -> exists p, v = page_record p.
Proof.
  unfold Worker.follow_link.
  destruct (Worker.href l) as [h | ]; [ | discriminate].
  destruct (negb (String.eqb h "") && negb (Py.startswith h "mailto:"));
    [ | discriminate].
  destruct (Worker.page_text l) as [text | e]; [ | discriminate].
  intros [= <-]. exists (h, text). reflexivity.
Qed.

Lemma additional_pages_records (links : list Worker.link) :
  exists pages, Worker.additional_pages links = map page_record pages.
Proof.
  unfold Worker.additional_pages.
  induction (firstn 3 links) as [ | l ls [pages IH]]; [exists []; reflexivity | ].
  cbn [omap list_omap]. destruct (Worker.follow_link l) as [v | ] eqn:Hl.
  - destruct (follow_link_record l v Hl) as [p ->].
    exists (p :: pages). cbn [map]. now rewrite <- IH.
  - exists pages. exact IH.
Qed.

(** Every result of [scrape_website] is a record of the shape that the
    extraction is stated for. *)
Lemma scrape_result_is_record (svc : Worker.services) (url ts : string)
    (mr r a : nat) (v : value) :
  snd (Worker.scrape_attempts svc url ts mr r a) = Some v ->
  exists main pages, v = VDict (scraped_record url main pages ts).
Proof.
  revert a. induction r as [ | r IH]; intros a; [discriminate | ].
  cbn [Worker.scrape_attempts].
  destruct (Worker.browser_visit svc url a _) as [[text links] | e].
  - cbn [snd]. intros [= <-].
    destruct (additional_pages_records links) as [pages Hp].
    exists text, pages. unfold scraped_record. now rewrite Hp.
  - destruct (negb _ || _); [discriminate | ].
    specialize (IH (S a)).
    destruct (Worker.scrape_attempts svc url ts mr r (S a)) as [events scraped].
    exact IH.
Qed.

(** C3, as amended. In AI extraction, in both worker variants, the cut to
    3000 characters is applied to the concatenation of the main content
    and every additional page (each after a blank line), not to the main
    content alone: for every scraped result the website content of the
    prompt is the first 3000 characters of that concatenation, that is,
    the first 3000 characters of the main content followed by as much of
    the additional pages as still fits below 3000; it never exceeds 3000
    characters. *)
Theorem prompt_content_cut_after_concatenation (url main ts : string)
    (pages : list (string * string)) (lead : list (string * value)) :
  let scraped := scraped_record url main pages ts in
  let company := Py.str (Py.get_default "company" (VStr "Unknown") lead) in
  let shown := Py.take CONTENT_LIMIT (main +:+ pages_text pages) in
  Worker.website_content scraped = Ok shown
  /\ Worker.build_prompt scraped lead
     = Ok (PROMPT_HEAD +:+ company +:+ PROMPT_MID +:+ shown +:+ PROMPT_TAIL)
  /\ WorkerEcs.build_prompt scraped lead
     = Ok (PROMPT_HEAD +:+ company +:+ PROMPT_MID +:+ shown +:+ PROMPT_TAIL_ECS)
  /\ shown = Py.take CONTENT_LIMIT main
             +:+ Py.take (CONTENT_LIMIT - String.length main) (pages_text pages)
  /\ (String.length shown <= CONTENT_LIMIT)%nat.
Proof.
  intros scraped company shown.
  assert (Hc : Worker.website_content scraped = Ok shown).
  { unfold Worker.website_content, scraped.
    rewrite all_content_record. reflexivity. }
  split; [exact Hc | ].
  split.
  { unfold Worker.build_prompt, Worker.build_prompt_with. rewrite Hc. reflexivity. }
  split.
  { unfold WorkerEcs.build_prompt, Worker.build_prompt_with. rewrite Hc. reflexivity. }
  split; [apply take_app | ].
  unfold shown. rewrite take_length. lia.
Qed.

(** C3, the claim as stated fails: with a main page of 3000 characters
    the prompt holds nothing of the additional page, whereas the claim
    puts the whole page after the main content. *)
Lemma long_main_page_crowds_out_additional_pages :
  let main := Py.repeat_nat "a" 3000 in
  let pages := [("https://example.com/contact", "Owner: Jane Doe")] in
  let scraped := scraped_record "https://example.com" main pages "t" in
  Worker.website_content scraped = Ok main
  /\ Worker.website_content scraped <> Ok (spec_prompt_content main pages)
  /\ (exists prompt, Worker.build_prompt scraped [("company", VStr "Acme")] = Ok prompt
                     /\ Py.contains "Jane Doe" prompt = false)
  /\ (exists prompt, WorkerEcs.build_prompt scraped [("company", VStr "Acme")] = Ok prompt
                     /\ Py.contains "Jane Doe" prompt = false).
Proof.
  cbv zeta.
  split; [vm_compute; reflexivity | ].
  split; [vm_compute; discriminate | ].
  split; eexists; (split; [vm_compute; reflexivity | vm_compute; reflexivity]).
Qed.

(** ** Orchestrator: the lead query of a direct invocation *)

Lemma direct_parameters_limit_truthy (d : list (string * value)) :
  Py.truthy (Orchestrator.query_limit (Orchestrator.direct_parameters d)) = true.
Proof.
  unfold Orchestrator.direct_parameters, Orchestrator.query_limit.
  destruct (Py.truthy (Py.get "limit" d)) eqn:Ht; [exact Ht | reflexivity].
Qed.

(** C2, as amended. For every direct (non-scheduled) invocation of the
    orchestration entry point whose parameter object omits [limit], the
    job parameters carry no limit, [fetch_salesforce_leads] then takes
    its own default of 10000, and the query sent to the CRM is the base
    query followed by [LIMIT 10000]: the lead query is bounded at 10000
    for direct invocations too. For any direct parameter object the
    limit used is a true value, so a LIMIT clause is always appended. *)
Theorem direct_invocation_query_is_limited (d d' : list (string * value))
    (svc : Orchestrator.services)
    (Hdirect : Orchestrator.is_scheduled d = false)
    (Hnolimit : Py.dict_get "limit" d = None) :
  let params := Orchestrator.direct_parameters d in
  Orchestrator.handler_parameters (Orchestrator.EvDict d) = Ok params
  /\ Py.dict_get "limit" params = None
  /\ Orchestrator.query_limit params = VInt 10000
  /\ Orchestrator.build_query params
     = Orchestrator.BASE_QUERY +:+ " LIMIT 10000"
  /\ Orchestrator.fetch_salesforce_leads svc params
     = (records ← Orchestrator.sf_query_all svc
                    (Orchestrator.BASE_QUERY +:+ " LIMIT 10000");
        Orchestrator.leads_of_records records)
  /\ Orchestrator.build_query (Orchestrator.direct_parameters d')
     = Orchestrator.BASE_QUERY +:+ " LIMIT "
       +:+ Py.str (Orchestrator.query_limit (Orchestrator.direct_parameters d')).
Proof.
  intros params.
  assert (Hp : params = [("update_salesforce",
                          Py.get_default "update_salesforce" (VBool false) d)]).
  { unfold params, Orchestrator.direct_parameters, Py.get.
    rewrite Hnolimit. reflexivity. }
  split.
  { unfold Orchestrator.handler_parameters. rewrite Hdirect. reflexivity. }
  rewrite Hp.
  split; [reflexivity | ]. split; [reflexivity | ]. split; [reflexivity | ].
  split; [reflexivity | ].
  unfold Orchestrator.build_query.
  rewrite direct_parameters_limit_truthy. reflexivity.
Qed.

Lemma direct_invocation_query_is_limited_witness :
  Orchestrator.is_scheduled [("update_salesforce", VBool true)] = false
  /\ Py.dict_get "limit" [("update_salesforce", VBool true)] = None
  /\ Orchestrator.build_query
       (Orchestrator.direct_parameters [("update_salesforce", VBool true)])
     = Orchestrator.BASE_QUERY +:+ " LIMIT 10000".
Proof.
  assert (H1 : Orchestrator.is_scheduled [("update_salesforce", VBool true)] = false)
    by reflexivity.
  assert (H2 : Py.dict_get "limit" [("update_salesforce", VBool true)] = None)
    by reflexivity.
  split; [exact H1 | ]. split; [exact H2 | ].
  exact (proj1 (proj2 (proj2 (proj2
           (direct_invocation_query_is_limited
              [("update_salesforce", VBool true)] []
              (Orchestrator.Services (Ok ()) (fun _ => Ok []) (fun _ => Ok ())
                 (fun _ => Raise "unused"))
              H1 H2))))).
Defined.

(** C2, the claim as stated fails: a direct invocation with an empty
    parameter object sends the CRM a query that ends in [LIMIT 10000],
    not the unbounded base query. *)
Lemma direct_invocation_without_limit_is_capped :
  Orchestrator.handler_parameters (Orchestrator.EvDict [])
  = Ok [("update_salesforce", VBool false)]
  /\ Orchestrator.build_query [("update_salesforce", VBool false)]
     = Orchestrator.BASE_QUERY +:+ " LIMIT 10000"
  /\ Orchestrator.build_query [("update_salesforce", VBool false)]
     <> Orchestrator.BASE_QUERY
  /\ Py.contains "LIMIT" Orchestrator.BASE_QUERY = false
  /\ Py.contains "LIMIT 10000"
       (Orchestrator.build_query [("update_salesforce", VBool false)]) = true.
Proof.
  split; [reflexivity | ]. split; [reflexivity | ].
  split; [vm_compute; discriminate | ].
  split; vm_compute; reflexivity.
Qed.

(** ** Orchestrator: a failing placement request *)

Lemma send_leads_all_sent (svc : Orchestrator.services) (job_id : string)
    (parameters : list (string * value)) (leads : list value) (q : Z)
    (w : Orchestrator.world) :
  (forall m, Orchestrator.sqs_send_message svc m = Ok ()) ->
  exists msgs,
    Orchestrator.send_leads svc job_id parameters leads q w
    = (Orchestrator.World (Orchestrator.jobs w)
         (Orchestrator.queue w ++ msgs)%list (Orchestrator.run_task_calls w),
       Ok (q + Z.of_nat (length leads)))
    /\ length msgs = length leads.
Proof.
  intros Hsend. revert q w.
  induction leads as [ | lead leads IH]; intros q w.
  - exists []. destruct w. cbn. rewrite app_nil_r, Z.add_0_r. auto.
  - cbn [Orchestrator.send_leads]. rewrite Hsend.
    destruct (IH (q + 1) (Orchestrator.World (Orchestrator.jobs w)
                (Orchestrator.queue w
                 ++ [VDict [("job_id", VStr job_id); ("lead", lead);
                            ("parameters", VDict parameters)]])%list
                (Orchestrator.run_task_calls w))) as (msgs & -> & Hlen).
    eexists (_ :: msgs). cbn [Orchestrator.jobs Orchestrator.queue
                                Orchestrator.run_task_calls].
    rewrite <- app_assoc. cbn [app length]. split; [ | now rewrite Hlen].
    do 2 f_equal. lia.
Qed.

Lemma start_ecs_workers_absorbs_failure (svc : Orchestrator.services)
    (count : Z) (e : string) (w : Orchestrator.world) :
  Orchestrator.ecs_run_task svc (Orchestrator.safe_count count) = Raise e ->
  Orchestrator.start_ecs_workers svc count w
  = (Orchestrator.World (Orchestrator.jobs w) (Orchestrator.queue w)
       (Orchestrator.run_task_calls w ++ [Orchestrator.safe_count count])%list,
     0).
Proof. intros H. unfold Orchestrator.start_ecs_workers. now rewrite H. Qed.

(** C1, as amended. If the worker-compute placement request raises
    during job start, [start_ecs_workers] catches the error and reports
    0 workers started; the job is not marked failed on that account:
    when the CRM login, the lead query and every queue send succeed, the
    Job record is updated to status [processing] with
    [workers_started = 0] and no [error] attribute, and the orchestrator
    returns the success payload with status [processing]. *)
Theorem compute_failure_is_absorbed (svc : Orchestrator.services)
    (job_id created_at e : string) (parameters : list (string * value))
    (records : list (list (string * value))) (leads : list value)
    (w : Orchestrator.world)
    (Hconn : Orchestrator.sf_connect svc = Ok ())
    (Hquery : Orchestrator.sf_query_all svc (Orchestrator.build_query parameters)
              = Ok records)
    (Hleads : Orchestrator.leads_of_records records = Ok leads)
    (Hsend : forall m, Orchestrator.sqs_send_message svc m = Ok ())
    (Hecs : forall n, Orchestrator.ecs_run_task svc n = Raise e) :
  let n := Z.of_nat (length leads) in
  let run := Orchestrator.start_enrichment_job svc job_id created_at parameters w in
  snd (Orchestrator.start_ecs_workers svc (Orchestrator.optimal_workers n) w) = 0
  /\ snd run = Ok (started_response job_id n n 0)
  /\ Orchestrator.job_attr (fst run) job_id "status" = Some (VStr "processing")
  /\ Orchestrator.job_attr (fst run) job_id "workers_started" = Some (VInt 0)
  /\ Orchestrator.job_attr (fst run) job_id "leads_queued" = Some (VInt n)
  /\ Orchestrator.job_attr (fst run) job_id "error" = None
  /\ Orchestrator.run_task_calls (fst run)
     = (Orchestrator.run_task_calls w ++ [Orchestrator.optimal_workers n])%list.
Proof.
  intros n run.
  split.
  { rewrite (start_ecs_workers_absorbs_failure _ _ e) by apply Hecs. reflexivity. }
  assert (Hrun : exists w',
            run = (w', Ok (started_response job_id n n 0))
            /\ Orchestrator.jobs w' !! job_id
               = Some (<["workers_started" := VInt 0]>
                       (<["leads_queued" := VInt n]>
                        (<["status" := VStr "processing"]>
                         (<["leads_found" := VInt n]>
                          (<["status" := VStr "queuing_leads"]>
                           (list_to_map
                              [("job_id", VStr job_id);
                               ("status", VStr "fetching_leads");
                               ("created_at", VStr created_at);
                               ("parameters", VDict parameters)]))))))
            /\ Orchestrator.run_task_calls w'
               = (Orchestrator.run_task_calls w
                  ++ [Orchestrator.optimal_workers n])%list).
  { unfold run, Orchestrator.start_enrichment_job. rewrite Hconn.
    unfold Orchestrator.job_steps, Orchestrator.fetch_salesforce_leads.
    rewrite Hquery. cbn [mbind result_bind]. rewrite Hleads.
    match goal with
    | |- context [Orchestrator.send_leads svc job_id parameters leads 0 ?w1] =>
        destruct (send_leads_all_sent svc job_id parameters leads 0 w1 Hsend)
          as (msgs & -> & _)
    end.
    rewrite (start_ecs_workers_absorbs_failure _ _ e) by apply Hecs.
    rewrite safe_count_optimal_workers.
    eexists. split; [reflexivity | ].
    split; [ | reflexivity].
    cbn [Orchestrator.update_item Orchestrator.put_item Orchestrator.jobs
           Orchestrator.queue Orchestrator.run_task_calls fst snd foldl].
    rewrite !lookup_insert_eq. cbn [default foldl fst snd].
    rewrite Z.add_0_l. reflexivity. }
  destruct Hrun as (w' & -> & Hjob & Hcalls).
  cbn [fst snd]. unfold Orchestrator.job_attr. rewrite Hjob.
  split; [reflexivity | ].
  repeat split; try exact Hcalls; vm_compute; reflexivity.
Qed.

Lemma compute_failure_is_absorbed_witness :
  Orchestrator.sf_connect failing_compute_service = Ok ()
  /\ snd (Orchestrator.start_enrichment_job failing_compute_service "job-1"
            "2024-05-01T00:00:00.000Z" [("update_salesforce", VBool false)]
            Orchestrator.empty_world)
     = Ok (started_response "job-1" 1 1 0).
Proof.
  split; [reflexivity | ].
  exact (proj1 (proj2
    (compute_failure_is_absorbed failing_compute_service "job-1"
       "2024-05-01T00:00:00.000Z"
       "An error occurred (AccessDeniedException) when calling the RunTask operation"
       [("update_salesforce", VBool false)]
       [[("Id", VStr "00Q000000000001"); ("Company", VStr "Acme");
         ("Website", VStr "https://example.com")]]
       _ Orchestrator.empty_world
       eq_refl eq_refl eq_refl (fun _ => eq_refl) (fun _ => eq_refl)))).
Defined.

(** C1, the claim as stated fails: with a placement request that raises,
    the orchestrator still returns the success payload with status
    [processing], and the Job record reads [processing] with no error. *)
Lemma compute_failure_returns_processing :
  let run := Orchestrator.start_enrichment_job failing_compute_service "job-1"
               "2024-05-01T00:00:00.000Z" [("update_salesforce", VBool false)]
               Orchestrator.empty_world in
  Orchestrator.ecs_run_task failing_compute_service 2
  = Raise "An error occurred (AccessDeniedException) when calling the RunTask operation"
  /\ Orchestrator.run_task_calls (fst run) = [2]
  /\ snd run = Ok (started_response "job-1" 1 1 0)
  /\ Orchestrator.job_attr (fst run) "job-1" "status" = Some (VStr "processing")
  /\ Orchestrator.job_attr (fst run) "job-1" "error" = None
  /\ Py.dict_get "statusCode"
       (match snd (Orchestrator.lambda_handler failing_compute_service "job-1"
                     "2024-05-01T00:00:00.000Z" (Orchestrator.EvDict [])
                     Orchestrator.empty_world) with
        | VDict d => d
        | _ => []
        end) = Some (VInt 200).
Proof. cbv zeta. repeat split; vm_compute; reflexivity. Qed.

(** The failures that do end the job: a lead query that raises marks the
    Job record failed with the error text and re-raises. *)
Lemma query_failure_marks_job_failed (svc : Orchestrator.services)
    (job_id created_at e : string) (parameters : list (string * value))
    (w : Orchestrator.world) :
  Orchestrator.sf_connect svc = Ok () ->
  Orchestrator.sf_query_all svc (Orchestrator.build_query parameters) = Raise e ->
  let run := Orchestrator.start_enrichment_job svc job_id created_at parameters w in
  snd run = Raise e
  /\ Orchestrator.job_attr (fst run) job_id "status" = Some (VStr "failed")
  /\ Orchestrator.job_attr (fst run) job_id "error" = Some (VStr e).
Proof.
  intros Hconn Hquery run.
  unfold run, Orchestrator.start_enrichment_job. rewrite Hconn.
  unfold Orchestrator.job_steps, Orchestrator.fetch_salesforce_leads.
  rewrite Hquery. cbn [mbind result_bind fst snd].
  split; [reflexivity | ].
  unfold Orchestrator.job_attr.
  cbn [Orchestrator.update_item Orchestrator.put_item Orchestrator.jobs
         Orchestrator.queue Orchestrator.run_task_calls fst snd foldl].
  rewrite !lookup_insert_eq. cbn [default foldl fst snd].
  split; vm_compute; reflexivity.
Qed.

(** ** Polling worker: the website content cache *)

Lemma fresh_iff_less_than_a_day (now cached_time : Z) :
  Z.ltb (Worker.timedelta_days now cached_time) 1
  = Z.ltb (now - cached_time) Worker.MICROSECONDS_PER_DAY.
Proof.
  unfold Worker.timedelta_days, Worker.MICROSECONDS_PER_DAY.
  change (86400 * 1000000) with 86400000000.
  destruct (Z.ltb_spec (now - cached_time) 86400000000) as [Hlt | Hge];
    destruct (Z.ltb_spec ((now - cached_time) / 86400000000) 1) as [Hd | Hd];
    try reflexivity; exfalso.
  - assert ((now - cached_time) / 86400000000 < 1);
      [apply Z.div_lt_upper_bound; lia | lia].
  - assert (1 <= (now - cached_time) / 86400000000);
      [apply Z.div_le_lower_bound; lia | lia].
Qed.

Lemma check_cache_entry (now T : Z) (url : string) (c : value)
    (t : gmap string Worker.cache_item) :
  t !! url = Some (Worker.CacheItem c (Some T)) ->
  Worker.check_cache now url t
  = if Z.ltb (now - T) Worker.MICROSECONDS_PER_DAY then Some c else None.
Proof.
  intros Ht. unfold Worker.check_cache. rewrite Ht.
  cbn [Worker.cached_at Worker.content].
  now rewrite fresh_iff_less_than_a_day.
Qed.

Lemma save_error_same_scrape_state (ck : Worker.clock) (job_id : string)
    (lead_id : value) (error : string) (w : Worker.world) :
  same_scrape_state w (Worker.save_error_result ck job_id lead_id error w).
Proof. split; reflexivity. Qed.

Lemma update_salesforce_same_scrape_state (svc : Worker.services)
    (lead_id : value) (info : list (string * value)) (date : string)
    (w : Worker.world) :
  same_scrape_state w (fst (Worker.update_salesforce_lead svc lead_id info date w)).
Proof.
  unfold Worker.update_salesforce_lead.
  destruct (Worker.sf_connect svc); [ | split; reflexivity].
  destruct (Worker.build_update_data info date); [ | split; reflexivity].
  destruct (Worker.sf_lead_update svc lead_id _); split; reflexivity.
Qed.

Lemma finish_lead_same_scrape_state (svc : Worker.services) (ck : Worker.clock)
    (job_id : string) (lead_id : value)
    (lead parameters info : list (string * value)) (w : Worker.world) :
  same_scrape_state w
    (fst (Worker.finish_lead svc ck job_id lead_id lead parameters info w)).
Proof.
  unfold Worker.finish_lead.
  destruct (Worker.decimal_of_str _) as [conf | e];
    [ | apply save_error_same_scrape_state].
  destruct (Py.truthy _); [ | split; reflexivity].
  match goal with
  | |- context [Worker.update_salesforce_lead ?a ?b ?c ?d ?w0] =>
      pose proof (update_salesforce_same_scrape_state a b c d w0) as [Hc Hb];
      destruct (Worker.update_salesforce_lead a b c d w0) as [w' [u | e]]
  end; cbn [fst] in *; split; cbn; assumption.
Qed.

Lemma process_lead_scrape_state (svc : Worker.services) (ck : Worker.clock)
    (job_id url : string) (lead parameters : list (string * value))
    (lead_id : value) (w : Worker.world) :
  Py.dict_get "id" lead = Some lead_id ->
  Py.get "website" lead = VStr url ->
  url <> "" ->
  same_scrape_state (fst (Worker.obtain_content svc ck (VStr url) w))
    (fst (Worker.process_lead svc ck job_id lead parameters w)).
Proof.
  intros Hid Hweb Hurl. unfold Worker.process_lead.
  rewrite Hid, Hweb.
  assert (Ht : Py.truthy (VStr url) = true).
  { cbn. destruct (String.eqb_spec url ""); [contradiction | reflexivity]. }
  rewrite Ht. cbn [negb].
  destruct (Worker.obtain_content svc ck (VStr url) w) as [w1 scraped].
  cbn [fst].
  destruct (negb (Worker.truthy_opt scraped));
    [apply save_error_same_scrape_state | ].
  match goal with
  | |- context [negb (Worker.truthy_opt ?x)] =>
      destruct (negb (Worker.truthy_opt x));
      [apply save_error_same_scrape_state | destruct x as [[ | | | | | | | info] | ]]
  end; try apply save_error_same_scrape_state.
  apply finish_lead_same_scrape_state.
Qed.

Lemma obtain_content_fresh (svc : Worker.services) (ck : Worker.clock)
    (url : string) (c : value) (T : Z) (w : Worker.world) :
  Worker.cache_table w !! url = Some (Worker.CacheItem c (Some T)) ->
  Py.truthy c = true ->
  Worker.lookup_time ck - T < Worker.MICROSECONDS_PER_DAY ->
  Worker.obtain_content svc ck (VStr url) w = (w, Some c).
Proof.
  intros Ht Hc Hlt. unfold Worker.obtain_content.
  rewrite (check_cache_entry _ T _ c) by exact Ht.
  destruct (Z.ltb_spec (Worker.lookup_time ck - T) Worker.MICROSECONDS_PER_DAY);
    [ | lia].
  cbn [Worker.truthy_opt]. rewrite Hc. reflexivity.
Qed.

Lemma obtain_content_stale (svc : Worker.services) (ck : Worker.clock)
    (url : string) (c : value) (T : Z) (w : Worker.world) :
  Worker.cache_table w !! url = Some (Worker.CacheItem c (Some T)) ->
  Worker.MICROSECONDS_PER_DAY <= Worker.lookup_time ck - T ->
  let scrape := Worker.scrape_website svc url (Worker.stamp ck)
                  Worker.DEFAULT_MAX_RETRIES in
  let w' := fst (Worker.obtain_content svc ck (VStr url) w) in
  snd (Worker.obtain_content svc ck (VStr url) w) = snd scrape
  /\ Worker.browser_log w' = (Worker.browser_log w ++ fst scrape)%list
  /\ Worker.cache_table w' !! url
     = Some (match snd scrape with
             | Some s => Worker.CacheItem (convert_floats_to_decimal s)
                           (Some (Worker.cache_time ck))
             | None => Worker.CacheItem c (Some T)
             end).
Proof.
  intros Ht Hge scrape w'. subst w'. unfold Worker.obtain_content.
  rewrite (check_cache_entry _ T _ c) by exact Ht.
  destruct (Z.ltb_spec (Worker.lookup_time ck - T) Worker.MICROSECONDS_PER_DAY);
    [lia | ].
  cbn [Worker.truthy_opt]. fold scrape.
  destruct scrape as [events [s | ]]; cbn [fst snd].
  - split; [reflexivity | ]. split; [reflexivity | ].
    cbn. unfold Worker.cache_content. apply lookup_insert_eq.
  - split; [reflexivity | ]. split; [reflexivity | ]. exact Ht.
Qed.

(** C6. For a website-cache entry written at time [T] (with the content
    of a scrape, which is a non-empty record), the pipeline's cache
    lookup at any time less than 24 hours after [T] returns the cached
    content and the browser is not used, the cache being left as it is;
    at 24 hours or more the entry is stale: the lookup gives nothing, the
    site is scraped again (the browser log grows by the events of one
    scrape, which starts with a navigation to the site), and the entry is
    then the new content stamped with the time of the write when the
    scrape gave content, and the old entry, never a missing one, when it
    gave none. 23 h 59 min after [T] is fresh and 24 h 01 min is stale. *)
Theorem cache_entry_is_fresh_for_24_hours (svc : Worker.services)
    (ck : Worker.clock) (job_id url : string)
    (lead parameters : list (string * value)) (lead_id c : value) (T : Z)
    (w : Worker.world)
    (Hid : Py.dict_get "id" lead = Some lead_id)
    (Hweb : Py.get "website" lead = VStr url)
    (Hurl : url <> "")
    (Hentry : Worker.cache_table w !! url = Some (Worker.CacheItem c (Some T)))
    (Hc : Py.truthy c = true) :
  let elapsed := Worker.lookup_time ck - T in
  let scrape := Worker.scrape_website svc url (Worker.stamp ck)
                  Worker.DEFAULT_MAX_RETRIES in
  let content := snd (Worker.obtain_content svc ck (VStr url) w) in
  let w' := fst (Worker.process_lead svc ck job_id lead parameters w) in
  Worker.check_cache (Worker.lookup_time ck) url (Worker.cache_table w)
  = (if Z.ltb elapsed (24 * 3600 * 1000000) then Some c else None)
  /\ (if Z.ltb elapsed (24 * 3600 * 1000000)
      then content = Some c
           /\ Worker.browser_log w' = Worker.browser_log w
           /\ Worker.cache_table w' = Worker.cache_table w
      else content = snd scrape
           /\ Worker.browser_log w' = (Worker.browser_log w ++ fst scrape)%list
           /\ (exists rest, fst scrape = Worker.Navigate url 0 20000 :: rest)
           /\ Worker.cache_table w' !! url
              = Some (match snd scrape with
                      | Some s => Worker.CacheItem (convert_floats_to_decimal s)
                                    (Some (Worker.cache_time ck))
                      | None => Worker.CacheItem c (Some T)
                      end))
  /\ Worker.check_cache (T + (23 * 3600 + 59 * 60) * 1000000) url
       (Worker.cache_table w) = Some c
  /\ Worker.check_cache (T + (24 * 3600 + 60) * 1000000) url
       (Worker.cache_table w) = None.
Proof.
  intros elapsed scrape content w'.
  change (24 * 3600 * 1000000) with Worker.MICROSECONDS_PER_DAY.
  destruct (process_lead_scrape_state svc ck job_id url lead parameters
              lead_id w Hid Hweb Hurl) as [Hcache Hlog].
  fold w' in Hcache, Hlog.
  split; [apply check_cache_entry; exact Hentry | ].
  split.
  - subst elapsed.
    destruct (Z.ltb_spec (Worker.lookup_time ck - T) Worker.MICROSECONDS_PER_DAY)
      as [Hlt | Hge].
    + subst content. rewrite Hcache, Hlog.
      rewrite (obtain_content_fresh svc ck url c T w Hentry Hc Hlt).
      repeat split.
    + destruct (obtain_content_stale svc ck url c T w Hentry Hge)
        as (Hcontent & Hlog' & Hcache').
      subst content. rewrite Hcache, Hlog.
      split; [exact Hcontent | ]. split; [exact Hlog' | ].
      split; [ | exact Hcache'].
      apply (scrape_attempt_starts svc url (Worker.stamp ck) 3 2 0).
  - split; rewrite (check_cache_entry _ T _ c) by exact Hentry.
    + replace (T + (23 * 3600 + 59 * 60) * 1000000 - T) with 86340000000 by lia.
      reflexivity.
    + replace (T + (24 * 3600 + 60) * 1000000 - T) with 86460000000 by lia.
      reflexivity.
Qed.

Lemma cache_entry_is_fresh_for_24_hours_witness :
  Py.dict_get "id" example_lead = Some (VStr "00Q000000000001")
  /\ Py.get "website" example_lead = VStr "https://example.com"
  /\ Worker.cache_table example_world !! "https://example.com"
     = Some (Worker.CacheItem example_content (Some 0))
  /\ Py.truthy example_content = true
  /\ Worker.check_cache (Worker.lookup_time example_clock) "https://example.com"
       (Worker.cache_table example_world) = Some example_content.
Proof.
  assert (Hurl : "https://example.com" <> "") by discriminate.
  assert (Hentry : Worker.cache_table example_world !! "https://example.com"
                   = Some (Worker.CacheItem example_content (Some 0)))
    by (vm_compute; reflexivity).
  split; [reflexivity | ]. split; [reflexivity | ].
  split; [exact Hentry | ]. split; [reflexivity | ].
  exact (proj1 (cache_entry_is_fresh_for_24_hours timeout_service example_clock
                  "job-1" "https://example.com" example_lead [] _ _ 0
                  example_world eq_refl eq_refl Hurl Hentry eq_refl)).
Defined.

(** ** Polling worker: CRM write-back *)

#[local] Arguments Worker.is_valid_value : simpl never.

Lemma is_valid_text (s : string) :
  Worker.is_valid_value (VStr s) = negb (spec_placeholder s).
Proof.
  unfold Worker.is_valid_value, spec_placeholder. cbn [Py.truthy].
  destruct (String.eqb_spec s "") as [-> | _]; reflexivity.
Qed.

Lemma set_fields_lookup (enriched standard k : string) (v : value)
    (d : gmap string value) :
  Worker.set_fields enriched standard v d !! k
  = if Worker.is_valid_value v && (String.eqb k standard || String.eqb k enriched)
    then Some v else d !! k.
Proof.
  unfold Worker.set_fields.
  destruct (Worker.is_valid_value v); cbn [andb]; [ | reflexivity].
  destruct (String.eqb_spec k standard) as [-> | Hs]; cbn [orb].
  - apply lookup_insert_eq.
  - rewrite lookup_insert_ne by congruence.
    destruct (String.eqb_spec k enriched) as [-> | He].
    + apply lookup_insert_eq.
    + now rewrite lookup_insert_ne by congruence.
Qed.

Lemma address_parts_valid (address : list (string * value)) :
  Forall (fun v => Worker.is_valid_value v = true) (Worker.address_parts address).
Proof.
  unfold Worker.address_parts.
  apply Forall_forall. intros v Hv.
  apply list_elem_of_In, filter_In in Hv. tauto.
Qed.

#[local] Arguments Py.get : simpl never.

(** The name and address fields of the update map are the ones that the
    seven [set_fields] blocks leave. *)
Lemma build_update_data_lookup (extracted_info address : list (string * value))
    (date k : string) (upd : gmap string value) :
  Worker.build_update_data extracted_info date = Ok upd ->
  Worker.address_of extracted_info = Ok address ->
  Py.str_in k ["Enriched_Full_Address__c"; "Enrichment_Date__c";
               "Enrichment_Confidence__c"; "Enrichment_Source__c";
               "Enrichment_Completed__c"] = false ->
  upd !! k
  = Worker.set_fields "Enriched_Country__c" "Country" (Py.get "country" address)
      (Worker.set_fields "Enriched_Postal_Code__c" "PostalCode"
         (Py.get "postal_code" address)
         (Worker.set_fields "Enriched_State__c" "State" (Py.get "state" address)
            (Worker.set_fields "Enriched_City__c" "City" (Py.get "city" address)
               (Worker.set_fields "Enriched_Street__c" "Street"
                  (Py.get "street" address)
                  (Worker.set_fields "Enriched_Last_Name__c" "LastName"
                     (Py.get "last_name" extracted_info)
                     (Worker.set_fields "Enriched_First_Name__c" "FirstName"
                        (Py.get "first_name" extracted_info) ∅))))))
    !! k.
Proof.
  intros Hb Haddr Hk.
  unfold Py.str_in in Hk. cbn [existsb] in Hk.
  repeat (apply orb_false_iff in Hk as [?%String.eqb_neq Hk]).
  unfold Worker.build_update_data in Hb. rewrite Haddr in Hb.
  cbn [mbind result_bind] in Hb.
  destruct (Worker.address_parts address) as [ | p ps].
  - cbn [mbind result_bind] in Hb. injection Hb as <-.
    now rewrite !lookup_insert_ne by congruence.
  - destruct (Worker.texts_of (p :: ps)) as [ss | e];
      cbn [mbind result_bind] in Hb; [ | discriminate].
    injection Hb as <-.
    now rewrite !lookup_insert_ne by congruence.
Qed.

(** The combined address is present exactly when some address part is
    valid, and is then the valid parts joined in their fixed order. *)
Lemma full_address_lookup (extracted_info address : list (string * value))
    (date : string) (upd : gmap string value) :
  Worker.build_update_data extracted_info date = Ok upd ->
  Worker.address_of extracted_info = Ok address ->
  match Worker.address_parts address with
  | [] => upd !! "Enriched_Full_Address__c" = None
  | parts =>
      exists ss, Worker.texts_of parts = Ok ss
                 /\ upd !! "Enriched_Full_Address__c"
                    = Some (VStr (Py.join ", " ss))
  end.
Proof.
  intros Hb Haddr.
  unfold Worker.build_update_data in Hb. rewrite Haddr in Hb.
  cbn [mbind result_bind] in Hb.
  destruct (Worker.address_parts address) as [ | p ps].
  - cbn [mbind result_bind] in Hb. injection Hb as <-.
    rewrite !lookup_insert_ne by discriminate.
    rewrite !set_fields_lookup.
    cbn [String.eqb Ascii.eqb Bool.eqb orb andb].
    rewrite !andb_false_r. reflexivity.
  - destruct (Worker.texts_of (p :: ps)) as [ss | e];
      cbn [mbind result_bind] in Hb; [ | discriminate].
    injection Hb as <-. exists ss. split; [reflexivity | ].
    rewrite !lookup_insert_ne by discriminate.
    apply lookup_insert_eq.
Qed.

Lemma jane_is_written (date : string) :
  exists upd,
    Worker.build_update_data [("first_name", VStr "Jane")] date = Ok upd
    /\ upd !! "FirstName" = Some (VStr "Jane")
    /\ upd !! "Enriched_First_Name__c" = Some (VStr "Jane").
Proof. eexists. split; [reflexivity | split; vm_compute; reflexivity]. Qed.

(** C7. In the polling-variant CRM write-back, for each of first name,
    last name, street, city, state, postal code and country: the update
    map holds the extracted value under both the custom and the standard
    field when the value is valid, and under neither when it is not; a
    text is valid exactly when its lowercased, trimmed form is none of
    [not found], [unknown], [n/a], [none], [null] and the empty text, so
    such a text is left out entirely (the combined address is built from
    valid parts only); and ["Jane"] as first name is written as both
    [FirstName] and [Enriched_First_Name__c]. *)
Theorem write_back_leaves_out_placeholders
    (extracted_info address : list (string * value)) (date : string)
    (upd : gmap string value)
    (Hbuild : Worker.build_update_data extracted_info date = Ok upd)
    (Haddr : Worker.address_of extracted_info = Ok address) :
  Forall (field_written extracted_info address upd) WRITE_BACK_FIELDS
  /\ (forall s : string,
        Worker.is_valid_value (VStr s) = negb (spec_placeholder s))
  /\ Forall (fun s => Worker.is_valid_value (VStr s) = false)
            [""; "Not Found"; "unknown"; "N/A"; "none"; "null"]
  /\ Forall (fun v => Worker.is_valid_value v = true)
            (Worker.address_parts address)
  /\ match Worker.address_parts address with
     | [] => upd !! "Enriched_Full_Address__c" = None
     | parts =>
         exists ss, Worker.texts_of parts = Ok ss
                    /\ upd !! "Enriched_Full_Address__c"
                       = Some (VStr (Py.join ", " ss))
     end
  /\ (exists upd',
        Worker.build_update_data [("first_name", VStr "Jane")] date = Ok upd'
        /\ upd' !! "FirstName" = Some (VStr "Jane")
        /\ upd' !! "Enriched_First_Name__c" = Some (VStr "Jane")).
Proof.
  split.
  { unfold WRITE_BACK_FIELDS.
    repeat (apply List.Forall_cons || apply List.Forall_nil);
      unfold field_written;
      match goal with
      | |- context [Worker.is_valid_value ?v] =>
          destruct (Worker.is_valid_value v) eqn:Hv
      end;
      split;
      rewrite (build_update_data_lookup extracted_info address date _ upd
                 Hbuild Haddr) by reflexivity;
      rewrite !set_fields_lookup; cbn [String.eqb Ascii.eqb Bool.eqb orb andb];
      rewrite ?Hv, ?andb_false_r, ?andb_true_r, ?andb_false_l; cbn [andb orb];
      rewrite ?Hv; try reflexivity;
      repeat match goal with
             | |- context [Worker.is_valid_value ?x && false] =>
                 rewrite (andb_false_r (Worker.is_valid_value x))
             end; reflexivity. }
  split; [apply is_valid_text | ].
  split.
  { repeat (apply List.Forall_cons || apply List.Forall_nil);
      vm_compute; reflexivity. }
  split; [apply address_parts_valid | ].
  split; [exact (full_address_lookup extracted_info address date upd Hbuild Haddr) | ].
  apply jane_is_written.
Qed.

Lemma write_back_leaves_out_placeholders_witness :
  Worker.build_update_data example_extracted "2024-05-01T01:00:00.000Z"
  = Ok example_update
  /\ example_update !! "FirstName" = Some (VStr "Jane")
  /\ example_update !! "LastName" = None
  /\ example_update !! "Enriched_Last_Name__c" = None
  /\ Forall (field_written example_extracted
               [("street", VStr "12 Oak St"); ("city", VStr "Springfield");
                ("state", VNone); ("postal_code", VStr "90001");
                ("country", VStr "Unknown")]
               example_update)
            WRITE_BACK_FIELDS.
Proof.
  assert (Hb : Worker.build_update_data example_extracted
                 "2024-05-01T01:00:00.000Z" = Ok example_update)
    by reflexivity.
  split; [exact Hb | ].
  split; [vm_compute; reflexivity | ].
  split; [vm_compute; reflexivity | ].
  split; [vm_compute; reflexivity | ].
  exact (proj1 (write_back_leaves_out_placeholders example_extracted _
                  "2024-05-01T01:00:00.000Z" example_update Hb eq_refl)).
Defined.

(* ===================================================================== *)
(** * Further properties *)
(* ===================================================================== *)

(** ** Orchestrator: the fan-out and the job record *)

Lemma send_leads_keeps_jobs (svc : Orchestrator.services) (job_id : string)
    (parameters : list (string * value)) (leads : list value) (q : Z)
    (w : Orchestrator.world) :
  Orchestrator.jobs (fst (Orchestrator.send_leads svc job_id parameters leads q w))
  = Orchestrator.jobs w
  /\ Orchestrator.run_task_calls
       (fst (Orchestrator.send_leads svc job_id parameters leads q w))
     = Orchestrator.run_task_calls w.
Proof.
  revert q w. induction leads as [ | lead leads IH]; intros q w;
    cbn [Orchestrator.send_leads]; [split; reflexivity | ].
  destruct (Orchestrator.sqs_send_message svc _); [ | split; reflexivity].
  match goal with
  | |- context [Orchestrator.send_leads _ _ _ _ ?q' ?w'] =>
      destruct (IH q' w') as [-> ->]
  end.
  split; reflexivity.
Qed.

Lemma send_leads_sends_all (svc : Orchestrator.services) (job_id : string)
    (parameters : list (string * value)) (leads : list value) (q : Z)
    (w : Orchestrator.world) :
  Forall (fun lead => Orchestrator.sqs_send_message svc
                        (queue_message job_id parameters lead) = Ok ()) leads ->
  Orchestrator.send_leads svc job_id parameters leads q w
  = (Orchestrator.World (Orchestrator.jobs w)
       (Orchestrator.queue w ++ map (queue_message job_id parameters) leads)%list
       (Orchestrator.run_task_calls w),
     Ok (q + Z.of_nat (length leads))).
Proof.
  intros Hsend. revert q w.
  induction Hsend as [ | lead leads Hlead _ IH]; intros q w.
  - destruct w. cbn. rewrite app_nil_r, Z.add_0_r. reflexivity.
  - cbn [Orchestrator.send_leads]. fold (queue_message job_id parameters lead).
    rewrite Hlead, IH.
    cbn [Orchestrator.jobs Orchestrator.queue Orchestrator.run_task_calls
           map length].
    rewrite <- app_assoc. cbn [app]. do 2 f_equal. lia.
Qed.

Lemma send_leads_stops_at_failure (svc : Orchestrator.services)
    (job_id e : string) (parameters : list (string * value))
    (sent : list value) (lead : value) (unsent : list value) (q : Z)
    (w : Orchestrator.world) :
  Forall (fun l => Orchestrator.sqs_send_message svc
                     (queue_message job_id parameters l) = Ok ()) sent ->
  Orchestrator.sqs_send_message svc (queue_message job_id parameters lead)
  = Raise e ->
  Orchestrator.send_leads svc job_id parameters (sent ++ lead :: unsent) q w
  = (Orchestrator.World (Orchestrator.jobs w)
       (Orchestrator.queue w ++ map (queue_message job_id parameters) sent)%list
       (Orchestrator.run_task_calls w),
     Raise e).
Proof.
  intros Hsent Hfail. revert q w.
  induction Hsent as [ | l sent Hl _ IH]; intros q w.
  - destruct w. cbn [app Orchestrator.send_leads map].
    fold (queue_message job_id parameters lead). rewrite Hfail.
    cbn. rewrite app_nil_r. reflexivity.
  - cbn [app Orchestrator.send_leads]. fold (queue_message job_id parameters l).
    rewrite Hl, IH.
    cbn [Orchestrator.jobs Orchestrator.queue Orchestrator.run_task_calls map].
    rewrite <- app_assoc. reflexivity.
Qed.

(** How a job start unfolds once the CRM answered: the two writes of the
    job record, then the fan-out, then either the failure write or the
    placement and the final write. *)
Lemma start_enrichment_job_steps (svc : Orchestrator.services)
    (job_id created_at : string) (parameters : list (string * value))
    (records : list (list (string * value))) (leads : list value)
    (w : Orchestrator.world) :
  Orchestrator.sf_connect svc = Ok () ->
  Orchestrator.sf_query_all svc (Orchestrator.build_query parameters) = Ok records ->
  Orchestrator.leads_of_records records = Ok leads ->
  let w1 := Orchestrator.update_item job_id
              [("status", VStr "queuing_leads");
               ("leads_found", VInt (Z.of_nat (length leads)))]
              (Orchestrator.put_item job_id
                 [("job_id", VStr job_id); ("status", VStr "fetching_leads");
                  ("created_at", VStr created_at);
                  ("parameters", VDict parameters)] w) in
  Orchestrator.start_enrichment_job svc job_id created_at parameters w
  = match Orchestrator.send_leads svc job_id parameters leads 0 w1 with
    | (w2, Raise e) =>
        (Orchestrator.update_item job_id
           [("status", VStr "failed"); ("error", VStr e)] w2, Raise e)
    | (w2, Ok queued) =>
        let w3 := fst (Orchestrator.start_ecs_workers svc
                         (Orchestrator.optimal_workers queued) w2) in
        let workers := snd (Orchestrator.start_ecs_workers svc
                              (Orchestrator.optimal_workers queued) w2) in
        (Orchestrator.update_item job_id
           [("status", VStr "processing"); ("leads_queued", VInt queued);
            ("workers_started", VInt workers)] w3,
         Ok (started_response job_id (Z.of_nat (length leads)) queued workers))
    end.
Proof.
  intros Hconn Hquery Hleads w1.
  unfold Orchestrator.start_enrichment_job. rewrite Hconn.
  unfold Orchestrator.job_steps, Orchestrator.fetch_salesforce_leads.
  rewrite Hquery. cbn [mbind result_bind]. rewrite Hleads. fold w1.
  destruct (Orchestrator.send_leads svc job_id parameters leads 0 w1)
    as [w2 [queued | e]]; [ | reflexivity].
  destruct (Orchestrator.start_ecs_workers svc _ w2) as [w3 workers].
  reflexivity.
Qed.

Lemma start_ecs_workers_keeps (svc : Orchestrator.services) (count : Z)
    (w : Orchestrator.world) :
  Orchestrator.jobs (fst (Orchestrator.start_ecs_workers svc count w))
  = Orchestrator.jobs w
  /\ Orchestrator.queue (fst (Orchestrator.start_ecs_workers svc count w))
     = Orchestrator.queue w
  /\ 0 <= snd (Orchestrator.start_ecs_workers svc count w).
Proof.
  unfold Orchestrator.start_ecs_workers.
  destruct (Orchestrator.ecs_run_task svc _); cbn; repeat split; lia.
Qed.

(** Reading an attribute that [update_item] has just set or left. *)
Lemma job_attr_after_update (job_id attr : string) (sets : list (string * value))
    (w : Orchestrator.world) :
  Orchestrator.job_attr (Orchestrator.update_item job_id sets w) job_id attr
  = foldl (fun m kv => <[fst kv := snd kv]> m)
      (default {[ "job_id" := VStr job_id ]} (Orchestrator.jobs w !! job_id))
      sets !! attr.
Proof.
  unfold Orchestrator.job_attr, Orchestrator.update_item.
  cbn [Orchestrator.jobs]. rewrite lookup_insert_eq. reflexivity.
Qed.

Lemma jobs_after_update (job_id : string) (sets : list (string * value))
    (w : Orchestrator.world) :
  Orchestrator.jobs (Orchestrator.update_item job_id sets w) !! job_id
  = Some (foldl (fun m kv => <[fst kv := snd kv]> m)
            (default {[ "job_id" := VStr job_id ]} (Orchestrator.jobs w !! job_id))
            sets).
Proof. unfold Orchestrator.update_item. cbn. apply lookup_insert_eq. Qed.

Lemma jobs_after_put (job_id : string) (item : list (string * value))
    (w : Orchestrator.world) :
  Orchestrator.jobs (Orchestrator.put_item job_id item w) !! job_id
  = Some (list_to_map item).
Proof. unfold Orchestrator.put_item. cbn. apply lookup_insert_eq. Qed.

(** Whatever the services answer after the CRM login, the job record
    tells how the start ended. *)
Lemma job_record_follows_outcome (svc : Orchestrator.services)
    (job_id created_at : string) (parameters : list (string * value))
    (w : Orchestrator.world) :
  Orchestrator.sf_connect svc = Ok () ->
  let run := Orchestrator.start_enrichment_job svc job_id created_at parameters w in
  match snd run with
  | Ok response =>
      field "statusCode" response = Some (VInt 200)
      /\ Orchestrator.job_attr (fst run) job_id "status" = Some (VStr "processing")
      /\ Orchestrator.job_attr (fst run) job_id "error" = None
  | Raise e =>
      Orchestrator.job_attr (fst run) job_id "status" = Some (VStr "failed")
      /\ Orchestrator.job_attr (fst run) job_id "error" = Some (VStr e)
  end.
Proof.
  intros Hconn run. subst run.
  unfold Orchestrator.start_enrichment_job. rewrite Hconn.
  unfold Orchestrator.job_steps.
  destruct (Orchestrator.fetch_salesforce_leads svc parameters) as [leads | e].
  - match goal with
    | |- context [Orchestrator.send_leads svc job_id parameters leads 0 ?w1] =>
        pose proof (send_leads_keeps_jobs svc job_id parameters leads 0 w1)
          as [Hj2 _];
        destruct (Orchestrator.send_leads svc job_id parameters leads 0 w1)
          as [w2 [queued | e]]
    end; cbn [fst snd] in *.
    + pose proof (start_ecs_workers_keeps svc
                    (Orchestrator.optimal_workers queued) w2) as (Hj3 & _ & _).
      destruct (Orchestrator.start_ecs_workers svc _ w2) as [w3 workers].
      cbn [fst snd] in *.
      split; [reflexivity | ].
      rewrite !job_attr_after_update, Hj3, Hj2, jobs_after_update, jobs_after_put.
      split; vm_compute; reflexivity.
    + rewrite !job_attr_after_update. cbn [foldl fst snd].
      split.
      * rewrite lookup_insert_ne by discriminate. apply lookup_insert_eq.
      * apply lookup_insert_eq.
  - cbn [fst snd]. rewrite !job_attr_after_update. cbn [foldl fst snd].
    split.
    + rewrite lookup_insert_ne by discriminate. apply lookup_insert_eq.
    + apply lookup_insert_eq.
Qed.

(** X1. Once the CRM login has succeeded, the Job record always tells how
    the job start ended: when [start_enrichment_job] returns, its answer
    has status code 200 and the record reads [processing] without an
    error; when it raises, whatever step raised, the record reads
    [failed] and its error attribute is the text of the exception. *)
Theorem job_outcome_is_recorded (svc : Orchestrator.services)
    (job_id created_at : string) (parameters : list (string * value))
    (w : Orchestrator.world)
    (Hconn : Orchestrator.sf_connect svc = Ok ()) :
  let run := Orchestrator.start_enrichment_job svc job_id created_at parameters w in
  match snd run with
  | Ok response =>
      field "statusCode" response = Some (VInt 200)
      /\ Orchestrator.job_attr (fst run) job_id "status" = Some (VStr "processing")
      /\ Orchestrator.job_attr (fst run) job_id "error" = None
  | Raise e =>
      Orchestrator.job_attr (fst run) job_id "status" = Some (VStr "failed")
      /\ Orchestrator.job_attr (fst run) job_id "error" = Some (VStr e)
  end.
Proof. exact (job_record_follows_outcome svc job_id created_at parameters w Hconn). Qed.

Lemma job_outcome_is_recorded_witness :
  Orchestrator.sf_connect refusing_queue_service = Ok ()
  /\ Orchestrator.job_attr
       (fst (Orchestrator.start_enrichment_job refusing_queue_service "job-1"
               "2024-05-01T00:00:00.000Z" [] Orchestrator.empty_world))
       "job-1" "status" = Some (VStr "failed").
Proof.
  split; [reflexivity | ].
  pose proof (job_outcome_is_recorded refusing_queue_service "job-1"
                "2024-05-01T00:00:00.000Z" [] Orchestrator.empty_world eq_refl)
    as H.
  cbv zeta in H.
  change (snd (Orchestrator.start_enrichment_job refusing_queue_service "job-1"
                 "2024-05-01T00:00:00.000Z" [] Orchestrator.empty_world))
    with (@Raise value "The specified queue does not exist") in H.
  exact (proj1 H).
Defined.

(** X2. The orchestration entry point never lets an exception out: its
    answer either has status code 200, and then the Job record reads
    [processing], or is the 500 answer that carries the text of the
    exception, and then either nothing at all was written (the payload
    was a string, or the CRM login failed) or the Job record reads
    [failed] with that text. *)
Theorem handler_answers_200_or_500 (svc : Orchestrator.services)
    (job_id created_at : string) (ev : Orchestrator.event)
    (w : Orchestrator.world) :
  let run := Orchestrator.lambda_handler svc job_id created_at ev w in
  (field "statusCode" (snd run) = Some (VInt 200)
   /\ Orchestrator.job_attr (fst run) job_id "status" = Some (VStr "processing"))
  \/ (exists e, snd run = error_response e
        /\ (fst run = w
            \/ (Orchestrator.job_attr (fst run) job_id "status"
                = Some (VStr "failed")
                /\ Orchestrator.job_attr (fst run) job_id "error"
                   = Some (VStr e)))).
Proof.
  intros run. subst run. unfold Orchestrator.lambda_handler.
  destruct (Orchestrator.handler_parameters ev) as [parameters | e];
    [ | right; exists e; split; [reflexivity | left; reflexivity]].
  destruct (Orchestrator.sf_connect svc) as [[] | e] eqn:Hconn.
  - pose proof (job_record_follows_outcome svc job_id created_at parameters w
                  Hconn) as H.
    cbv zeta in H.
    destruct (Orchestrator.start_enrichment_job svc job_id created_at
                parameters w) as [w' [response | e]]; cbn [fst snd] in *.
    + left. tauto.
    + right. exists e. split; [reflexivity | right; exact H].
  - right. exists e. unfold Orchestrator.start_enrichment_job. rewrite Hconn.
    split; [reflexivity | left; reflexivity].
Qed.

(** X3. When the CRM answers and the queue accepts every message, exactly
    one message per fetched lead is put on the queue, in the order of
    the leads, each carrying the job identifier, the lead and the run
    parameters; the Job record and the answer report the same number as
    leads found and leads queued, whatever the compute service does. *)
Theorem every_lead_is_queued (svc : Orchestrator.services)
    (job_id created_at : string) (parameters : list (string * value))
    (records : list (list (string * value))) (leads : list value)
    (w : Orchestrator.world)
    (Hconn : Orchestrator.sf_connect svc = Ok ())
    (Hquery : Orchestrator.sf_query_all svc (Orchestrator.build_query parameters)
              = Ok records)
    (Hleads : Orchestrator.leads_of_records records = Ok leads)
    (Hsend : Forall (fun lead => Orchestrator.sqs_send_message svc
                                   (queue_message job_id parameters lead)
                                 = Ok ()) leads) :
  let run := Orchestrator.start_enrichment_job svc job_id created_at parameters w in
  let n := Z.of_nat (length leads) in
  Orchestrator.queue (fst run)
  = (Orchestrator.queue w ++ map (queue_message job_id parameters) leads)%list
  /\ Orchestrator.job_attr (fst run) job_id "leads_found" = Some (VInt n)
  /\ Orchestrator.job_attr (fst run) job_id "leads_queued" = Some (VInt n)
  /\ exists workers, 0 <= workers
       /\ snd run = Ok (started_response job_id n n workers)
       /\ Orchestrator.job_attr (fst run) job_id "workers_started"
          = Some (VInt workers).
Proof.
  intros run n. subst run.
  rewrite (start_enrichment_job_steps svc job_id created_at parameters records
             leads w Hconn Hquery Hleads).
  cbv zeta. rewrite (send_leads_sends_all _ _ _ _ _ _ Hsend).
  match goal with
  | |- context [Orchestrator.start_ecs_workers svc ?c ?w2] =>
      pose proof (start_ecs_workers_keeps svc c w2) as (Hj3 & Hq3 & Hpos);
      destruct (Orchestrator.start_ecs_workers svc c w2) as [w3 workers]
  end.
  cbn [fst snd] in *. rewrite Z.add_0_l. fold n.
  split; [exact Hq3 | ].
  rewrite !job_attr_after_update, Hj3.
  cbn [Orchestrator.jobs]. rewrite jobs_after_update, jobs_after_put.
  split; [vm_compute; reflexivity | ].
  split; [vm_compute; reflexivity | ].
  exists workers. split; [exact Hpos | ].
  split; [reflexivity | vm_compute; reflexivity].
Qed.

Lemma every_lead_is_queued_witness :
  Orchestrator.sf_connect working_service = Ok ()
  /\ length (Orchestrator.queue
               (fst (Orchestrator.start_enrichment_job working_service "job-1"
                       "2024-05-01T00:00:00.000Z" [] Orchestrator.empty_world)))
     = 3%nat.
Proof.
  split; [reflexivity | ].
  assert (Hsend : Forall (fun lead =>
            Orchestrator.sqs_send_message working_service
              (queue_message "job-1" [] lead) = Ok ())
            three_leads).
  { apply Forall_forall. intros lead _. reflexivity. }
  pose proof (every_lead_is_queued working_service "job-1"
                "2024-05-01T00:00:00.000Z" [] three_records three_leads
                Orchestrator.empty_world eq_refl eq_refl eq_refl Hsend) as H.
  cbv zeta in H. destruct H as [Hq _]. rewrite Hq. reflexivity.
Defined.

(** X4. A queue send that raises stops the fan-out where it is: the
    messages sent before it stay on the queue (nothing is retracted), no
    later lead is sent, no worker is requested from the compute
    service, the Job record reads [failed] with the text of the
    exception and keeps the number of leads found, and the exception is
    re-raised. *)
Theorem failed_send_stops_the_fan_out (svc : Orchestrator.services)
    (job_id created_at e : string) (parameters : list (string * value))
    (records : list (list (string * value)))
    (sent : list value) (lead : value) (unsent : list value)
    (w : Orchestrator.world)
    (Hconn : Orchestrator.sf_connect svc = Ok ())
    (Hquery : Orchestrator.sf_query_all svc (Orchestrator.build_query parameters)
              = Ok records)
    (Hleads : Orchestrator.leads_of_records records
              = Ok (sent ++ lead :: unsent)%list)
    (Hsent : Forall (fun l => Orchestrator.sqs_send_message svc
                                (queue_message job_id parameters l) = Ok ())
                    sent)
    (Hfail : Orchestrator.sqs_send_message svc
               (queue_message job_id parameters lead) = Raise e) :
  let run := Orchestrator.start_enrichment_job svc job_id created_at parameters w in
  snd run = Raise e
  /\ Orchestrator.queue (fst run)
     = (Orchestrator.queue w ++ map (queue_message job_id parameters) sent)%list
  /\ Orchestrator.run_task_calls (fst run) = Orchestrator.run_task_calls w
  /\ Orchestrator.job_attr (fst run) job_id "status" = Some (VStr "failed")
  /\ Orchestrator.job_attr (fst run) job_id "error" = Some (VStr e)
  /\ Orchestrator.job_attr (fst run) job_id "leads_found"
     = Some (VInt (Z.of_nat (length (sent ++ lead :: unsent))))
  /\ Orchestrator.job_attr (fst run) job_id "leads_queued" = None.
Proof.
  intros run. subst run.
  rewrite (start_enrichment_job_steps svc job_id created_at parameters records
             _ w Hconn Hquery Hleads).
  cbv zeta. rewrite (send_leads_stops_at_failure _ _ _ _ _ _ _ _ _ Hsent Hfail).
  cbn [fst snd].
  split; [reflexivity | ]. split; [reflexivity | ]. split; [reflexivity | ].
  rewrite !job_attr_after_update.
  cbn [Orchestrator.jobs]. rewrite jobs_after_update, jobs_after_put.
  repeat split; vm_compute; reflexivity.
Qed.

Lemma failed_send_stops_the_fan_out_witness :
  Orchestrator.sf_connect refusing_queue_service = Ok ()
  /\ Orchestrator.sqs_send_message refusing_queue_service
       (queue_message "job-1" [] (nth 1 three_leads VNone))
     = Raise "The specified queue does not exist"
  /\ length (Orchestrator.queue
               (fst (Orchestrator.start_enrichment_job refusing_queue_service
                       "job-1" "2024-05-01T00:00:00.000Z" []
                       Orchestrator.empty_world)))
     = 1%nat.
Proof.
  split; [reflexivity | ]. split; [reflexivity | ].
  assert (Hsent : Forall (fun l =>
            Orchestrator.sqs_send_message refusing_queue_service
              (queue_message "job-1" [] l) = Ok ())
            (firstn 1 three_leads)).
  { apply List.Forall_cons; [reflexivity | apply List.Forall_nil]. }
  pose proof (failed_send_stops_the_fan_out refusing_queue_service "job-1"
                "2024-05-01T00:00:00.000Z" "The specified queue does not exist"
                [] three_records (firstn 1 three_leads) (nth 1 three_leads VNone)
                (skipn 2 three_leads)
                Orchestrator.empty_world eq_refl eq_refl eq_refl Hsent eq_refl)
    as H.
  cbv zeta in H. destruct H as (_ & Hq & _). rewrite Hq. reflexivity.
Defined.

(** X5. [fetch_salesforce_leads] turns the CRM records into leads one for
    one and in order.  Each lead is a dictionary with the keys [id],
    [company], [website], [email], [phone], [first_name], [last_name],
    [title], [created_date] and [address], each read from the field of
    the record that goes with it ([None] when the record has none), the
    address a dictionary of street, city, state, postal code and
    country read likewise.  The conversion raises exactly when some
    record has no [Id], with the text of the missing key, and it is all
    that [fetch_salesforce_leads] does with the answer of the query. *)
Theorem leads_follow_records (records : list (list (string * value))) :
  match Orchestrator.leads_of_records records with
  | Ok leads =>
      Forall2 lead_of records leads
      /\ Forall (fun r => Py.dict_get "Id" r <> None) records
  | Raise e =>
      e = "'Id'" /\ Exists (fun r => Py.dict_get "Id" r = None) records
  end
  /\ ((exists e, Orchestrator.leads_of_records records = Raise e)
      <-> Exists (fun r => Py.dict_get "Id" r = None) records)
  /\ forall (svc : Orchestrator.services) (parameters : list (string * value)),
       Orchestrator.sf_query_all svc (Orchestrator.build_query parameters)
       = Ok records ->
       Orchestrator.fetch_salesforce_leads svc parameters
       = Orchestrator.leads_of_records records.
Proof.
  assert (Hmain : match Orchestrator.leads_of_records records with
                  | Ok leads =>
                      Forall2 lead_of records leads
                      /\ Forall (fun r => Py.dict_get "Id" r <> None) records
                  | Raise e =>
                      e = "'Id'"
                      /\ Exists (fun r => Py.dict_get "Id" r = None) records
                  end).
  { induction records as [ | r records IH].
    - split; [apply List.Forall2_nil | apply List.Forall_nil].
    - cbn [Orchestrator.leads_of_records]. unfold Orchestrator.lead_of_record.
      destruct (Py.dict_get "Id" r) as [id | ] eqn:Hid; cbn [mbind result_bind].
      + destruct (Orchestrator.leads_of_records records) as [leads | e];
          cbn [mbind result_bind].
        * destruct IH as [IH1 IH2]. split.
          -- apply List.Forall2_cons; [ | exact IH1].
             unfold lead_of. eexists id, _, _.
             split; [reflexivity | ]. split; [reflexivity | ].
             split; [exact Hid | ]. split; [reflexivity | ].
             split; [repeat constructor | ].
             split; [reflexivity | ]. split; [reflexivity | ].
             repeat constructor.
          -- apply List.Forall_cons; [congruence | exact IH2].
        * destruct IH as [-> IH]. split; [reflexivity | ].
          apply List.Exists_cons_tl. exact IH.
      + split; [reflexivity | ]. apply List.Exists_cons_hd. exact Hid. }
  split; [exact Hmain | ]. split.
  - destruct (Orchestrator.leads_of_records records) as [leads | e].
    + destruct Hmain as [_ Hall]. split.
      * intros [e He]. discriminate.
      * intros Hex. rewrite List.Forall_forall in Hall.
        apply List.Exists_exists in Hex as (r & Hr & Hnone).
        destruct (Hall r Hr Hnone).
    + destruct Hmain as [_ Hex]. split; [intros _; exact Hex | eauto].
  - intros svc parameters Hq. unfold Orchestrator.fetch_salesforce_leads.
    rewrite Hq. reflexivity.
Qed.

(** X6. Whatever the invocation payload, a job started through the entry
    point queries the CRM with a LIMIT clause: the parameters it builds
    always lead to a true limit (the one supplied, or 10000), for a
    scheduled run the limit is 10000 whatever else the event carries,
    and a payload it cannot read is answered with the 500 answer before
    anything is written. *)
Theorem handler_query_is_always_limited (ev : Orchestrator.event) :
  match Orchestrator.handler_parameters ev with
  | Ok parameters =>
      Py.truthy (Orchestrator.query_limit parameters) = true
      /\ Orchestrator.build_query parameters
         = Orchestrator.BASE_QUERY +:+ " LIMIT "
           +:+ Py.str (Orchestrator.query_limit parameters)
      /\ match ev with
         | Orchestrator.EvDict d =>
             if Orchestrator.is_scheduled d
             then Orchestrator.build_query parameters
                  = Orchestrator.BASE_QUERY +:+ " LIMIT 10000"
             else parameters = Orchestrator.direct_parameters d
         | Orchestrator.EvStr _ => False
         end
  | Raise e =>
      forall svc job_id created_at w,
        Orchestrator.lambda_handler svc job_id created_at ev w
        = (w, error_response e)
  end.
Proof.
  destruct ev as [d | s]; cbn [Orchestrator.handler_parameters].
  - destruct (Orchestrator.is_scheduled d) eqn:Hs.
    + split; [reflexivity | ]. split; reflexivity.
    + pose proof (direct_parameters_limit_truthy d) as Ht.
      split; [exact Ht | ].
      split; [unfold Orchestrator.build_query; rewrite Ht; reflexivity | ].
      reflexivity.
  - intros svc job_id created_at w. reflexivity.
Qed.

(** ** Polling worker: the pipeline *)

Lemma counter_after_progress (job_id attr : string) (success : bool)
    (w : Worker.world) :
  counter (Worker.update_job_progress job_id success w) job_id attr
  = counter w job_id attr
    + (if String.eqb attr (if success then "processed_leads" else "failed_leads")
       then 1 else 0).
Proof.
  unfold counter, Worker.update_job_progress. cbn [Worker.job_counters].
  destruct (String.eqb_spec attr
              (if success then "processed_leads" else "failed_leads"))
    as [-> | Hne].
  - rewrite lookup_insert_eq. reflexivity.
  - rewrite lookup_insert_ne by congruence. lia.
Qed.

Lemma save_error_accounted (ck : Worker.clock) (job_id : string)
    (lead_id : value) (error : string) (w : Worker.world) :
  lead_accounted job_id w (Worker.save_error_result ck job_id lead_id error w)
    false.
Proof.
  unfold lead_accounted, Worker.save_error_result.
  rewrite !counter_after_progress.
  split; [cbn; rewrite length_app; cbn; lia | ].
  split; cbn; unfold counter; cbn; lia.
Qed.

Lemma lead_accounted_from (job_id : string) (w w0 w' : Worker.world)
    (success : bool) :
  same_stores w w0 -> lead_accounted job_id w0 w' success ->
  lead_accounted job_id w w' success.
Proof.
  intros (Hr & Hc & _) (H1 & H2 & H3). unfold lead_accounted, counter in *.
  rewrite Hr, Hc in *. auto.
Qed.

Lemma obtain_content_same_stores (svc : Worker.services) (ck : Worker.clock)
    (website : value) (w : Worker.world) :
  same_stores w (fst (Worker.obtain_content svc ck website w)).
Proof.
  unfold Worker.obtain_content.
  destruct website; try (repeat split; reflexivity).
  destruct (Worker.truthy_opt _); [repeat split; reflexivity | ].
  destruct (Worker.scrape_website svc s _ _) as [events [scraped | ]];
    repeat split; reflexivity.
Qed.

Lemma update_salesforce_stores (svc : Worker.services) (lead_id : value)
    (info : list (string * value)) (date : string) (w : Worker.world) :
  let run := Worker.update_salesforce_lead svc lead_id info date w in
  Worker.results_table (fst run) = Worker.results_table w
  /\ Worker.job_counters (fst run) = Worker.job_counters w
  /\ match snd run with
     | Ok _ => exists update_data,
         Worker.build_update_data info date = Ok update_data
         /\ Worker.crm_updates (fst run)
            = (Worker.crm_updates w ++ [(lead_id, update_data)])%list
     | Raise _ => fst run = w
     end.
Proof.
  unfold Worker.update_salesforce_lead.
  destruct (Worker.sf_connect svc); [ | repeat split; reflexivity].
  destruct (Worker.build_update_data info date) as [update_data | e];
    [ | repeat split; reflexivity].
  destruct (Worker.sf_lead_update svc lead_id update_data);
    cbn; repeat split; try reflexivity.
  exists update_data. split; reflexivity.
Qed.

(** The pipeline ends in one of two ways: an error result saved, or the
    closing steps of [finish_lead]; both start from a world whose results,
    counters and CRM updates are those of the start. *)
Lemma process_lead_cases (svc : Worker.services) (ck : Worker.clock)
    (job_id : string) (lead parameters : list (string * value))
    (w : Worker.world) (P : Worker.world * option value -> Prop) :
  (forall lead_id e w0, same_stores w w0 ->
     P (Worker.save_error_result ck job_id lead_id e w0, None)) ->
  (forall lead_id info w0, same_stores w w0 ->
     P (Worker.finish_lead svc ck job_id lead_id lead parameters info w0)) ->
  P (Worker.process_lead svc ck job_id lead parameters w).
Proof.
  intros Herr Hfin. unfold Worker.process_lead.
  assert (Hw : same_stores w w) by (repeat split; reflexivity).
  destruct (Py.dict_get "id" lead) as [lead_id | ]; [ | apply Herr, Hw].
  destruct (negb (Py.truthy (Py.get "website" lead))); [apply Herr, Hw | ].
  pose proof (obtain_content_same_stores svc ck (Py.get "website" lead) w) as Hs.
  destruct (Worker.obtain_content svc ck (Py.get "website" lead) w)
    as [w1 scraped].
  cbn [fst] in Hs.
  destruct (negb (Worker.truthy_opt scraped)); [apply Herr, Hs | ].
  match goal with
  | |- context [negb (Worker.truthy_opt ?x)] =>
      destruct (negb (Worker.truthy_opt x));
      [apply Herr, Hs | destruct x as [[ | | | | | | | info] | ]]
  end; try (apply Herr, Hs).
  apply Hfin, Hs.
Qed.

Lemma finish_lead_accounted (svc : Worker.services) (ck : Worker.clock)
    (job_id : string) (lead_id : value)
    (lead parameters info : list (string * value)) (w : Worker.world) :
  let run := Worker.finish_lead svc ck job_id lead_id lead parameters info w in
  lead_accounted job_id w (fst run) (enriched (snd run)).
Proof.
  unfold Worker.finish_lead.
  destruct (Worker.decimal_of_str _) as [conf | e];
    [ | apply save_error_accounted].
  destruct (Py.truthy _).
  - match goal with
    | |- context [Worker.update_salesforce_lead ?a ?b ?c ?d ?w0] =>
        pose proof (update_salesforce_stores a b c d w0) as (Hr & Hc & _);
        destruct (Worker.update_salesforce_lead a b c d w0) as [w' [u | e]]
    end; cbn [fst snd enriched] in *;
      unfold lead_accounted; rewrite !counter_after_progress;
      unfold counter; cbn [Worker.update_job_progress Worker.results_table
                             Worker.job_counters];
      rewrite Hr, Hc; cbn; rewrite length_app; cbn; repeat split; lia.
  - cbn [fst snd enriched]. unfold lead_accounted.
    rewrite !counter_after_progress. unfold counter. cbn.
    rewrite length_app. cbn. repeat split; lia.
Qed.

(** X7. Every run of the pipeline on a lead is accounted for exactly
    once: [process_lead] stores exactly one result record and adds one
    to exactly one counter of the job, the processed counter when it
    returns the enriched record and the failed counter when it returns
    nothing, leaving the other counter as it was. *)
Theorem every_lead_is_accounted_once (svc : Worker.services) (ck : Worker.clock)
    (job_id : string) (lead parameters : list (string * value))
    (w : Worker.world) :
  let run := Worker.process_lead svc ck job_id lead parameters w in
  lead_accounted job_id w (fst run) (enriched (snd run)).
Proof.
  cbv zeta.
  apply (process_lead_cases svc ck job_id lead parameters w
           (fun run => lead_accounted job_id w (fst run) (enriched (snd run)))).
  - intros lead_id e w0 Hs. cbn [fst snd enriched].
    apply (lead_accounted_from _ _ w0); [exact Hs | apply save_error_accounted].
  - intros lead_id info w0 Hs.
    apply (lead_accounted_from _ _ w0); [exact Hs | apply finish_lead_accounted].
Qed.

(** X8. A lead without a website (the field absent, [None] or empty) is
    never scraped: [process_lead] returns nothing, stores the failure
    record with the reason [No website URL provided], and leaves the
    browser, the cache and the CRM untouched. *)
Theorem lead_without_website_is_not_scraped (svc : Worker.services)
    (ck : Worker.clock) (job_id : string)
    (lead parameters : list (string * value)) (lead_id : value)
    (w : Worker.world)
    (Hid : Py.dict_get "id" lead = Some lead_id)
    (Hweb : Py.truthy (Py.get "website" lead) = false) :
  let run := Worker.process_lead svc ck job_id lead parameters w in
  snd run = None
  /\ Worker.results_table (fst run)
     = (Worker.results_table w
        ++ [failed_record ck job_id lead_id "No website URL provided"])%list
  /\ Worker.browser_log (fst run) = Worker.browser_log w
  /\ Worker.cache_table (fst run) = Worker.cache_table w
  /\ Worker.crm_updates (fst run) = Worker.crm_updates w
  /\ counter (fst run) job_id "failed_leads" = counter w job_id "failed_leads" + 1.
Proof.
  cbv zeta. unfold Worker.process_lead. rewrite Hid, Hweb. cbn [negb fst snd].
  repeat split.
  unfold Worker.save_error_result. rewrite counter_after_progress.
  unfold counter. cbn. lia.
Qed.

Lemma lead_without_website_is_not_scraped_witness :
  Py.dict_get "id" lead_without_website = Some (VStr "00Q000000000002")
  /\ Py.truthy (Py.get "website" lead_without_website) = false
  /\ snd (Worker.process_lead timeout_service example_clock "job-1"
            lead_without_website [] example_world) = None.
Proof.
  split; [reflexivity | ]. split; [reflexivity | ].
  exact (proj1 (lead_without_website_is_not_scraped timeout_service
                  example_clock "job-1" lead_without_website []
                  (VStr "00Q000000000002") example_world eq_refl eq_refl)).
Defined.




Lemma finish_lead_crm (svc : Worker.services) (ck : Worker.clock)
    (job_id : string) (lead_id : value)
    (lead parameters info : list (string * value)) (w : Worker.world) :
  let run := Worker.finish_lead svc ck job_id lead_id lead parameters info w in
  Worker.crm_updates (fst run) = Worker.crm_updates w
  \/ (Py.truthy (Py.get_default "update_salesforce" (VBool false) parameters)
      = true
      /\ enriched (snd run) = true
      /\ exists u, Worker.crm_updates (fst run)
                   = (Worker.crm_updates w ++ [u])%list).
Proof.
  unfold Worker.finish_lead.
  destruct (Worker.decimal_of_str _) as [conf | e]; [ | left; reflexivity].
  destruct (Py.truthy _) eqn:Hflag; [ | left; reflexivity].
  match goal with
  | |- context [Worker.update_salesforce_lead ?a ?b ?c ?d ?w0] =>
      pose proof (update_salesforce_stores a b c d w0) as (_ & _ & Hu);
      destruct (Worker.update_salesforce_lead a b c d w0) as [w' [u | e]]
  end; cbn [fst snd] in *.
  - right. split; [reflexivity | ]. split; [reflexivity | ].
    destruct Hu as (update_data & _ & Hu). eexists. exact Hu.
  - left. subst w'. reflexivity.
Qed.

(** X10. The pipeline writes to the CRM only on request and only for an
    enriched lead: after [process_lead] the CRM updates are those of
    before, or exactly one more, and then the run parameters asked for
    the write-back and the lead was enriched. *)
Theorem crm_is_updated_only_on_request (svc : Worker.services)
    (ck : Worker.clock) (job_id : string)
    (lead parameters : list (string * value)) (w : Worker.world) :
  let run := Worker.process_lead svc ck job_id lead parameters w in
  Worker.crm_updates (fst run) = Worker.crm_updates w
  \/ (Py.truthy (Py.get_default "update_salesforce" (VBool false) parameters)
      = true
      /\ enriched (snd run) = true
      /\ exists u, Worker.crm_updates (fst run)
                   = (Worker.crm_updates w ++ [u])%list).
Proof.
  cbv zeta.
  apply (process_lead_cases svc ck job_id lead parameters w
           (fun run =>
              Worker.crm_updates (fst run) = Worker.crm_updates w
              \/ (Py.truthy (Py.get_default "update_salesforce" (VBool false)
                               parameters) = true
                  /\ enriched (snd run) = true
                  /\ exists u, Worker.crm_updates (fst run)
                               = (Worker.crm_updates w ++ [u])%list))).
  - intros lead_id e w0 (_ & _ & Hc). left. exact Hc.
  - intros lead_id info w0 (_ & _ & Hc).
    destruct (finish_lead_crm svc ck job_id lead_id lead parameters info w0)
      as [H | (Hf & He & u & Hu)].
    + left. congruence.
    + right. rewrite <- Hc. eauto.
Qed.

(** ** Polling worker: scraping and the cache *)

Lemma scrape_attempts_shape (svc : Worker.services) (url ts : string)
    (mr r a : nat) :
  (a + r = mr)%nat ->
  exists k : nat,
    (k <= r)%nat /\ ((0 < r)%nat -> (0 < k)%nat)
    /\ fst (Worker.scrape_attempts svc url ts mr r a) = attempts_from url a k.
Proof.
  revert a. induction r as [ | r IH]; intros a Hmr.
  - exists 0%nat. split; [lia | split; [lia | reflexivity]].
  - cbn [Worker.scrape_attempts].
    destruct (Worker.browser_visit svc url a _) as [[text links] | e].
    + exists 1%nat. split; [lia | split; [lia | reflexivity]].
    + destruct (Z.eqb_spec (Z.of_nat a) (Z.of_nat mr - 1)) as [Hlast | Hmore].
      * rewrite orb_true_r. exists 1%nat. split; [lia | split; [lia | reflexivity]].
      * rewrite orb_false_r.
        destruct (negb (Worker.is_retryable e)).
        { exists 1%nat. split; [lia | split; [lia | reflexivity]]. }
        destruct (IH (S a) ltac:(lia)) as (k & Hk & Hpos & Hev).
        destruct (Worker.scrape_attempts svc url ts mr r (S a))
          as [events scraped].
        cbn [fst] in *. subst events.
        exists (S k). split; [lia | ]. split; [lia | ].
        destruct k as [ | k]; [exfalso; lia | reflexivity].
Qed.

Lemma attempts_from_timeouts (url : string) (a k : nat) :
  Worker.timeouts (attempts_from url a k) = map Worker.attempt_timeout (seq a k)
  /\ Worker.sleeps (attempts_from url a k)
     = map Worker.wait_time (seq a (k - 1)).
Proof.
  revert a. induction k as [ | k IH]; intros a; [split; reflexivity | ].
  destruct k as [ | k]; [split; reflexivity | ].
  destruct (IH (S a)) as [Ht Hs].
  change (attempts_from url a (S (S k)))
    with (Worker.Navigate url a (Worker.attempt_timeout a)
          :: Worker.Sleep (Worker.wait_time a) :: attempts_from url (S a) (S k)).
  unfold Worker.timeouts, Worker.sleeps in *.
  cbn [omap list_omap]. fold (@omap list _).
  split.
  - change (seq a (S (S k))) with (a :: seq (S a) (S k)). cbn [map].
    f_equal. exact Ht.
  - replace (S (S k) - 1)%nat with (S k) by lia.
    change (seq a (S k)) with (a :: seq (S a) k). cbn [map].
    f_equal. replace (S k - 1)%nat with k in Hs by lia. exact Hs.
Qed.

(** X11. For any number [n] of allowed attempts the polling scraper makes
    at least one (when [n > 0]) and at most [n] navigations: the events
    of a run are those of some [k <= n] attempts, where attempt [i] has
    the page-load timeout [20000 + 10000*i] ms and the pause after
    attempt [i], taken only when another attempt follows, is of [2^i]
    seconds. With no attempt allowed nothing is done and there is no
    content. *)
Theorem scrape_attempts_are_bounded (svc : Worker.services) (url ts : string)
    (n : nat) :
  let run := Worker.scrape_website svc url ts n in
  (exists k : nat,
     (k <= n)%nat /\ ((0 < n)%nat -> (0 < k)%nat)
     /\ fst run = attempts_from url 0 k
     /\ Worker.timeouts (fst run)
        = map (fun i => 20000 + Z.of_nat i * 10000) (seq 0 k)
     /\ Worker.sleeps (fst run)
        = map (fun i => 2 ^ Z.of_nat i) (seq 0 (k - 1)))
  /\ Worker.scrape_website svc url ts 0 = ([], None).
Proof.
  intros run. split; [ | reflexivity].
  destruct (scrape_attempts_shape svc url ts n n 0 eq_refl)
    as (k & Hk & Hpos & Hev).
  exists k. subst run. unfold Worker.scrape_website. rewrite Hev.
  destruct (attempts_from_timeouts url 0 k) as [Ht Hs].
  repeat split; assumption.
Qed.

Lemma omap_length_le {A B : Type} (f : A -> option B) (l : list A) :
  (length (omap f l) <= length l)%nat.
Proof.
  induction l as [ | x l IH]; [reflexivity | ].
  cbn [omap list_omap]. destruct (f x); cbn [length]; lia.
Qed.

Lemma followed_pages_in_order (links : list Worker.link) :
  omap Worker.follow_link links = map page_of (List.filter followed links).
Proof.
  induction links as [ | l links IH]; [reflexivity | ].
  cbn [omap list_omap List.filter]. rewrite IH.
  assert (Hl : Worker.follow_link l
               = if followed l then Some (page_of l) else None).
  { unfold Worker.follow_link, followed, page_of.
    destruct (Worker.href l) as [h | ]; [ | reflexivity].
    destruct (Worker.page_text l) as [text | e];
      destruct (negb (String.eqb h "") && negb (Py.startswith h "mailto:"));
      reflexivity. }
  rewrite Hl. destruct (followed l); reflexivity.
Qed.

(** X12. The pages followed from a main page are at most three, taken
    from the first three contact or about links in the order of the
    links: they are the pages of those of the first three links that
    are followed, one after the other.  Each has a non-empty address
    that does not start with [mailto:] and the text that following the
    link gave; links without an address, mail links and links that fail
    to load are skipped without failing the scrape. *)
Theorem additional_pages_are_bounded (contact_links : list Worker.link) :
  (length (Worker.additional_pages contact_links) <= 3)%nat
  /\ Worker.additional_pages contact_links
     = map page_of (List.filter followed (firstn 3 contact_links))
  /\ Forall (fun page =>
       exists l h text,
         In l (firstn 3 contact_links)
         /\ Worker.href l = Some h /\ Worker.page_text l = Ok text
         /\ h <> "" /\ Py.startswith h "mailto:" = false
         /\ page = VDict [("url", VStr h); ("content", VStr text)])
       (Worker.additional_pages contact_links)
  /\ Worker.additional_pages contact_links
     = Worker.additional_pages (firstn 3 contact_links).
Proof.
  unfold Worker.additional_pages.
  split.
  { etransitivity; [apply omap_length_le | ]. rewrite length_firstn. lia. }
  split; [apply followed_pages_in_order | ].
  split.
  { apply Forall_forall. intros page Hp.
    apply list_elem_of_omap in Hp as (l & Hl & Hf).
    apply list_elem_of_In in Hl.
    unfold Worker.follow_link in Hf.
    destruct (Worker.href l) as [h | ] eqn:Hh; [ | discriminate].
    destruct (String.eqb_spec h ""); cbn [negb andb] in Hf; [discriminate | ].
    destruct (Py.startswith h "mailto:") eqn:Hm; cbn [negb] in Hf;
      [discriminate | ].
    destruct (Worker.page_text l) as [text | e] eqn:Ht; [ | discriminate].
    injection Hf as <-. exists l, h, text. repeat split; auto. }
  rewrite take_idemp. reflexivity.
Qed.

Lemma convert_scraped_record (url main ts : string)
    (pages : list (string * string)) :
  convert_floats_to_decimal (VDict (scraped_record url main pages ts))
  = VDict (scraped_record url main pages ts).
Proof.
  apply convert_fixes_float_free. cbn.
  induction pages as [ | p pages IH]; [reflexivity | exact IH].
Qed.

(** X13. The cache is a faithful store: content cached for a website at
    time [t] is what a lookup for that website returns at any time less
    than 24 hours after [t] (also when the clock reads earlier than
    [t]), and nothing from 24 hours on; lookups for other websites are
    not affected by the write; and a scrape result is cached as it is,
    the float conversion leaving it unchanged. *)
Theorem cached_content_round_trip (now t : Z) (url url' main ts : string)
    (scraped : value) (pages : list (string * string))
    (table : gmap string Worker.cache_item) :
  Worker.check_cache now url (Worker.cache_content t url scraped table)
  = (if Z.ltb (now - t) (24 * 3600 * 1000000)
     then Some (convert_floats_to_decimal scraped) else None)
  /\ (if String.eqb url' url then True
      else Worker.check_cache now url' (Worker.cache_content t url scraped table)
           = Worker.check_cache now url' table)
  /\ Worker.check_cache t url
       (Worker.cache_content t url (VDict (scraped_record url main pages ts))
          table)
     = Some (VDict (scraped_record url main pages ts)).
Proof.
  split.
  { apply check_cache_entry. unfold Worker.cache_content. apply lookup_insert_eq. }
  split.
  { destruct (String.eqb_spec url' url) as [ | Hne]; [exact I | ].
    unfold Worker.check_cache, Worker.cache_content.
    rewrite lookup_insert_ne by congruence. reflexivity. }
  rewrite (check_cache_entry t t url
             (convert_floats_to_decimal (VDict (scraped_record url main pages ts))))
    by (unfold Worker.cache_content; apply lookup_insert_eq).
  rewrite Z.sub_diag, convert_scraped_record. reflexivity.
Qed.

(** X14. On a cache miss (no entry, an unreadable timestamp or a stale
    entry) the pipeline scrapes: the browser log grows by the events of
    one scrape; when the scrape gives content, that content is returned
    and cached for the website under the time of the write; when it
    gives nothing, nothing is returned and the cache is left exactly as
    it was. Entries of other websites are never touched. *)
Theorem cache_miss_scrapes_and_caches (svc : Worker.services)
    (ck : Worker.clock) (url url' : string) (w : Worker.world)
    (Hmiss : Worker.check_cache (Worker.lookup_time ck) url
               (Worker.cache_table w) = None) :
  let scrape := Worker.scrape_website svc url (Worker.stamp ck)
                  Worker.DEFAULT_MAX_RETRIES in
  let run := Worker.obtain_content svc ck (VStr url) w in
  snd run = snd scrape
  /\ Worker.browser_log (fst run) = (Worker.browser_log w ++ fst scrape)%list
  /\ match snd scrape with
     | Some scraped =>
         Worker.cache_table (fst run) !! url
         = Some (Worker.CacheItem (convert_floats_to_decimal scraped)
                   (Some (Worker.cache_time ck)))
     | None => Worker.cache_table (fst run) = Worker.cache_table w
     end
  /\ (if String.eqb url' url then True
      else Worker.cache_table (fst run) !! url' = Worker.cache_table w !! url').
Proof.
  intros scrape run. subst run. unfold Worker.obtain_content.
  rewrite Hmiss. cbn [Worker.truthy_opt]. fold scrape.
  destruct scrape as [events [scraped | ]]; cbn [fst snd].
  - split; [reflexivity | ]. split; [reflexivity | ].
    cbn. unfold Worker.cache_content.
    split; [apply lookup_insert_eq | ].
    destruct (String.eqb_spec url' url) as [ | Hne]; [exact I | ].
    rewrite lookup_insert_ne by congruence. reflexivity.
  - split; [reflexivity | ]. split; [reflexivity | ]. split; [reflexivity | ].
    destruct (String.eqb url' url); [exact I | reflexivity].
Qed.

Lemma cache_miss_scrapes_and_caches_witness :
  Worker.check_cache (Worker.lookup_time example_clock) "https://other.example"
    (Worker.cache_table example_world) = None
  /\ snd (Worker.obtain_content crash_service example_clock
            (VStr "https://other.example") example_world) = None.
Proof.
  assert (Hmiss : Worker.check_cache (Worker.lookup_time example_clock)
                    "https://other.example"
                    (Worker.cache_table example_world) = None)
    by (vm_compute; reflexivity).
  split; [exact Hmiss | ].
  pose proof (cache_miss_scrapes_and_caches crash_service example_clock
                "https://other.example" "https://example.com" example_world
                Hmiss) as H.
  cbv zeta in H. destruct H as (Hs & _). rewrite Hs. reflexivity.
Defined.

(** ** Polling worker: the update map *)

Lemma texts_from_first_non_text (parts : list value) (index : nat) (v : value) :
  In v parts -> is_text v = false ->
  exists (texts : list string) (item : value) (rest : list value),
    parts = (map VStr texts ++ item :: rest)%list
    /\ is_text item = false
    /\ Worker.texts_from index parts
       = Raise (Worker.join_error (index + length texts) item).
Proof.
  revert index. induction parts as [ | p parts IH]; intros index; [intros [] | ].
  intros Hin Hv.
  destruct (is_text p) eqn:Hp.
  - destruct p as [ | b | n | r | l | s | l | d]; try discriminate.
    destruct Hin as [<- | Hin]; [discriminate | ].
    destruct (IH (S index) Hin Hv) as (texts & item & rest & -> & Hitem & Hraise).
    exists (s :: texts), item, rest.
    split; [reflexivity | ]. split; [exact Hitem | ].
    cbn [Worker.texts_from]. rewrite Hraise. cbn [mbind result_bind length].
    now rewrite Nat.add_succ_r.
  - exists [], p, parts.
    split; [reflexivity | ]. split; [exact Hp | ].
    cbn [length]. rewrite Nat.add_0_r.
    destruct p; try reflexivity. discriminate.
Qed.

(** X15. A valid address part that is not text (a postal code returned
    as a number, say) makes the write-back fail: every true value that
    is not text passes the validity check, and the comma join then
    raises at the first part that is not text, naming its position
    among the valid parts and its type; so no update map is built,
    nothing is changed, and the exception reaches the caller. *)
Theorem non_text_address_part_fails_the_write_back (svc : Worker.services)
    (lead_id v : value) (info address : list (string * value)) (date : string)
    (w : Worker.world)
    (Haddr : Worker.address_of info = Ok address)
    (Hin : In v (Worker.address_parts address))
    (Hv : is_text v = false) :
  Worker.is_valid_value v = true
  /\ exists (texts : list string) (item : value) (rest : list value),
       Worker.address_parts address = (map VStr texts ++ item :: rest)%list
       /\ is_text item = false
       /\ Worker.build_update_data info date
          = Raise ("sequence item " +:+ pretty (length texts)
                   +:+ ": expected str instance, " +:+ Py.type_name item
                   +:+ " found")
       /\ fst (Worker.update_salesforce_lead svc lead_id info date w) = w
       /\ match Worker.sf_connect svc with
          | Ok _ =>
              snd (Worker.update_salesforce_lead svc lead_id info date w)
              = Raise ("sequence item " +:+ pretty (length texts)
                       +:+ ": expected str instance, " +:+ Py.type_name item
                       +:+ " found")
          | Raise e =>
              snd (Worker.update_salesforce_lead svc lead_id info date w)
              = Raise e
          end.
Proof.
  assert (Hvalid : Worker.is_valid_value v = true).
  { pose proof (address_parts_valid address) as Hall.
    rewrite Forall_forall in Hall. apply Hall, list_elem_of_In, Hin. }
  split; [exact Hvalid | ].
  destruct (texts_from_first_non_text _ 0%nat v Hin Hv)
    as (texts & item & rest & Hparts & Hitem & Hraise).
  exists texts, item, rest.
  assert (Hb : Worker.build_update_data info date
               = Raise ("sequence item " +:+ pretty (length texts)
                        +:+ ": expected str instance, " +:+ Py.type_name item
                        +:+ " found")).
  { unfold Worker.build_update_data. rewrite Haddr. cbn [mbind result_bind].
    fold (Worker.texts_of (Worker.address_parts address)) in Hraise.
    destruct (Worker.address_parts address) as [ | p ps]; [destruct Hin | ].
    rewrite Hraise. reflexivity. }
  split; [exact Hparts | ]. split; [exact Hitem | ]. split; [exact Hb | ].
  unfold Worker.update_salesforce_lead. rewrite Hb.
  destruct (Worker.sf_connect svc) as [u | e]; split; reflexivity.
Qed.

Lemma non_text_address_part_fails_the_write_back_witness :
  Worker.address_of extracted_with_numeric_zip
  = Ok [("city", VStr "Springfield"); ("postal_code", VInt 90001)]
  /\ In (VInt 90001)
        (Worker.address_parts
           [("city", VStr "Springfield"); ("postal_code", VInt 90001)])
  /\ Worker.is_valid_value (VInt 90001) = true
  /\ Worker.build_update_data extracted_with_numeric_zip "2024-05-01T01:00:00.000Z"
     = Raise "sequence item 1: expected str instance, int found".
Proof.
  assert (Hin : In (VInt 90001)
                  (Worker.address_parts
                     [("city", VStr "Springfield"); ("postal_code", VInt 90001)]))
    by (right; left; reflexivity).
  split; [reflexivity | ]. split; [exact Hin | ].
  split; [ | reflexivity].
  exact (proj1
    (non_text_address_part_fails_the_write_back timeout_service
       (VStr "00Q000000000001") (VInt 90001) extracted_with_numeric_zip _
       "2024-05-01T01:00:00.000Z" Worker.empty_world eq_refl Hin eq_refl)).
Defined.

Lemma set_fields_lookup_some (enriched standard k : string) (v x : value)
    (d : gmap string value) :
  Worker.set_fields enriched standard v d !! k = Some x ->
  k = standard \/ k = enriched \/ d !! k = Some x.
Proof.
  rewrite set_fields_lookup.
  destruct (Worker.is_valid_value v); cbn [andb]; [ | auto].
  destruct (String.eqb_spec k standard); [auto | ].
  destruct (String.eqb_spec k enriched); cbn [orb]; auto.
Qed.

(** X16. Every update map that the polling worker builds marks the lead
    as enriched: it sets the completed flag to true, the source to
    [AI_Web_Scraping], the date to the time stamp and the confidence to
    the extracted one, or 0 when there is none; and it holds no field
    outside the nineteen enrichment and standard fields. *)
Theorem update_map_marks_the_lead_enriched (info : list (string * value))
    (date : string) (upd : gmap string value)
    (Hbuild : Worker.build_update_data info date = Ok upd) :
  upd !! "Enrichment_Completed__c" = Some (VBool true)
  /\ upd !! "Enrichment_Source__c" = Some (VStr "AI_Web_Scraping")
  /\ upd !! "Enrichment_Date__c" = Some (VStr date)
  /\ upd !! "Enrichment_Confidence__c"
     = Some (Py.get_default "confidence" (VInt 0) info)
  /\ (forall k x, upd !! k = Some x -> In k UPDATE_FIELD_NAMES).
Proof.
  unfold Worker.build_update_data in Hbuild.
  destruct (Worker.address_of info) as [address | e];
    cbn [mbind result_bind] in Hbuild; [ | discriminate].
  assert (Hconf : match info with
                  | [] => VInt 0
                  | _ :: _ => Py.get_default "confidence" (VInt 0) info
                  end = Py.get_default "confidence" (VInt 0) info)
    by (destruct info; reflexivity).
  rewrite Hconf in Hbuild. clear Hconf.
  match type of Hbuild with
  | context [Worker.set_fields "Enriched_Country__c" "Country" ?v ?d] =>
      set (d7 := Worker.set_fields "Enriched_Country__c" "Country" v d) in *
  end.
  assert (Hd7 : forall k x, d7 !! k = Some x -> In k UPDATE_FIELD_NAMES).
  { intros k x Hk. subst d7.
    repeat (apply set_fields_lookup_some in Hk as [-> | [-> | Hk]];
            [cbn; tauto | cbn; tauto | ]).
    rewrite lookup_empty in Hk. discriminate. }
  assert (Hd8 : exists d8,
            (forall k x, d8 !! k = Some x -> In k UPDATE_FIELD_NAMES)
            /\ upd = <["Enrichment_Completed__c" := VBool true]>
                     (<["Enrichment_Source__c" := VStr "AI_Web_Scraping"]>
                      (<["Enrichment_Confidence__c" :=
                           Py.get_default "confidence" (VInt 0) info]>
                       (<["Enrichment_Date__c" := VStr date]> d8)))).
  { destruct (Worker.address_parts address) as [ | p ps].
    - cbn [mbind result_bind] in Hbuild. injection Hbuild as <-.
      exists d7. split; [exact Hd7 | reflexivity].
    - destruct (Worker.texts_of (p :: ps)) as [ss | e];
        cbn [mbind result_bind] in Hbuild; [ | discriminate].
      injection Hbuild as <-. eexists. split; [ | reflexivity].
      intros k x Hk. apply lookup_insert_Some in Hk as [[<- _] | [_ Hk]];
        [cbn; tauto | eauto]. }
  destruct Hd8 as (d8 & Hdom & ->).
  split; [apply lookup_insert_eq | ].
  split; [rewrite lookup_insert_ne by discriminate; apply lookup_insert_eq | ].
  split; [rewrite !lookup_insert_ne by discriminate; apply lookup_insert_eq | ].
  split; [rewrite !lookup_insert_ne by discriminate; apply lookup_insert_eq | ].
  intros k x Hk.
  repeat (apply lookup_insert_Some in Hk as [[<- _] | [_ Hk]]; [cbn; tauto | ]).
  eauto.
Qed.

Lemma update_map_marks_the_lead_enriched_witness :
  Worker.build_update_data example_extracted "2024-05-01T01:00:00.000Z"
  = Ok example_update
  /\ example_update !! "Enrichment_Completed__c" = Some (VBool true).
Proof.
  assert (Hb : Worker.build_update_data example_extracted
                 "2024-05-01T01:00:00.000Z" = Ok example_update)
    by reflexivity.
  split; [exact Hb | ].
  exact (proj1 (update_map_marks_the_lead_enriched example_extracted
                  "2024-05-01T01:00:00.000Z" example_update Hb)).
Defined.

(** ** Polling worker: the loop and the batch entry point *)

Lemma handle_messages_effect (ms : list Worker.message_outcome)
    (st : Worker.loop_state) :
  Worker.deleted (foldl Worker.handle_message st ms)
  = (Worker.deleted st ++ processed_receipts ms)%list
  /\ Worker.total_processed (foldl Worker.handle_message st ms)
     = Worker.total_processed st + Z.of_nat (length (processed_receipts ms)).
Proof.
  revert st. induction ms as [ | m ms IH]; intros st.
  - cbn. rewrite app_nil_r. split; [reflexivity | lia].
  - cbn [foldl]. destruct (IH (Worker.handle_message st m)) as [-> ->].
    destruct m; cbn [Worker.handle_message Worker.deleted Worker.total_processed
                       processed_receipts omap list_omap];
      fold (processed_receipts ms).
    + rewrite <- app_assoc. cbn [app length]. split; [reflexivity | lia].
    + split; reflexivity.
    + split; reflexivity.
Qed.

Lemma loop_step_effect (cfg : Worker.config) (t : Worker.tick)
    (st : Worker.loop_state) :
  exists more,
    Worker.deleted (snd (Worker.loop_step cfg t st))
    = (Worker.deleted st ++ more)%list
    /\ Worker.total_processed (snd (Worker.loop_step cfg t st))
       = Worker.total_processed st + Z.of_nat (length more)
    /\ Forall (fun receipt_handle =>
         exists ms, Worker.received t = Ok ms
                    /\ In (Worker.Processed receipt_handle) ms) more.
Proof.
  unfold Worker.loop_step.
  destruct (Worker.signalled t);
    [exists []; cbn; rewrite app_nil_r; repeat split; [lia | constructor] | ].
  destruct (Worker.received t) as [[ | m ms] | e] eqn:Hr.
  - exists []. destruct (_ && _); cbn; rewrite app_nil_r;
               repeat split; try lia; constructor.
  - exists (processed_receipts (m :: ms)). cbn [snd].
    destruct (handle_messages_effect (m :: ms)
                (Worker.LoopState 0 (Worker.total_processed st)
                   (Worker.deleted st))) as [Hd Ht].
    split; [exact Hd | ]. split; [exact Ht | ].
    apply Forall_forall. intros receipt_handle Hin.
    exists (m :: ms). split; [reflexivity | ].
    unfold processed_receipts in Hin.
    apply list_elem_of_omap in Hin as (x & Hx & Hp).
    destruct x; try discriminate. injection Hp as <-.
    apply list_elem_of_In. exact Hx.
  - exists []. cbn. rewrite app_nil_r. repeat split; [lia | constructor].
Qed.

(** X17. The polling loop deletes a message from the queue exactly when
    its lead was processed: over any run of the loop the receipt handles
    deleted are those deleted before followed by handles of messages
    that a poll of this run delivered and whose processing succeeded,
    and the count of processed leads grows by exactly their number;
    messages whose processing failed or raised are never deleted. *)
Theorem only_processed_messages_are_deleted (cfg : Worker.config)
    (ticks : list Worker.tick) (st : Worker.loop_state) :
  let st' := snd (Worker.main_loop cfg ticks st) in
  exists more,
    Worker.deleted st' = (Worker.deleted st ++ more)%list
    /\ Worker.total_processed st'
       = Worker.total_processed st + Z.of_nat (length more)
    /\ Forall (fun receipt_handle =>
         exists t ms, In t ticks /\ Worker.received t = Ok ms
                      /\ In (Worker.Processed receipt_handle) ms) more.
Proof.
  cbv zeta. revert st. induction ticks as [ | t ticks IH]; intros st.
  - exists []. cbn. rewrite app_nil_r. repeat split; [lia | constructor].
  - cbn [Worker.main_loop].
    destruct (loop_step_effect cfg t st) as (more1 & Hd1 & Ht1 & Hf1).
    assert (Hf1' : Forall (fun receipt_handle =>
              exists t0 ms, In t0 (t :: ticks) /\ Worker.received t0 = Ok ms
                            /\ In (Worker.Processed receipt_handle) ms) more1).
    { eapply List.Forall_impl; [ | exact Hf1].
      intros r (ms & Hr & Hin). exists t, ms. cbn. auto. }
    destruct (Worker.loop_step cfg t st) as [[ | | ] st1]; cbn [snd] in *.
    + destruct (IH st1) as (more2 & Hd2 & Ht2 & Hf2).
      exists (more1 ++ more2)%list. rewrite Hd2, Ht2, Hd1, Ht1, length_app.
      split; [now rewrite app_assoc | ]. split; [lia | ].
      apply Forall_app. split; [exact Hf1' | ].
      eapply List.Forall_impl; [ | exact Hf2].
      intros r (t0 & ms & Hin & Hr & Hp). exists t0, ms. cbn. auto.
    + exists more1. auto.
    + exists more1. auto.
Qed.

(** X18. For any configured timeout the idle limit is three polls per
    minute: with auto-shutdown enabled and the loop idle, it keeps
    polling through fewer than [max(1, 3 * IDLE_TIMEOUT_MINUTES)]
    consecutive empty polls and exits for idleness at exactly that many,
    so a timeout of zero or less stops the worker at its first empty
    poll. *)
Theorem idle_limit_follows_the_timeout (cfg : Worker.config) (n : nat)
    (tp : Z) (del : list string) (rest : list Worker.tick)
    (Hauto : Worker.AUTO_SHUTDOWN_ENABLED cfg = true)
    (Hn : (n < Z.to_nat (Z.max 1 (3 * Worker.IDLE_TIMEOUT_MINUTES cfg)))%nat) :
  let limit := Z.to_nat (Z.max 1 (3 * Worker.IDLE_TIMEOUT_MINUTES cfg)) in
  Worker.main_loop cfg (replicate n Worker.empty_poll)
    (Worker.LoopState 0 tp del)
  = (Worker.Polling, Worker.LoopState (Z.of_nat n) tp del)
  /\ Worker.main_loop cfg (replicate limit Worker.empty_poll ++ rest)%list
       (Worker.LoopState 0 tp del)
     = (Worker.IdleShutdown, Worker.LoopState (Z.of_nat limit) tp del).
Proof.
  intros limit.
  assert (Hmax : Worker.MAX_IDLE_POLLS cfg = Worker.IDLE_TIMEOUT_MINUTES cfg * 3)
    by reflexivity.
  assert (Hbelow : forall m : nat, (m < limit)%nat -> forall more,
            Worker.main_loop cfg (replicate m Worker.empty_poll ++ more)%list
              (Worker.LoopState 0 tp del)
            = Worker.main_loop cfg more (Worker.LoopState (Z.of_nat m) tp del)).
  { intros m Hm more. destruct m as [ | m]; [reflexivity | ].
    rewrite empty_polls_below_limit by lia. reflexivity. }
  split.
  - rewrite <- (app_nil_r (replicate n Worker.empty_poll)).
    rewrite Hbelow by exact Hn. reflexivity.
  - assert (Hl : limit = S (limit - 1)) by lia.
    rewrite Hl at 1.
    replace (replicate (S (limit - 1)) Worker.empty_poll)
      with (replicate (limit - 1) Worker.empty_poll ++ [Worker.empty_poll])%list
      by (rewrite <- replicate_S_end; reflexivity).
    rewrite <- app_assoc.
    rewrite Hbelow by lia.
    cbn [app]. rewrite empty_poll_at_limit by (auto; lia).
    do 2 f_equal. lia.
Qed.

Lemma idle_limit_follows_the_timeout_witness :
  Worker.AUTO_SHUTDOWN_ENABLED (Worker.Config true 1) = true
  /\ (2 < Z.to_nat (Z.max 1 (3 * Worker.IDLE_TIMEOUT_MINUTES
                                   (Worker.Config true 1))))%nat
  /\ Worker.main_loop (Worker.Config true 1) (replicate 3 Worker.empty_poll)
       Worker.initial_state
     = (Worker.IdleShutdown, Worker.LoopState 3 0 []).
Proof.
  assert (Hn : (2 < Z.to_nat (Z.max 1 (3 * Worker.IDLE_TIMEOUT_MINUTES
                                             (Worker.Config true 1))))%nat)
    by (cbn; lia).
  split; [reflexivity | ]. split; [exact Hn | ].
  pose proof (idle_limit_follows_the_timeout (Worker.Config true 1) 2 0 [] []
                eq_refl Hn) as H.
  cbv zeta in H. destruct H as [_ H].
  rewrite app_nil_r in H. exact H.
Defined.

(** X19. A transient error of the queue poll changes nothing: the loop
    sleeps and polls again with the idle counter, the processed count
    and the deleted messages as they were, so a run behaves exactly as
    the same run without its failed polls. *)
Theorem poll_errors_change_nothing (cfg : Worker.config)
    (ticks : list Worker.tick) (st : Worker.loop_state) :
  Worker.main_loop cfg ticks st
  = Worker.main_loop cfg
      (List.filter (fun t => negb (is_poll_error t)) ticks) st.
Proof.
  revert st. induction ticks as [ | t ticks IH]; intros st; [reflexivity | ].
  cbn [List.filter]. destruct (is_poll_error t) eqn:Herr; cbn [negb].
  - cbn [Worker.main_loop]. unfold is_poll_error in Herr.
    unfold Worker.loop_step.
    destruct (Worker.signalled t); [discriminate | ].
    destruct (Worker.received t); [discriminate | ].
    apply IH.
  - cbn [Worker.main_loop].
    destruct (Worker.loop_step cfg t st) as [[ | | ] st1];
      [apply IH | reflexivity | reflexivity].
Qed.

Lemma process_lead_accounted (svc : Worker.services) (ck : Worker.clock)
    (job_id : string) (lead parameters : list (string * value))
    (w : Worker.world) :
  lead_accounted job_id w
    (fst (Worker.process_lead svc ck job_id lead parameters w))
    (enriched (snd (Worker.process_lead svc ck job_id lead parameters w))).
Proof.
  apply (process_lead_cases svc ck job_id lead parameters w
           (fun run => lead_accounted job_id w (fst run) (enriched (snd run)))).
  - intros lead_id e w0 Hs. cbn [fst snd enriched].
    apply (lead_accounted_from _ _ w0); [exact Hs | apply save_error_accounted].
  - intros lead_id info w0 Hs.
    apply (lead_accounted_from _ _ w0); [exact Hs | apply finish_lead_accounted].
Qed.

Lemma handle_records_counts (svc : Worker.services)
    (records : list (Worker.clock * result Worker.message)) (p0 f0 : Z)
    (w : Worker.world) :
  let run := Worker.handle_records svc records p0 f0 w in
  exists stored : nat,
    p0 <= fst (snd run) /\ f0 <= snd (snd run)
    /\ (fst (snd run) - p0) + (snd (snd run) - f0) = Z.of_nat (length records)
    /\ length (Worker.results_table (fst run))
       = (length (Worker.results_table w) + stored)%nat
    /\ fst (snd run) - p0 <= Z.of_nat stored <= Z.of_nat (length records).
Proof.
  cbv zeta. revert p0 f0 w.
  induction records as [ | [ck parsed] records IH]; intros p0 f0 w.
  - exists 0%nat. cbn. repeat split; lia.
  - cbn [Worker.handle_records].
    assert (Hone : exists d : nat,
              length (Worker.results_table
                        (fst (Worker.handle_record svc ck parsed w)))
              = (length (Worker.results_table w) + d)%nat
              /\ (d <= 1)%nat
              /\ (snd (Worker.handle_record svc ck parsed w) = true -> d = 1%nat)).
    { unfold Worker.handle_record.
      destruct parsed as [m | e]; [ | exists 0%nat; cbn; repeat split; lia].
      destruct (Worker.msg_lead m);
        try (exists 0%nat; cbn; repeat split; lia).
      pose proof (process_lead_accounted svc ck (Worker.msg_job_id m) items
                    (Worker.msg_parameters m) w) as (Hlen & _).
      destruct (Worker.process_lead svc ck (Worker.msg_job_id m) items
                  (Worker.msg_parameters m) w) as [w' r].
      cbn [fst snd] in *. exists 1%nat. rewrite Hlen. repeat split; lia. }
    destruct Hone as (d & Hlen & Hd & Htrue).
    destruct (Worker.handle_record svc ck parsed w) as [w' [ | ]];
      cbn [fst snd] in *.
    + destruct (IH (p0 + 1) f0 w') as (stored & Hp & Hf & Hsum & Hres & Hb).
      exists (d + stored)%nat. rewrite Hres, Hlen.
      specialize (Htrue eq_refl). cbn [length]. repeat split; lia.
    + destruct (IH p0 (f0 + 1) w') as (stored & Hp & Hf & Hsum & Hres & Hb).
      exists (d + stored)%nat. rewrite Hres, Hlen.
      cbn [length]. repeat split; lia.
Qed.

(** X20. The batch entry point accounts for every record of the batch and
    never raises for one of them: its answer has status code 200 and its
    processed and failed counts add up to the number of records; a
    record that cannot be parsed, or whose pipeline fails, counts as
    failed and the remaining records are still handled. The results
    stored during the batch are at least the processed count and at
    most the number of records. *)
Theorem batch_counts_every_record (svc : Worker.services)
    (records : list (Worker.clock * result Worker.message))
    (w : Worker.world) :
  let run := Worker.lambda_handler svc records w in
  exists (processed failed : Z) (stored : nat),
    snd run = VDict [("statusCode", VInt 200);
                     ("body", VDict [("processed", VInt processed);
                                     ("failed", VInt failed)])]
    /\ 0 <= processed /\ 0 <= failed
    /\ processed + failed = Z.of_nat (length records)
    /\ length (Worker.results_table (fst run))
       = (length (Worker.results_table w) + stored)%nat
    /\ processed <= Z.of_nat stored <= Z.of_nat (length records).
Proof.
  cbv zeta. unfold Worker.lambda_handler.
  destruct (handle_records_counts svc records 0 0 w)
    as (stored & Hp & Hf & Hsum & Hres & Hb).
  destruct (Worker.handle_records svc records 0 0 w) as [w' [p f]].
  cbn [fst snd] in *.
  exists p, f, stored. repeat split; try lia; try exact Hres.
Qed.

(** ** Event-triggered worker *)

(** X21. The event-triggered scraper gives up where the polling scraper
    tries again: when the first navigation fails with a retryable
    message and a second attempt would succeed, the event-triggered
    worker has made its single navigation (timeout 15000 ms) and has no
    content, while the polling worker pauses 1 s, navigates again with
    30000 ms and returns the content. *)
Theorem event_worker_does_not_retry (svc : Worker.services) (url ts e text : string)
    (links : list Worker.link)
    (Hfirst : forall timeout, Worker.browser_visit svc url 0 timeout = Raise e)
    (Hretry : Worker.is_retryable e = true)
    (Hsecond : Worker.browser_visit svc url 1 30000 = Ok (text, links)) :
  WorkerEcs.scrape_website svc url ts
  = ([Worker.Navigate url 0 15000], None)
  /\ Worker.scrape_website svc url ts Worker.DEFAULT_MAX_RETRIES
     = ([Worker.Navigate url 0 20000; Worker.Sleep 1;
         Worker.Navigate url 1 30000],
        Some (VDict [("url", VStr url); ("main_content", VStr text);
                     ("additional_pages",
                      VList (Worker.additional_pages links));
                     ("scraped_at", VStr ts)])).
Proof.
  split.
  - unfold WorkerEcs.scrape_website. rewrite Hfirst. reflexivity.
  - unfold Worker.scrape_website, Worker.DEFAULT_MAX_RETRIES.
    rewrite (scrape_attempt_retries svc url ts e 3 2 0 (Hfirst _) Hretry)
      by (cbn; lia).
    cbn [Worker.scrape_attempts].
    change (Worker.attempt_timeout 1) with 30000. rewrite Hsecond.
    reflexivity.
Qed.

Lemma event_worker_does_not_retry_witness :
  Worker.is_retryable "Timeout 20000ms exceeded." = true
  /\ Worker.browser_visit flaky_service "https://example.com" 1 30000
     = Ok ("Acme Inc.", [])
  /\ snd (WorkerEcs.scrape_website flaky_service "https://example.com" "t")
     = None.
Proof.
  split; [reflexivity | ]. split; [reflexivity | ].
  pose proof (event_worker_does_not_retry flaky_service "https://example.com"
                "t" "Timeout 20000ms exceeded." "Acme Inc." []
                (fun _ => eq_refl) eq_refl eq_refl) as [H _].
  rewrite H. reflexivity.
Defined.

Lemma conditional_insert_lookup (b : bool) (enriched standard k : string)
    (v : value) (d : gmap string value) :
  (if b then <[standard := v]> (<[enriched := v]> d) else d) !! k
  = if b && (String.eqb k standard || String.eqb k enriched)
    then Some v else d !! k.
Proof.
  destruct b; cbn [andb]; [ | reflexivity].
  destruct (String.eqb_spec k standard) as [-> | Hs]; cbn [orb].
  - apply lookup_insert_eq.
  - rewrite lookup_insert_ne by congruence.
    destruct (String.eqb_spec k enriched) as [-> | He].
    + apply lookup_insert_eq.
    + now rewrite lookup_insert_ne by congruence.
Qed.

Lemma set_name_cases (enriched standard : string) (v : value)
    (d d' : gmap string value) :
  WorkerEcs.set_name enriched standard v d = Ok d' ->
  exists b, WorkerEcs.name_accepted v = Ok b
            /\ d' = if b then <[standard := v]> (<[enriched := v]> d) else d.
Proof.
  unfold WorkerEcs.set_name.
  destruct (WorkerEcs.name_accepted v) as [[ | ] | e]; intros [= <-];
    eexists; split; reflexivity.
Qed.

Lemma set_address_field_lookup (enriched standard k : string) (v : value)
    (d : gmap string value) :
  WorkerEcs.set_address_field enriched standard v d !! k
  = if Py.truthy v && (String.eqb k standard || String.eqb k enriched)
    then Some v else d !! k.
Proof. apply conditional_insert_lookup. Qed.

(** The name and address fields of the update map of the event-triggered
    worker are the ones its seven blocks leave. *)
Lemma ecs_update_data_lookup (info address : list (string * value))
    (date k : string) (upd : gmap string value) :
  WorkerEcs.build_update_data info date = Ok upd ->
  WorkerEcs.address_of info = Ok address ->
  Py.str_in k ["Enriched_Full_Address__c"; "Enrichment_Date__c";
               "Enrichment_Confidence__c"; "Enrichment_Source__c";
               "Enrichment_Completed__c"] = false ->
  exists b1 b2,
    WorkerEcs.name_accepted (Py.get "first_name" info) = Ok b1
    /\ WorkerEcs.name_accepted (Py.get "last_name" info) = Ok b2
    /\ upd !! k
       = WorkerEcs.set_address_field "Enriched_Country__c" "Country"
           (Py.get "country" address)
           (WorkerEcs.set_address_field "Enriched_Postal_Code__c" "PostalCode"
              (Py.get "postal_code" address)
              (WorkerEcs.set_address_field "Enriched_State__c" "State"
                 (Py.get "state" address)
                 (WorkerEcs.set_address_field "Enriched_City__c" "City"
                    (Py.get "city" address)
                    (WorkerEcs.set_address_field "Enriched_Street__c" "Street"
                       (Py.get "street" address)
                       (if b2
                        then <["LastName" := Py.get "last_name" info]>
                               (<["Enriched_Last_Name__c" :=
                                    Py.get "last_name" info]>
                                  (if b1
                                   then <["FirstName" :=
                                            Py.get "first_name" info]>
                                          (<["Enriched_First_Name__c" :=
                                               Py.get "first_name" info]>
                                             (∅ : gmap string value))
                                   else ∅))
                        else
                          (if b1
                           then <["FirstName" := Py.get "first_name" info]>
                                  (<["Enriched_First_Name__c" :=
                                       Py.get "first_name" info]>
                                     (∅ : gmap string value))
                           else ∅))))))
         !! k.
Proof.
  intros Hb Haddr Hk.
  unfold Py.str_in in Hk. cbn [existsb] in Hk.
  repeat (apply orb_false_iff in Hk as [?%String.eqb_neq Hk]).
  unfold WorkerEcs.build_update_data in Hb.
  destruct (WorkerEcs.set_name _ _ (Py.get "first_name" info) _) as [d1 | e]
    eqn:Hn1; cbn [mbind result_bind] in Hb; [ | discriminate].
  destruct (WorkerEcs.set_name _ _ (Py.get "last_name" info) d1) as [d2 | e]
    eqn:Hn2; cbn [mbind result_bind] in Hb; [ | discriminate].
  apply set_name_cases in Hn1 as (b1 & Hb1 & ->).
  apply set_name_cases in Hn2 as (b2 & Hb2 & ->).
  rewrite Haddr in Hb. cbn [mbind result_bind] in Hb.
  exists b1, b2. split; [exact Hb1 | ]. split; [exact Hb2 | ].
  destruct (WorkerEcs.address_parts address) as [ | p ps].
  - cbn [mbind result_bind] in Hb. injection Hb as <-.
    now rewrite !lookup_insert_ne by congruence.
  - destruct (Worker.texts_of (p :: ps)) as [ss | e];
      cbn [mbind result_bind] in Hb; [ | discriminate].
    injection Hb as <-.
    now rewrite !lookup_insert_ne by congruence.
Qed.

Lemma truthy_text (s : string) :
  Py.truthy (VStr s) = negb (String.eqb s "").
Proof. destruct s; reflexivity. Qed.

(** Whenever the event-triggered worker finds an address, the polling
    worker finds the same one. *)
Lemma address_of_agree (info address : list (string * value)) :
  WorkerEcs.address_of info = Ok address ->
  Worker.address_of info = Ok address.
Proof.
  unfold WorkerEcs.address_of, Worker.address_of, Py.get_default, Py.get.
  destruct (Py.dict_get "address" info) as [v | ]; cbn [default].
  - destruct v as [ | b | n | r | l | s | l | d]; try discriminate.
    intros [= <-]. destruct d; reflexivity.
  - intros [= <-]. reflexivity.
Qed.

Ltac ecs_address_field Hb Haddr :=
  match goal with
  | |- ?u !! ?k = _ =>
      destruct (ecs_update_data_lookup _ _ _ k u Hb Haddr eq_refl)
        as (? & ? & _ & _ & ->)
  end;
  rewrite !set_address_field_lookup, !conditional_insert_lookup;
  cbn [String.eqb Ascii.eqb Bool.eqb orb andb];
  rewrite ?andb_false_r, ?andb_true_r; cbn [andb orb].

(** X22. The write-back of the event-triggered worker takes every
    address part that is true: for street, city, state, postal code and
    country the update map holds the value under both the custom and
    the standard field when the value is true and under neither
    otherwise; a name is written when it is true and its lowercase form
    is not [not found].  The polling worker reads the same address, but
    a non-empty placeholder text ([N/A], [unknown], ...) as an address
    part is written by the event-triggered worker and left out by the
    polling worker. *)
Theorem event_worker_writes_placeholder_address_parts
    (info address : list (string * value)) (date : string)
    (upd : gmap string value)
    (Hbuild : WorkerEcs.build_update_data info date = Ok upd)
    (Haddr : WorkerEcs.address_of info = Ok address) :
  Forall (address_field_written_ecs address upd) ADDRESS_FIELDS
  /\ match WorkerEcs.name_accepted (Py.get "first_name" info) with
     | Ok true =>
         upd !! "FirstName" = Some (Py.get "first_name" info)
         /\ upd !! "Enriched_First_Name__c" = Some (Py.get "first_name" info)
     | Ok false =>
         upd !! "FirstName" = None /\ upd !! "Enriched_First_Name__c" = None
     | Raise _ => False
     end
  /\ match WorkerEcs.name_accepted (Py.get "last_name" info) with
     | Ok true =>
         upd !! "LastName" = Some (Py.get "last_name" info)
         /\ upd !! "Enriched_Last_Name__c" = Some (Py.get "last_name" info)
     | Ok false =>
         upd !! "LastName" = None /\ upd !! "Enriched_Last_Name__c" = None
     | Raise _ => False
     end
  /\ Worker.address_of info = Ok address
  /\ forall upd' : gmap string value,
       Worker.build_update_data info date = Ok upd' ->
       Forall (fun '(key, enriched, standard) =>
                 forall s : string,
                   Py.get key address = VStr s -> s <> "" ->
                   spec_placeholder s = true ->
                   upd !! standard = Some (VStr s)
                   /\ upd !! enriched = Some (VStr s)
                   /\ upd' !! standard = None
                   /\ upd' !! enriched = None)
              ADDRESS_FIELDS.
Proof.
  assert (Hfields : Forall (address_field_written_ecs address upd)
                      ADDRESS_FIELDS).
  { unfold ADDRESS_FIELDS.
    repeat (apply List.Forall_cons || apply List.Forall_nil);
      unfold address_field_written_ecs;
      match goal with
      | |- context [Py.truthy ?v] => destruct (Py.truthy v) eqn:Hv
      end;
      split; ecs_address_field Hbuild Haddr;
      rewrite ?Hv; cbn [andb orb];
      repeat match goal with
             | |- context [Py.truthy ?x && false] =>
                 rewrite (andb_false_r (Py.truthy x))
             | |- context [Py.truthy ?x && true] =>
                 rewrite (andb_true_r (Py.truthy x))
             end;
      rewrite ?Hv; try reflexivity;
      repeat match goal with
             | b : bool |- _ => destruct b
             end; reflexivity. }
  split; [exact Hfields | ].
  split.
  { destruct (ecs_update_data_lookup _ _ _ "FirstName" _ Hbuild Haddr eq_refl)
      as (b1 & b2 & Hb1 & _ & H1).
    destruct (ecs_update_data_lookup _ _ _ "Enriched_First_Name__c" _
                Hbuild Haddr eq_refl) as (b1' & b2' & Hb1' & _ & H2).
    rewrite Hb1 in Hb1'. injection Hb1' as <-.
    rewrite Hb1, H1, H2.
    rewrite !set_address_field_lookup, !conditional_insert_lookup.
    cbn [String.eqb Ascii.eqb Bool.eqb orb andb].
    rewrite ?andb_false_r, ?andb_true_r. cbn [andb orb].
    destruct b1, b2, b2'; split; reflexivity. }
  split.
  { destruct (ecs_update_data_lookup _ _ _ "LastName" _ Hbuild Haddr eq_refl)
      as (b1 & b2 & _ & Hb2 & H1).
    destruct (ecs_update_data_lookup _ _ _ "Enriched_Last_Name__c" _
                Hbuild Haddr eq_refl) as (b1' & b2' & _ & Hb2' & H2).
    rewrite Hb2 in Hb2'. injection Hb2' as <-.
    rewrite Hb2, H1, H2.
    rewrite !set_address_field_lookup, !conditional_insert_lookup.
    cbn [String.eqb Ascii.eqb Bool.eqb orb andb].
    rewrite ?andb_false_r, ?andb_true_r. cbn [andb orb].
    destruct b1, b1', b2; split; reflexivity. }
  split; [exact (address_of_agree _ _ Haddr) | ].
  intros upd' Hbuild'.
  pose proof (address_of_agree _ _ Haddr) as Haddr'.
  unfold ADDRESS_FIELDS in Hfields |- *.
  repeat match goal with
         | H : Forall _ (_ :: _) |- _ =>
             apply List.Forall_cons_iff in H as [? H]
         end.
  repeat (apply List.Forall_cons || apply List.Forall_nil);
    intros s Hs Hne Hp;
    match goal with
    | H : address_field_written_ecs _ _ (?key, _, _),
      Hs : Py.get ?key _ = _ |- _ =>
        unfold address_field_written_ecs in H; rewrite Hs in H;
        rewrite truthy_text in H;
        destruct (String.eqb_spec s "") as [ | _]; [contradiction | ];
        cbn [negb] in H; destruct H as [He Hst]
    end;
    (split; [exact Hst | ]); (split; [exact He | ]);
    assert (Hinv : Worker.is_valid_value (VStr s) = false)
      by (rewrite is_valid_text, Hp; reflexivity);
    split;
    rewrite (build_update_data_lookup info address date _ upd'
               Hbuild' Haddr') by reflexivity;
    rewrite !set_fields_lookup; rewrite Hs;
    cbn [String.eqb Ascii.eqb Bool.eqb orb andb];
    rewrite ?Hinv, ?andb_false_r, ?andb_true_r; cbn [andb orb];
    repeat match goal with
           | |- context [Worker.is_valid_value ?x && false] =>
               rewrite (andb_false_r (Worker.is_valid_value x))
           end;
    rewrite ?Hinv; reflexivity.
Qed.

Lemma event_worker_writes_placeholder_address_parts_witness :
  WorkerEcs.build_update_data extracted_with_placeholder_street
    "2024-05-01T01:00:00.000Z" = Ok example_update_ecs
  /\ WorkerEcs.address_of extracted_with_placeholder_street
     = Ok [("street", VStr "N/A"); ("city", VStr "Austin");
           ("state", VStr "")]
  /\ Forall (address_field_written_ecs
               [("street", VStr "N/A"); ("city", VStr "Austin");
                ("state", VStr "")]
               example_update_ecs)
            ADDRESS_FIELDS.
Proof.
  assert (Hb : WorkerEcs.build_update_data extracted_with_placeholder_street
                 "2024-05-01T01:00:00.000Z" = Ok example_update_ecs)
    by reflexivity.
  split; [exact Hb | ].
  split; [reflexivity | ].
  exact (proj1 (event_worker_writes_placeholder_address_parts
                  extracted_with_placeholder_street _
                  "2024-05-01T01:00:00.000Z" example_update_ecs Hb eq_refl)).
Defined.

(** X23. An address that is present, false and not a dictionary
    ([null], an empty text, an empty list) stops the write-back of the
    event-triggered worker, which reads it with [get('address', {})]:
    no update map is built and, whatever the CRM answers, the call fails
    and changes nothing.  The polling worker, which reads
    [get('address') or {}], builds its update map with no address
    field. *)
Theorem false_address_fails_only_the_event_worker
    (info : list (string * value)) (date : string) (v : value)
    (Hget : Py.dict_get "address" info = Some v)
    (Hfalse : Py.truthy v = false)
    (Hshape : forall d, v <> VDict d) :
  (exists e, WorkerEcs.build_update_data info date = Raise e)
  /\ (forall (svc : Worker.services) (lead_id : value) (w : Worker.world),
        exists e,
          WorkerEcs.update_salesforce_lead svc lead_id info date w
          = (w, Raise e))
  /\ exists upd,
       Worker.build_update_data info date = Ok upd
       /\ Forall (fun k => upd !! k = None)
                 ["Street"; "Enriched_Street__c"; "City"; "Enriched_City__c";
                  "State"; "Enriched_State__c"; "PostalCode";
                  "Enriched_Postal_Code__c"; "Country";
                  "Enriched_Country__c"; "Enriched_Full_Address__c"].
Proof.
  assert (Hecs : exists e, WorkerEcs.address_of info = Raise e).
  { unfold WorkerEcs.address_of, Py.get_default. rewrite Hget. cbn [default].
    destruct v as [ | b | n | r | l | s | l | d];
      try (eexists; reflexivity).
    now destruct (Hshape d). }
  assert (Hraise : exists e, WorkerEcs.build_update_data info date = Raise e).
  { destruct Hecs as [e He]. unfold WorkerEcs.build_update_data.
    destruct (WorkerEcs.set_name _ _ (Py.get "first_name" info) _) as [d1 | e1];
      cbn [mbind result_bind]; [ | eexists; reflexivity].
    destruct (WorkerEcs.set_name _ _ (Py.get "last_name" info) d1) as [d2 | e2];
      cbn [mbind result_bind]; [ | eexists; reflexivity].
    rewrite He. eexists; reflexivity. }
  assert (Hpoll : Worker.address_of info = Ok []).
  { unfold Worker.address_of, Py.get. cbv zeta. rewrite Hget.
    change (default VNone (Some v)) with v. now rewrite Hfalse. }
  split; [exact Hraise | ].
  split.
  { intros svc lead_id w. destruct Hraise as [e He].
    unfold WorkerEcs.update_salesforce_lead. rewrite He.
    destruct (Worker.sf_connect svc); eexists; reflexivity. }
  assert (Hok : exists upd, Worker.build_update_data info date = Ok upd).
  { unfold Worker.build_update_data. rewrite Hpoll.
    cbn [mbind result_bind]. eexists; reflexivity. }
  destruct Hok as [upd Hupd]. exists upd. split; [exact Hupd | ].
  pose proof (full_address_lookup info [] date upd Hupd Hpoll) as Hfull.
  repeat (apply List.Forall_cons || apply List.Forall_nil);
    try exact Hfull;
    rewrite (build_update_data_lookup info [] date _ upd Hupd Hpoll)
      by reflexivity;
    rewrite !set_fields_lookup;
    cbn [String.eqb Ascii.eqb Bool.eqb orb andb];
    change (Worker.is_valid_value (Py.get _ [])) with false; cbn [andb];
    rewrite ?andb_false_r; cbn [andb orb];
    repeat match goal with
           | |- context [Worker.is_valid_value ?x && false] =>
               rewrite (andb_false_r (Worker.is_valid_value x))
           end;
    reflexivity.
Qed.

Lemma false_address_fails_only_the_event_worker_witness :
  Py.dict_get "address" extracted_with_null_address = Some VNone
  /\ exists e,
       WorkerEcs.build_update_data extracted_with_null_address
         "2024-05-01T01:00:00.000Z" = Raise e.
Proof.
  split; [reflexivity | ].
  exact (proj1 (false_address_fails_only_the_event_worker
                  extracted_with_null_address "2024-05-01T01:00:00.000Z"
                  VNone eq_refl eq_refl
                  (fun d H => eq_ind VNone
                                (fun x => match x with
                                          | VNone => True
                                          | _ => False
                                          end) I (VDict d) H))).
Defined.

(** ** Monitoring script: the latest jobs *)

Lemma ascii_compare_cases (c1 c2 : ascii) :
  CompareSpec (c1 = c2) (N_of_ascii c1 < N_of_ascii c2)%N
    (N_of_ascii c2 < N_of_ascii c1)%N (Ascii.compare c1 c2).
Proof.
  unfold Ascii.compare.
  destruct (N.compare_spec (N_of_ascii c1) (N_of_ascii c2)) as [H | H | H];
    constructor; try exact H.
  rewrite <- (ascii_N_embedding c1), <- (ascii_N_embedding c2).
  now rewrite H.
Qed.

Lemma string_leb_trans (s1 s2 s3 : string) :
  String.leb s1 s2 = true -> String.leb s2 s3 = true ->
  String.leb s1 s3 = true.
Proof.
  revert s2 s3. unfold String.leb.
  induction s1 as [ | c1 s1 IH]; intros [ | c2 s2] [ | c3 s3];
    cbn [String.compare]; try easy.
  destruct (ascii_compare_cases c1 c2); destruct (ascii_compare_cases c2 c3);
    destruct (ascii_compare_cases c1 c3); subst; try lia; try easy.
  apply IH.
Qed.

Lemma insert_descending_perm {A : Type} (k : string) (x : A)
    (l : list (string * A)) :
  Permutation (Monitor.insert_descending String.leb k x l) ((k, x) :: l).
Proof.
  induction l as [ | [k' y] l IH]; cbn [Monitor.insert_descending].
  - reflexivity.
  - destruct (String.leb k k'); [ | reflexivity].
    rewrite IH. apply perm_swap.
Qed.

Lemma insert_descending_sorted {A : Type} (k : string) (x : A)
    (l : list (string * A)) :
  Sorted (fun a b => String.leb (fst b) (fst a) = true) l ->
  Sorted (fun a b => String.leb (fst b) (fst a) = true)
         (Monitor.insert_descending String.leb k x l).
Proof.
  induction 1 as [ | [k' y] l Hs IH Hhd]; cbn [Monitor.insert_descending].
  - repeat constructor.
  - destruct (String.leb k k') eqn:Hk.
    + constructor; [exact IH | ].
      destruct l as [ | [k'' z] l]; cbn [Monitor.insert_descending].
      * constructor. exact Hk.
      * destruct (String.leb k k''); constructor.
        -- now inversion Hhd.
        -- exact Hk.
    + constructor; [now constructor | ]. constructor. cbn [fst].
      destruct (String.leb_total k k') as [H | H]; [congruence | exact H].
Qed.

Lemma sort_descending_from {A : Type} (l acc : list (string * A)) :
  Sorted (fun a b => String.leb (fst b) (fst a) = true) acc ->
  Sorted (fun a b => String.leb (fst b) (fst a) = true)
         (foldl (fun sorted kx =>
                   Monitor.insert_descending String.leb (fst kx) (snd kx)
                     sorted) acc l)
  /\ Permutation
       (foldl (fun sorted kx =>
                 Monitor.insert_descending String.leb (fst kx) (snd kx)
                   sorted) acc l)
       (acc ++ l).
Proof.
  revert acc. induction l as [ | [k x] l IH]; intros acc Hacc; cbn [foldl].
  - rewrite app_nil_r. split; [exact Hacc | reflexivity].
  - destruct (IH _ (insert_descending_sorted k x acc Hacc)) as [Hs Hp].
    split; [exact Hs | ].
    rewrite Hp. cbn [fst snd]. rewrite insert_descending_perm.
    apply Permutation_middle.
Qed.

(** Sorting jobs whose keys are all texts is sorting them by these
    texts. *)
Lemma sort_descending_texts {A : Type} (l acc : list (string * A)) :
  foldl (fun sorted kx =>
           Monitor.insert_descending Monitor.key_leb (fst kx) (snd kx) sorted)
        (map (fun kx => (Monitor.KeyText (fst kx), snd kx)) acc)
        (map (fun kx => (Monitor.KeyText (fst kx), snd kx)) l)
  = map (fun kx => (Monitor.KeyText (fst kx), snd kx))
        (foldl (fun sorted kx =>
                  Monitor.insert_descending String.leb (fst kx) (snd kx)
                    sorted) acc l).
Proof.
  revert acc. induction l as [ | [k x] l IH]; intros acc; [reflexivity | ].
  cbn [map foldl fst snd]. rewrite <- IH. f_equal.
  induction acc as [ | [k' y] acc IHacc]; [reflexivity | ].
  cbn [map Monitor.insert_descending fst snd Monitor.key_leb].
  destruct (String.leb k k'); [ | reflexivity].
  cbn [map fst snd]. now rewrite IHacc.
Qed.

Lemma sort_descending_text_keys {A : Type} (l : list (string * A)) :
  Monitor.sort_descending Monitor.key_leb
    (map (fun kx => (Monitor.KeyText (fst kx), snd kx)) l)
  = map (fun kx => (Monitor.KeyText (fst kx), snd kx))
        (Monitor.sort_descending String.leb l).
Proof. exact (sort_descending_texts l []). Qed.

Lemma keyed_jobs_text (jobs : list (list (string * value))) :
  Forall (fun j => is_text (Py.get_default "created_at" (VStr "") j) = true)
         jobs ->
  Monitor.keyed_jobs jobs
  = Ok (map (fun kx => (Monitor.KeyText (fst kx), snd kx))
            (map (fun j => (job_key j, j)) jobs)).
Proof.
  induction 1 as [ | j jobs Hj _ IH]; cbn [Monitor.keyed_jobs map].
  - reflexivity.
  - rewrite IH. unfold Monitor.created_at_key, job_key.
    destruct (Py.get_default "created_at" (VStr "") j); try discriminate.
    reflexivity.
Qed.

Lemma all_same_kind_texts {A : Type} (l : list (string * A)) :
  Monitor.all_same_kind (map (fun kx => (Monitor.KeyText (fst kx), snd kx)) l)
  = true.
Proof.
  destruct l as [ | [k x] l]; [reflexivity | ].
  cbn [map Monitor.all_same_kind fst snd].
  induction l as [ | [k' y] l IH]; [reflexivity | exact IH].
Qed.

(** With text keys the jobs come out as sorted by these texts. *)
Lemma latest_jobs_steps_text (jobs : list (list (string * value)))
    (limit : nat) :
  Forall (fun j => is_text (Py.get_default "created_at" (VStr "") j) = true)
         jobs ->
  match jobs with
  | [] => Ok []
  | [job] => Ok (firstn limit [job])
  | _ =>
      ks ← Monitor.keyed_jobs jobs;
      if Monitor.all_same_kind ks
      then Ok (firstn limit (map snd (Monitor.sort_descending Monitor.key_leb ks)))
      else Raise "'<' not supported between instances of 'str' and 'decimal.Decimal'"
  end
  = Ok (firstn limit
          (map snd (Monitor.sort_descending String.leb
                      (map (fun j => (job_key j, j)) jobs)))).
Proof.
  intros Htext.
  destruct jobs as [ | j [ | j' jobs]].
  - now destruct limit.
  - reflexivity.
  - rewrite (keyed_jobs_text _ Htext). cbn [mbind result_bind].
    rewrite all_same_kind_texts.
    rewrite sort_descending_text_keys, map_map. cbn [snd]. reflexivity.
Qed.

Lemma sorted_jobs_of_keyed (ks : list (string * list (string * value))) :
  Forall (fun kx => fst kx = job_key (snd kx)) ks ->
  Sorted (fun a b => String.leb (fst b) (fst a) = true) ks ->
  StronglySorted newer_or_equal (map snd ks).
Proof.
  intros Hkeys Hs.
  apply Sorted_StronglySorted.
  { intros a b c Hab Hbc. unfold newer_or_equal in *.
    exact (string_leb_trans _ _ _ Hbc Hab). }
  induction Hs as [ | kx ks Hs IH Hhd]; cbn [map]; [constructor | ].
  apply List.Forall_cons_iff in Hkeys as [Hk Hkeys].
  constructor; [exact (IH Hkeys) | ].
  destruct Hhd as [ | ky ks' Hr]; cbn [map]; constructor.
  apply List.Forall_cons_iff in Hkeys as [Hk' _].
  unfold newer_or_equal. now rewrite <- Hk, <- Hk'.
Qed.

Lemma strongly_sorted_split {A : Type} (R : A -> A -> Prop) (l1 l2 : list A) :
  StronglySorted R (l1 ++ l2) ->
  StronglySorted R l1
  /\ Forall (fun r => Forall (fun a => R a r) l1) l2.
Proof.
  induction l1 as [ | a l1 IH]; cbn [app]; intros Hs.
  - split; [constructor | ].
    apply List.Forall_forall. intros r _. constructor.
  - inversion Hs as [ | a' l' Hs' Ha]; subst.
    destruct (IH Hs') as [H1 H2].
    apply List.Forall_app in Ha as [Ha1 Ha2].
    split; [now constructor | ].
    rewrite List.Forall_forall in H2, Ha2 |- *.
    intros r Hr. constructor; [exact (Ha2 r Hr) | exact (H2 r Hr)].
Qed.

(** X24. The monitor shows the newest jobs, newest first.  When the
    scan of the jobs table succeeds (the limited scan, or the full scan
    when the limited one is empty) and every creation time is text,
    [get_latest_jobs] returns [min limit n] of the [n] scanned jobs in
    descending order of creation time, and every scanned job that it
    leaves out is no newer than any job that it returns. *)
Theorem latest_jobs_are_the_newest (scans : Monitor.job_scans) (limit : nat)
    (jobs : list (list (string * value)))
    (Hscan : (Monitor.scan_limited scans = Ok jobs /\ jobs <> [])
             \/ (Monitor.scan_limited scans = Ok []
                 /\ Monitor.scan_all scans = Ok jobs))
    (Htext : Forall (fun j => is_text (Py.get_default "created_at" (VStr "") j)
                              = true) jobs) :
  exists rest,
    Permutation (Monitor.get_latest_jobs scans limit ++ rest) jobs
    /\ length (Monitor.get_latest_jobs scans limit)
       = Nat.min limit (length jobs)
    /\ Sorted newer_or_equal (Monitor.get_latest_jobs scans limit)
    /\ Forall (fun r => Forall (fun j => newer_or_equal j r)
                               (Monitor.get_latest_jobs scans limit))
              rest.
Proof.
  set (ks := map (fun j => (job_key j, j)) jobs).
  assert (Hlatest : Monitor.get_latest_jobs scans limit
                    = firstn limit
                        (map snd (Monitor.sort_descending String.leb ks))).
  { unfold Monitor.get_latest_jobs, Monitor.latest_jobs_steps.
    pose proof (latest_jobs_steps_text jobs limit Htext) as Hsteps.
    destruct Hscan as [[-> Hne] | [-> ->]]; cbn [mbind result_bind].
    - destruct jobs as [ | j jobs']; [congruence | ].
      cbn [mbind result_bind]. now rewrite Hsteps.
    - now rewrite Hsteps. }
  destruct (sort_descending_from ks [] (Sorted_nil _)) as [Hs Hp].
  change (foldl _ [] ks) with (Monitor.sort_descending String.leb ks) in Hs, Hp.
  cbn [app] in Hp.
  assert (Hkeys : Forall (fun kx => fst kx = job_key (snd kx))
                    (Monitor.sort_descending String.leb ks)).
  { rewrite Hp. subst ks. apply List.Forall_forall.
    intros kx [j [<- _]]%in_map_iff. reflexivity. }
  pose proof (sorted_jobs_of_keyed _ Hkeys Hs) as Hstrong.
  assert (Hperm : Permutation (map snd (Monitor.sort_descending String.leb ks)) jobs).
  { rewrite Hp. subst ks. rewrite map_map. cbn [snd]. now rewrite map_id. }
  rewrite <- (firstn_skipn limit (map snd (Monitor.sort_descending String.leb ks)))
    in Hstrong.
  apply strongly_sorted_split in Hstrong as [Hfirst Hrest].
  exists (skipn limit (map snd (Monitor.sort_descending String.leb ks))).
  rewrite Hlatest. split.
  { now rewrite firstn_skipn. }
  split.
  { rewrite length_firstn. now rewrite (Permutation_length Hperm). }
  split; [now apply StronglySorted_Sorted | exact Hrest].
Qed.

Lemma latest_jobs_are_the_newest_witness :
  Monitor.get_latest_jobs (Monitor.JobScans (Ok three_jobs) (Raise "unused")) 2
  = [nth 1 three_jobs []; nth 2 three_jobs []]
  /\ exists rest,
       Permutation
         (Monitor.get_latest_jobs
            (Monitor.JobScans (Ok three_jobs) (Raise "unused")) 2 ++ rest)
         three_jobs.
Proof.
  split; [reflexivity | ].
  destruct (latest_jobs_are_the_newest
              (Monitor.JobScans (Ok three_jobs) (Raise "unused")) 2 three_jobs
              (or_introl (conj eq_refl
                            (fun H : three_jobs = [] =>
                               eq_ind three_jobs
                                 (fun l => match l with
                                           | [] => False
                                           | _ => True
                                           end) I [] H)))
              ltac:(repeat constructor))
    as (rest & Hperm & _).
  exists rest. exact Hperm.
Defined.
